(** * cnosolar: plant-configuration form and net-effective-capacity statistic

    A shallow embedding of

    - [src/cnosolar/gui_config.py]: [str_to_list], [check_inverter],
      [check_module], [check_mount], [check_econfig], [sys_config] and the
      widget handlers that build the panels these functions read;
    - [src/Cuadernos_Interactivos/scripts/cno_cen.py]: [get_cen].

    Python values are an inductive type, dictionaries are insertion-ordered
    association lists, exceptions are an error monad, and the local
    variables of a function body live in a store so that reading a name that
    no executed branch assigned raises [UnboundLocalError], as in Python.

    Numbers: a Python [float] is modelled by the rational it denotes
    (binary64 rounding, overflow, NaN and the infinities of *inputs* are not
    represented); the places where the code itself manufactures a special
    value, the array division and the rounding in [get_cen], have their own
    element type. *)

From Stdlib Require Import ZArith QArith Qround Bool List String Ascii Lia Lqa
  Sorting.Sorted Sorting.Permutation.
Import ListNotations.

Set Warnings "-register-all".

Local Open Scope string_scope.
Local Open Scope list_scope.
Local Open Scope Z_scope.

(** ** Exceptions and the error monad *)

Inductive exn : Type :=
| UnboundLocalError
| KeyError
| IndexError
| AttributeError
| TypeError
| ValueError
| ZeroDivisionError
| JSONDecodeError
| RecursionError.

Inductive result (A : Type) : Type :=
| Ok (a : A)
| Raise (e : exn).

Arguments Ok {A} a.
Arguments Raise {A} e.

Definition rbind {A B : Type} (r : result A) (k : A -> result B) : result B :=
  match r with
  | Ok a => k a
  | Raise e => Raise e
  end.

Declare Scope result_scope.
Delimit Scope result_scope with result.
Notation "r >>= k" := (rbind r k)
  (at level 58, left associativity).
Notation "x <- r ;; k" := (rbind r (fun x => k))
  (at level 61, r at next level, right associativity) : result_scope.
Notation "' p <- r ;; k" := (rbind r (fun x => let 'p := x in k))
  (at level 61, p pattern, r at next level, right associativity) : result_scope.

Definition succeeds {A : Type} (r : result A) : Prop := exists a, r = Ok a.

(** ** Python values *)

Inductive pyval : Type :=
| PNone
| PBool (b : bool)
| PInt (z : Z)
| PFloat (q : Q)
| PStr (s : string)
| PList (l : list pyval)
| PDict (d : list (string * pyval)).

(** A [dict] with string keys, in insertion order. *)
Definition dict : Type := list (string * pyval).

Fixpoint dict_get (d : dict) (k : string) : result pyval :=
  match d with
  | [] => Raise KeyError
  | (k', v) :: d' => if String.eqb k' k then Ok v else dict_get d' k
  end.

(** [d[k] = v]: an existing key keeps its position, a new key goes last. *)
Fixpoint dict_set (d : dict) (k : string) (v : pyval) : dict :=
  match d with
  | [] => [(k, v)]
  | (k', v') :: d' =>
      if String.eqb k' k then (k', v) :: d' else (k', v') :: dict_set d' k v
  end.

Definition dict_keys (d : dict) : list string := map fst d.

(** A dict display [{k1: v1, ...}]: later duplicates overwrite. *)
Definition dict_display (items : list (string * pyval)) : dict :=
  fold_left (fun d kv => dict_set d (fst kv) (snd kv)) items [].

(** [v == s] for a string literal [s]: only a [str] can be equal to it. *)
Definition py_eq_str (v : pyval) (s : string) : bool :=
  match v with
  | PStr s' => String.eqb s' s
  | _ => false
  end.

(** [v in [s1, ..., sn]] for a list of string literals. *)
Definition py_in_strs (v : pyval) (l : list string) : bool :=
  existsb (py_eq_str v) l.

(** [v == False]: [False], [0] and [0.0] compare equal to [False]. *)
Definition py_eq_False (v : pyval) : bool :=
  match v with
  | PBool b => negb b
  | PInt z => Z.eqb z 0
  | PFloat q => Qeq_bool q 0
  | _ => false
  end.

(** [l[i]] on a list, for the non-negative literal indices the code uses. *)
Definition py_index (v : pyval) (i : nat) : result pyval :=
  match v with
  | PList l =>
      match nth_error l i with
      | Some x => Ok x
      | None => Raise IndexError
      end
  | _ => Raise TypeError
  end.

(** [v[k]] on a dict. *)
Definition py_item (v : pyval) (k : string) : result pyval :=
  match v with
  | PDict d => dict_get d k
  | _ => Raise TypeError
  end.

(** ** Widgets

    An ipywidgets tree as far as the form reads it: an input widget has a
    [.value], a box has [.children]. *)

Inductive widget : Type :=
| Input (value : pyval)
| Box (children : list widget).

Definition children_at (w : widget) (i : nat) : result widget :=
  match w with
  | Box cs =>
      match nth_error cs i with
      | Some c => Ok c
      | None => Raise IndexError
      end
  | Input _ => Raise AttributeError
  end.

Definition value_of (w : widget) : result pyval :=
  match w with
  | Input v => Ok v
  | Box _ => Raise AttributeError
  end.

(** [w.children[i1].children[i2]. ... .value] *)
Fixpoint value_at (w : widget) (path : list nat) : result pyval :=
  match path with
  | [] => value_of w
  | i :: path' =>
      match children_at w i with
      | Ok c => value_at c path'
      | Raise e => Raise e
      end
  end.

(** ** Text: characters, digits and white space *)

Local Open Scope char_scope.

Definition text : Type := list ascii.

Definition is_digit (c : ascii) : bool :=
  (48 <=? N_of_ascii c)%N && (N_of_ascii c <=? 57)%N.

Definition digit_val (c : ascii) : Z := Z.of_N (N_of_ascii c) - 48.

(** The longest prefix of digits, and what follows it. *)
Fixpoint span_digits (s : text) : text * text :=
  match s with
  | c :: r =>
      if is_digit c then let (ds, r') := span_digits r in (c :: ds, r')
      else ([], s)
  | [] => ([], [])
  end.

Definition digits_val (ds : text) : Z :=
  fold_left (fun acc c => 10 * acc + digit_val c) ds 0.

(** JSON white space, [' \t\n\r']. *)
Definition is_ws (c : ascii) : bool :=
  match c with
  | " " | "009" | "010" | "013" => true
  | _ => false
  end.

Fixpoint skip_ws (s : text) : text :=
  match s with
  | c :: r => if is_ws c then skip_ws r else s
  | [] => []
  end.

(** White space removed by [str.strip()], and so ignored around the
    argument of [float] and [int]: JSON's plus vertical tab and form feed. *)
Definition is_space (c : ascii) : bool :=
  match c with
  | " " | "009" | "010" | "011" | "012" | "013" => true
  | _ => false
  end.

Fixpoint lstrip (s : text) : text :=
  match s with
  | c :: r => if is_space c then lstrip r else s
  | [] => []
  end.

Definition strip (s : text) : text := rev (lstrip (rev (lstrip s))).

(** ** Decimal numerals

    The value denoted by sign, integer digits, fraction digits and
    exponent.  Without fraction and exponent it is an [int], otherwise a
    [float], here the rational written; the code keeps the nearest
    binary64, an infinity past its range. *)

Definition pow10 (n : Z) : Q := Qpower (10 # 1) n.

Definition signed_exp (e : bool * text) : Z :=
  if fst e then - digits_val (snd e) else digits_val (snd e).

Definition float_value (neg : bool) (ip : text) (fp : text)
    (ep : option (bool * text)) : Q :=
  let mantissa :=
    (inject_Z (digits_val ip)
     + inject_Z (digits_val fp) * pow10 (- Z.of_nat (List.length fp)))%Q in
  let scaled :=
    match ep with
    | Some e => (mantissa * pow10 (signed_exp e))%Q
    | None => mantissa
    end in
  if neg then Qopp scaled else scaled.

Definition number_value (neg : bool) (ip : text) (fp : option text)
    (ep : option (bool * text)) : pyval :=
  match fp, ep with
  | None, None => PInt (if neg then - digits_val ip else digits_val ip)
  | _, _ =>
      PFloat (float_value neg ip (match fp with Some f => f | None => [] end) ep)
  end.

(** One given character at the head of [s]. *)
Definition eat (c : ascii) (s : text) : option text :=
  match s with
  | x :: r => if Ascii.eqb x c then Some r else None
  | [] => None
  end.

(** An optional sign; [true] for minus. *)
Definition scan_sign (s : text) : bool * text :=
  match eat "-" s with
  | Some r => (true, r)
  | None =>
      match eat "+" s with
      | Some r => (false, r)
      | None => (false, s)
      end
  end.

(** An optional exponent at the head of [s]: [e] or [E], an optional sign
    and at least one digit; when the text there is not a complete exponent
    nothing is consumed. *)
Definition scan_exponent (s : text) : option (bool * text) * text :=
  match s with
  | e :: r =>
      if Ascii.eqb e "e" || Ascii.eqb e "E" then
        let (neg, r1) := scan_sign r in
        match span_digits r1 with
        | ([], _) => (None, s)
        | (es, t) => (Some (neg, es), t)
        end
      else (None, s)
  | [] => (None, s)
  end.

(** An optional fraction at the head of [s]: a point and at least one
    digit. *)
Definition scan_fraction (s : text) : option text * text :=
  match eat "." s with
  | Some r =>
      match span_digits r with
      | ([], _) => (None, s)
      | (fs, t) => (Some fs, t)
      end
  | None => (None, s)
  end.

(** [json.scanner.NUMBER_RE.match] at the head of [s]: an optional minus,
    then a single zero or a non-zero digit followed by digits, then an
    optional fraction and an optional exponent. *)
Definition match_number (s : text) : option (pyval * text) :=
  let (neg, s1) :=
    match eat "-" s with
    | Some r => (true, r)
    | None => (false, s)
    end in
  match s1 with
  | c :: r =>
      if is_digit c then
        let (ds, r1) := if Ascii.eqb c "0" then ([], r) else span_digits r in
        let (fp, r2) := scan_fraction r1 in
        let (ep, r3) := scan_exponent r2 in
        Some (number_value neg (c :: ds) fp ep, r3)
      else None
  | [] => None
  end.

(** ** [json.loads]

    The decoder of the [json] module on ASCII text: [scan_once],
    [JSONArray], [JSONObject] and [py_scanstring] in strict mode.  Outside
    the model: [\u] escapes, the constants [NaN], [Infinity] and
    [-Infinity] (no rational denotes them) and non-ASCII digits; the model
    rejects a text that uses them.  The recursion is on a fuel that
    [json_loads] sets from the length of the text, twice the length and
    two, which is enough for any text. *)

Definition dquote : ascii := "034".
Definition backslash : ascii := "092".

Fixpoint strip_prefix (p s : text) : option text :=
  match p, s with
  | [], _ => Some s
  | a :: p', b :: s' => if Ascii.eqb a b then strip_prefix p' s' else None
  | _ :: _, [] => None
  end.

(** The body of a string literal, after its opening quote. *)
Fixpoint py_scanstring (s : text) (acc : text) : result (string * text) :=
  match s with
  | [] => Raise JSONDecodeError
  | c :: r =>
      if Ascii.eqb c dquote then Ok (string_of_list_ascii (rev acc), r)
      else if Ascii.eqb c backslash then
        match r with
        | e :: r' =>
            if Ascii.eqb e dquote then py_scanstring r' (dquote :: acc)
            else if Ascii.eqb e backslash then py_scanstring r' (backslash :: acc)
            else if Ascii.eqb e "/" then py_scanstring r' ("/" :: acc)
            else if Ascii.eqb e "b" then py_scanstring r' ("008" :: acc)
            else if Ascii.eqb e "f" then py_scanstring r' ("012" :: acc)
            else if Ascii.eqb e "n" then py_scanstring r' ("010" :: acc)
            else if Ascii.eqb e "r" then py_scanstring r' ("013" :: acc)
            else if Ascii.eqb e "t" then py_scanstring r' ("009" :: acc)
            else Raise JSONDecodeError
        | [] => Raise JSONDecodeError
        end
      else if (N_of_ascii c <? 32)%N then Raise JSONDecodeError
      else py_scanstring r (c :: acc)
  end.

Definition lit_null : text := list_ascii_of_string "null".
Definition lit_true : text := list_ascii_of_string "true".
Definition lit_false : text := list_ascii_of_string "false".

Fixpoint scan_once (fuel : nat) (s : text) {struct fuel}
    : result (pyval * text) :=
  match fuel with
  | O => Raise RecursionError
  | S fuel' =>
      match s with
      | [] => Raise JSONDecodeError
      | c :: r =>
          if Ascii.eqb c dquote then
            (' (str, r') <- py_scanstring r [] ;; Ok (PStr str, r'))%result
          else if Ascii.eqb c "{" then
            match skip_ws r with
            | c' :: r' =>
                if Ascii.eqb c' "}" then Ok (PDict [], r')
                else JSONObject fuel' [] (c' :: r')
            | [] => Raise JSONDecodeError
            end
          else if Ascii.eqb c "[" then
            match skip_ws r with
            | c' :: r' =>
                if Ascii.eqb c' "]" then Ok (PList [], r')
                else JSONArray fuel' [] (c' :: r')
            | [] => Raise JSONDecodeError
            end
          else
            match strip_prefix lit_null s with
            | Some r' => Ok (PNone, r')
            | None =>
            match strip_prefix lit_true s with
            | Some r' => Ok (PBool true, r')
            | None =>
            match strip_prefix lit_false s with
            | Some r' => Ok (PBool false, r')
            | None =>
            match match_number s with
            | Some x => Ok x
            | None => Raise JSONDecodeError
            end end end end
      end
  end

(** The loop of [JSONArray], entered at the first character of a value. *)
with JSONArray (fuel : nat) (values : list pyval) (s : text) {struct fuel}
    : result (pyval * text) :=
  match fuel with
  | O => Raise RecursionError
  | S fuel' =>
      (' (value, r) <- scan_once fuel' s ;;
       let values' := values ++ [value] in
       match skip_ws r with
       | c :: r' =>
           if Ascii.eqb c "]" then Ok (PList values', r')
           else if Ascii.eqb c "," then JSONArray fuel' values' (skip_ws r')
           else Raise JSONDecodeError
       | [] => Raise JSONDecodeError
       end)%result
  end

(** The loop of [JSONObject], entered at the opening quote of a key. *)
with JSONObject (fuel : nat) (pairs : dict) (s : text) {struct fuel}
    : result (pyval * text) :=
  match fuel with
  | O => Raise RecursionError
  | S fuel' =>
      match s with
      | q :: r =>
          if Ascii.eqb q dquote then
            (' (key, r1) <- py_scanstring r [] ;;
             match skip_ws r1 with
             | c :: r2 =>
                 if Ascii.eqb c ":" then
                   ' (value, r3) <- scan_once fuel' (skip_ws r2) ;;
                   let pairs' := dict_set pairs key value in
                   match skip_ws r3 with
                   | c' :: r4 =>
                       if Ascii.eqb c' "}" then Ok (PDict pairs', r4)
                       else if Ascii.eqb c' "," then
                         JSONObject fuel' pairs' (skip_ws r4)
                       else Raise JSONDecodeError
                   | [] => Raise JSONDecodeError
                   end
                 else Raise JSONDecodeError
             | [] => Raise JSONDecodeError
             end)%result
          else Raise JSONDecodeError
      | [] => Raise JSONDecodeError
      end
  end.

(** [JSONDecoder.decode]: one value, white space allowed around it, and
    nothing after it. *)
Definition json_loads (s : string) : result pyval :=
  let t := list_ascii_of_string s in
  (' (v, r) <- scan_once (2 + 2 * List.length t) (skip_ws t) ;;
   match skip_ws r with
   | [] => Ok v
   | _ :: _ => Raise JSONDecodeError
   end)%result.

(** ** The builtins [float] and [int]

    On a [str]: surrounding white space is ignored, then an optional sign
    and a decimal numeral that must extend to the end.  Python also accepts
    [inf], [nan] and an underscore between two digits; these are outside
    the model, which rejects them. *)

Definition is_nil {A : Type} (l : list A) : bool :=
  match l with
  | [] => true
  | _ :: _ => false
  end.

Definition scan_float (s : text) : option Q :=
  let (neg, s1) := scan_sign s in
  let (ip, r) := span_digits s1 in
  let (fp, r1) :=
    match eat "." r with
    | Some r' => span_digits r'
    | None => ([], r)
    end in
  if is_nil ip && is_nil fp then None
  else
    match scan_exponent r1 with
    | (ep, []) => Some (float_value neg ip fp ep)
    | (_, _ :: _) => None
    end.

Definition py_float (v : pyval) : result pyval :=
  match v with
  | PStr s =>
      match scan_float (strip (list_ascii_of_string s)) with
      | Some q => Ok (PFloat q)
      | None => Raise ValueError
      end
  | PInt z => Ok (PFloat (inject_Z z))
  | PFloat q => Ok (PFloat q)
  | PBool b => Ok (PFloat (if b then 1 else 0))
  | _ => Raise TypeError
  end.

Definition scan_int (s : text) : option Z :=
  let (neg, s1) := scan_sign s in
  match span_digits s1 with
  | ((_ :: _) as ds, []) => Some (if neg then - digits_val ds else digits_val ds)
  | _ => None
  end.

(** [int] of a float truncates toward zero. *)
Definition Qtrunc (q : Q) : Z :=
  if Qle_bool 0 q then Qfloor q else Qceiling q.

Definition py_int (v : pyval) : result pyval :=
  match v with
  | PStr s =>
      match scan_int (strip (list_ascii_of_string s)) with
      | Some z => Ok (PInt z)
      | None => Raise ValueError
      end
  | PInt z => Ok (PInt z)
  | PFloat q => Ok (PInt (Qtrunc q))
  | PBool b => Ok (PInt (if b then 1 else 0))
  | _ => Raise TypeError
  end.

Local Close Scope char_scope.

(** ** Function bodies: local variables in a store

    A name is bound by the assignments that were executed; reading a name
    that is not bound raises [UnboundLocalError]. *)

Definition locals : Type := list (string * pyval).

Definition py (A : Type) : Type := locals -> result (A * locals).

Definition ret {A : Type} (a : A) : py A := fun st => Ok (a, st).

Definition bind {A B : Type} (m : py A) (k : A -> py B) : py B :=
  fun st =>
    match m st with
    | Ok (a, st') => k a st'
    | Raise e => Raise e
    end.

(** [x = e]: evaluate [e], then bind [x]. *)
Definition assign (x : string) (e : result pyval) : py unit :=
  fun st =>
    match e with
    | Ok v => Ok (tt, dict_set st x v)
    | Raise err => Raise err
    end.

(** Read the local variable [x]. *)
Definition name (x : string) : py pyval :=
  fun st =>
    match dict_get st x with
    | Ok v => Ok (v, st)
    | Raise _ => Raise UnboundLocalError
    end.

Definition pass : py unit := ret tt.

(** Evaluate an expression that reads no local variable. *)
Definition lift {A : Type} (e : result A) : py A :=
  fun st =>
    match e with
    | Ok a => Ok (a, st)
    | Raise err => Raise err
    end.

(** Run a body from an empty frame and keep what it returns. *)
Definition call {A : Type} (m : py A) : result A :=
  match m [] with
  | Ok (a, _) => Ok a
  | Raise e => Raise e
  end.

Definition ok (v : pyval) : result pyval := Ok v.
Coercion ok : pyval >-> result.

Declare Scope py_scope.
Delimit Scope py_scope with py.
Bind Scope py_scope with py.
Notation "x <- m ;; k" := (bind m (fun x => k))
  (at level 61, m at next level, right associativity) : py_scope.
Notation "m ;; k" := (bind m (fun _ => k))
  (at level 61, right associativity) : py_scope.
Notation "x ::= e" := (assign x e) (at level 60, e at level 60) : py_scope.

(** ** The form

    The widgets that the status checks read, by the names they have in
    [execute], and the two collaborators that supply equipment records. *)

Record gui : Type := {
  (* location tab *)
  w_latitude : pyval;
  w_longitude : pyval;
  w_altitude : pyval;
  w_timezone : pyval;
  w_albedo : pyval;
  (* inverter tab *)
  inverter_btn : pyval;
  dropdown_invrepo : pyval;
  dropdown_manual : pyval;
  inverter_vbox : widget;
  btn_files : pyval;
  (* module tab *)
  module_btn : pyval;
  dropdown_modrepo : pyval;
  module_vbox : widget;
  modbtn_files : pyval;
  bifacial_vbox : widget;
  (* system configuration tab *)
  w_subarrays : Z;
  w_mps : pyval;
  w_spi : pyval;
  w_numinv : Z;
  tracker_btn : pyval;
  sysconfig_vbox : widget;
  w_loss : pyval;
  kpc_loss : pyval;
  kt_loss : pyval;
  kin_loss : pyval;
  w_name : pyval;
  (* [dict(pvlib.pvsystem.retrieve_sam(database)[name])] *)
  retrieve_sam : pyval -> pyval -> result dict;
  (* [dict(requests.get(.../api/v1/<database>/<id>/).json())] *)
  pvfree_api : pyval -> pyval -> result dict
}.

(** ** [str_to_list] *)

Definition str_to_list (string_ : pyval) : result pyval :=
  match string_ with
  | PStr s => json_loads ("[" ++ s ++ "]")%string
  | _ => Raise TypeError
  end.

(** ** [check_mount] *)

Definition float_list1 (v : result pyval) : result pyval :=
  (s <- v ;; x <- py_float s ;; Ok (PList [x]))%result.

Definition int_list1 (v : result pyval) : result pyval :=
  (s <- v ;; x <- py_int s ;; Ok (PList [x]))%result.

Definition str_to_list_of (v : result pyval) : result pyval :=
  (s <- v ;; str_to_list s)%result.

(** The chain that derives [module_type] from [racking_model]; it has no
    final [else]. *)
Definition module_type_of_racking : py unit :=
  (racking_model <- name "racking_model" ;;
   if py_eq_str racking_model "open_rack" then
     "module_type" ::= PStr "glass_glass"
   else if py_eq_str racking_model "close_mount" then
     "module_type" ::= PStr "glass_glass"
   else if py_eq_str racking_model "insulated_back" then
     "module_type" ::= PStr "glass_polymer"
   else pass)%py.

Definition check_mount (g : gui) (num_arrays : Z) : result pyval :=
  let panel := value_at (sysconfig_vbox g) in
  call (
    (if py_eq_str (tracker_btn g) "Sin Seguidor" then
       "with_tracker" ::= PBool false ;;
       "axis_tilt" ::= PNone ;;
       "axis_azimuth" ::= PNone ;;
       "max_angle" ::= PNone ;;
       "racking_model" ::= panel [2; 2; 1]%nat ;;
       (if num_arrays =? 1 then
          "surface_tilt" ::= float_list1 (panel [2; 0; 1]%nat) ;;
          "surface_azimuth" ::= float_list1 (panel [2; 1; 1]%nat)
        else if num_arrays >? 1 then
          "surface_tilt" ::= str_to_list_of (panel [2; 0; 1]%nat) ;;
          "surface_azimuth" ::= str_to_list_of (panel [2; 1; 1]%nat)
        else pass) ;;
       module_type_of_racking
     else if py_eq_str (tracker_btn g) "Seguidor 1-Eje" then
       "with_tracker" ::= PBool true ;;
       "surface_azimuth" ::= PNone ;;
       "surface_tilt" ::= PNone ;;
       "racking_model" ::= panel [2; 3; 1]%nat ;;
       (if num_arrays =? 1 then
          "axis_tilt" ::= float_list1 (panel [2; 0; 1]%nat) ;;
          "axis_azimuth" ::= float_list1 (panel [2; 1; 1]%nat) ;;
          "max_angle" ::= float_list1 (panel [2; 2; 1]%nat)
        else if num_arrays >? 1 then
          "axis_tilt" ::= str_to_list_of (panel [2; 0; 1]%nat) ;;
          "axis_azimuth" ::= str_to_list_of (panel [2; 1; 1]%nat) ;;
          "max_angle" ::= str_to_list_of (panel [2; 2; 1]%nat)
        else pass) ;;
       module_type_of_racking
     else pass) ;;
    with_tracker <- name "with_tracker" ;;
    surface_azimuth <- name "surface_azimuth" ;;
    surface_tilt <- name "surface_tilt" ;;
    axis_tilt <- name "axis_tilt" ;;
    axis_azimuth <- name "axis_azimuth" ;;
    max_angle <- name "max_angle" ;;
    module_type <- name "module_type" ;;
    racking_model <- name "racking_model" ;;
    ret (PList [with_tracker; surface_azimuth; surface_tilt; axis_tilt;
                axis_azimuth; max_angle; module_type; racking_model]))%py.

(** ** [check_econfig] *)

Definition check_econfig (g : gui) (num_arrays : Z) : result pyval :=
  call (
    "num_inverters" ::= py_int (PInt (w_numinv g)) ;;
    (if num_arrays =? 1 then
       "modules_per_string" ::= int_list1 (w_mps g) ;;
       "strings_per_inverter" ::= int_list1 (w_spi g)
     else if num_arrays >? 1 then
       "modules_per_string" ::= str_to_list (w_mps g) ;;
       "strings_per_inverter" ::= str_to_list (w_spi g)
     else pass) ;;
    modules_per_string <- name "modules_per_string" ;;
    strings_per_inverter <- name "strings_per_inverter" ;;
    num_inverters <- name "num_inverters" ;;
    ret (PList [modules_per_string; strings_per_inverter; num_inverters]))%py.

(** ** Arithmetic on numbers

    [*], [/] and [numpy.round] on [int] and [float] operands ([bool] counts
    as [int]); any other operand raises [TypeError] in the model. *)

Definition to_Q (v : pyval) : option Q :=
  match v with
  | PInt z => Some (inject_Z z)
  | PFloat q => Some q
  | PBool b => Some (if b then 1 else 0)%Q
  | _ => None
  end.

Definition to_Z (v : pyval) : option Z :=
  match v with
  | PInt z => Some z
  | PBool b => Some (if b then 1 else 0)
  | _ => None
  end.

(** [a * b] on numbers; on floats the product of the rationals, which the
    code rounds to binary64. *)
Definition py_mul (a b : pyval) : result pyval :=
  match to_Z a, to_Z b with
  | Some x, Some y => Ok (PInt (x * y))
  | _, _ =>
      match to_Q a, to_Q b with
      | Some x, Some y => Ok (PFloat (x * y))
      | _, _ => Raise TypeError
      end
  end.

Definition py_div (a b : pyval) : result pyval :=
  match to_Q a, to_Q b with
  | Some x, Some y =>
      if Qeq_bool y 0 then Raise ZeroDivisionError else Ok (PFloat (x / y))
  | _, _ => Raise TypeError
  end.

(** Round to the nearest integer, a tie to the even one ([numpy.rint]). *)
Definition rint (q : Q) : Z :=
  let f := Qfloor q in
  match Qcompare (q - inject_Z f) (1 # 2) with
  | Lt => f
  | Gt => f + 1
  | Eq => if Z.even f then f else f + 1
  end.

(** [numpy.round(q, decimals)]: scale by the power of ten, round, scale
    back, on the rational [q].  The code does the three steps in binary64,
    where a scaled value that is a tie here can fall to one side of it. *)
Definition around (q : Q) (decimals : Z) : Q :=
  if 0 <=? decimals then
    Qmake (rint (q * inject_Z (10 ^ decimals))) (Z.to_pos (10 ^ decimals))
  else
    inject_Z (rint (q / inject_Z (10 ^ (- decimals))) * 10 ^ (- decimals)).

Definition np_round (v : pyval) (decimals : Z) : result pyval :=
  match v with
  | PFloat q => Ok (PFloat (around q decimals))
  | PInt z => Ok (PInt (Qfloor (around (inject_Z z) decimals)))
  | _ => Raise TypeError
  end.

(** A dict display whose values are expressions, evaluated left to right. *)
Fixpoint eval_items (items : list (string * result pyval))
    : result (list (string * pyval)) :=
  match items with
  | [] => Ok []
  | (k, e) :: rest =>
      (v <- e ;; vs <- eval_items rest ;; Ok ((k, v) :: vs))%result
  end.

Definition dict_of (items : list (string * result pyval)) : result pyval :=
  (vs <- eval_items items ;; Ok (PDict (dict_display vs)))%result.

(** ** [check_inverter] *)

Definition check_inverter (g : gui) : result pyval :=
  let conf := value_at (inverter_vbox g) in
  call (
    (if py_eq_str (inverter_btn g) "Repositorio" then
       "inverters_database" ::= dropdown_invrepo g ;;
       "inverter_name" ::= conf [3; 0; 1]%nat ;;
       inverters_database <- name "inverters_database" ;;
       inverter_name <- name "inverter_name" ;;
       "inverter" ::=
         (d <- retrieve_sam g inverters_database inverter_name ;;
          Ok (PDict d))%result ;;
       "ac_model" ::= PStr "sandia" ;;
       inverter <- name "inverter" ;;
       "inverter" ::= dict_of [("Paco", py_item inverter "Paco");
                               ("Pdco", py_item inverter "Pdco");
                               ("Vdco", py_item inverter "Vdco");
                               ("Pso", py_item inverter "Pso");
                               ("C0", py_item inverter "C0");
                               ("C1", py_item inverter "C1");
                               ("C2", py_item inverter "C2");
                               ("C3", py_item inverter "C3");
                               ("Pnt", py_item inverter "Pnt")]
     else pass) ;;
    (if py_eq_str (inverter_btn g) "PVsyst" then
       "inverter" ::= py_item (btn_files g) "inv" ;;
       "inverters_database" ::= PNone ;;
       "inverter_name" ::= PNone ;;
       "ac_model" ::= PStr "pvwatts" ;;
       inverter <- name "inverter" ;;
       "inverter" ::= dict_of [("Pdco", py_item inverter "Pdco");
                               ("eta_inv_nom", py_item inverter "eta_inv_nom")]
     else pass) ;;
    (if py_eq_str (inverter_btn g) "Manual" then
       (if py_eq_str (dropdown_manual g) "SNL PVlib" then
          "ac_model" ::= PStr "sandia" ;;
          "inverter" ::= dict_of [("Paco", conf [2; 1; 1]%nat);
                                  ("Pdco", conf [2; 2; 1]%nat);
                                  ("Vdco", conf [2; 3; 1]%nat);
                                  ("Pso", conf [2; 4; 1]%nat);
                                  ("C0", conf [2; 5; 1]%nat);
                                  ("C1", conf [2; 6; 1]%nat);
                                  ("C2", conf [2; 7; 1]%nat);
                                  ("C3", conf [2; 8; 1]%nat);
                                  ("Pnt", conf [2; 9; 1]%nat)]
        else if py_eq_str (dropdown_manual g) "NREL PVWatts" then
          "ac_model" ::= PStr "pvwatts" ;;
          "inverter" ::= dict_of [("Pdco", conf [2; 1; 1]%nat);
                                  ("eta_inv_nom", conf [2; 2; 1]%nat)]
        else pass) ;;
       "inverters_database" ::= PNone ;;
       "inverter_name" ::= PNone
     else pass) ;;
    inverters_database <- name "inverters_database" ;;
    inverter_name <- name "inverter_name" ;;
    inverter <- name "inverter" ;;
    ac_model <- name "ac_model" ;;
    ret (PList [inverters_database; inverter_name; inverter; ac_model]))%py.

(** ** [check_module] *)

(** The value that the technology chain assigns to [module_tec]. *)
Definition module_tec (t : pyval) : pyval :=
  if py_in_strs t ["Mono-c-Si"; "monoSi"; "monosi"; "c-Si"; "xsi"; "mtSiMono"]
  then PStr "monosi"
  else if py_in_strs t ["Multi-c-Si"; "multiSi"; "multisi"; "mc-Si"; "EFG mc-Si"]
  then PStr "multisi"
  else if py_in_strs t ["polySi"; "polysi"; "mtSiPoly"]
  then PStr "polisi"
  else if py_in_strs t ["CIS"; "cis"]
  then PStr "cis"
  else if py_in_strs t ["CIGS"; "cigs"]
  then PStr "cigs"
  else if py_in_strs t ["CdTe"; "cdte"; "Thin Film"; "GaAs"]
  then PStr "cdte"
  else if py_in_strs t ["amorphous"; "asi"; "a-Si / mono-Si"; "2-a-Si";
                        "3-a-Si"; "Si-Film"; "HIT-Si"]
  then PStr "asi"
  else PNone.

(** [np.round(m[a] * 100 / m[b], 6)] *)
Definition percent_of (m : pyval) (a b : string) : result pyval :=
  (x <- py_item m a ;;
   x100 <- py_mul x (PInt 100) ;;
   y <- py_item m b ;;
   r <- py_div x100 y ;;
   np_round r 6)%result.

(** [np.round(m[a] * 100, 6)] *)
Definition percent (m : pyval) (a : string) : result pyval :=
  (x <- py_item m a ;; x100 <- py_mul x (PInt 100) ;; np_round x100 6)%result.

(** [np.round(m[a] * m[b], 2)] *)
Definition product2 (m : pyval) (a b : string) : result pyval :=
  (x <- py_item m a ;; y <- py_item m b ;; p <- py_mul x y ;;
   np_round p 2)%result.

(** [np.round(m[a], 2)] *)
Definition rounded2 (m : pyval) (a : string) : result pyval :=
  (x <- py_item m a ;; np_round x 2)%result.

(** The record built from a CEC-format source record. *)
Definition cec_fields (module : pyval) (convert : bool)
    : list (string * result pyval) :=
  [("T_NOCT", py_item module "T_NOCT");
   ("Technology", py_item module "Technology");
   ("N_s", py_item module "N_s");
   ("I_sc_ref", py_item module "I_sc_ref");
   ("V_oc_ref", py_item module "V_oc_ref");
   ("I_mp_ref", py_item module "I_mp_ref");
   ("V_mp_ref", py_item module "V_mp_ref");
   ("alpha_sc", if convert then percent_of module "alpha_sc" "I_sc_ref"
                else py_item module "alpha_sc");
   ("beta_oc", if convert then percent_of module "beta_oc" "V_oc_ref"
               else py_item module "beta_oc");
   ("gamma_r", py_item module "gamma_r");
   ("STC", py_item module "STC")].

(** The record built from a Sandia-format source record. *)
Definition sandia_fields (module : pyval) : list (string * result pyval) :=
  [("T_NOCT", ok (PInt 45));
   ("Technology", py_item module "Material");
   ("N_s", py_item module "Cells_in_Series");
   ("I_sc_ref", py_item module "Isco");
   ("V_oc_ref", py_item module "Voco");
   ("I_mp_ref", py_item module "Impo");
   ("V_mp_ref", py_item module "Vmpo");
   ("alpha_sc", percent module "Aisc");
   ("beta_oc", percent_of module "Bvoco" "Voco");
   ("gamma_r", ok (PInt 0));
   ("STC", product2 module "Impo" "Vmpo")].

(** [1.38e-23 * (273.15 + 25) / 1.6e-19] *)
Definition thermal_voltage_factor : Q :=
  ((138 # 100) * pow10 (-23) * ((27315 # 100) + 25)
   / ((16 # 10) * pow10 (-19)))%Q.

(** [module['a_ref'] = module['Gamma'] * module['NCelS'] * (...)]: the
    uploaded record itself is updated. *)
Definition set_a_ref (module : pyval) : result pyval :=
  (gamma <- py_item module "Gamma" ;;
   ncels <- py_item module "NCelS" ;;
   x <- py_mul gamma ncels ;;
   a_ref <- py_mul x (PFloat thermal_voltage_factor) ;;
   match module with
   | PDict d => Ok (PDict (dict_set d "a_ref" a_ref))
   | _ => Raise TypeError
   end)%result.

Definition pan_fields (module : pyval) : list (string * result pyval) :=
  [("T_NOCT", py_item module "TRef");
   ("Technology", py_item module "Technol");
   ("N_s", py_item module "NCelS");
   ("I_sc_ref", py_item module "Isc");
   ("V_oc_ref", py_item module "Voc");
   ("I_mp_ref", py_item module "Imp");
   ("V_mp_ref", py_item module "Vmp");
   ("alpha_sc", rounded2 module "mIsc_percent");
   ("beta_oc", rounded2 module "mVoc_percent");
   ("gamma_r", py_item module "mPmpp");
   ("STC", py_item module "Pmpp")].

Definition manual_fields (g : gui) : list (string * result pyval) :=
  let conf := value_at (module_vbox g) in
  [("T_NOCT", conf [1; 1; 1]%nat);
   ("Technology", conf [1; 2; 1]%nat);
   ("N_s", conf [1; 3; 1]%nat);
   ("I_sc_ref", conf [1; 4; 1]%nat);
   ("V_oc_ref", conf [1; 5; 1]%nat);
   ("I_mp_ref", conf [1; 6; 1]%nat);
   ("V_mp_ref", conf [1; 7; 1]%nat);
   ("alpha_sc", conf [1; 8; 1]%nat);
   ("beta_oc", conf [1; 9; 1]%nat);
   ("gamma_r", conf [1; 10; 1]%nat);
   ("STC", conf [1; 11; 1]%nat)].

(** [module['Technology'] = module_tec] *)
Definition set_item (d : pyval) (k : string) (v : pyval) : result pyval :=
  match d with
  | PDict items => Ok (PDict (dict_set items k v))
  | _ => Raise TypeError
  end.

Definition check_module (g : gui) : result pyval :=
  let conf := value_at (module_vbox g) in
  let bif := value_at (bifacial_vbox g) in
  call (
    (if py_eq_str (module_btn g) "Repositorio" then
       if negb (py_eq_str (dropdown_modrepo g) "PVFree") then
         "modules_database" ::= dropdown_modrepo g ;;
         "modules_name" ::= conf [3; 0; 1]%nat ;;
         modules_database <- name "modules_database" ;;
         modules_name <- name "modules_name" ;;
         "module" ::=
           (d <- retrieve_sam g modules_database modules_name ;;
            Ok (PDict d))%result ;;
         module <- name "module" ;;
         if py_eq_str modules_database "CECMod" then
           "module" ::= dict_of (cec_fields module true)
         else if py_eq_str modules_database "SandiaMod" then
           "module" ::= dict_of (sandia_fields module)
         else pass
       else
         "modules_database" ::= dropdown_modrepo g ;;
         "module" ::=
           (database <- conf [2; 0; 1]%nat ;;
            id <- conf [3; 0; 1; 0]%nat ;;
            d <- pvfree_api g database id ;;
            Ok (PDict d))%result ;;
         module <- name "module" ;;
         "modules_name" ::= py_item module "Name" ;;
         database <- lift (conf [2; 0; 1]%nat) ;;
         if py_eq_str database "cecmodule" then
           "module" ::= dict_of (cec_fields module false)
         else if py_eq_str database "pvmodule" then
           "module" ::= dict_of (sandia_fields module)
         else pass
     else pass) ;;
    (if py_eq_str (module_btn g) "PVsyst" then
       "module" ::= py_item (modbtn_files g) "mod" ;;
       module <- name "module" ;;
       "module" ::= set_a_ref module ;;
       "modules_database" ::= PNone ;;
       "modules_name" ::= PNone ;;
       module <- name "module" ;;
       "module" ::= dict_of (pan_fields module)
     else pass) ;;
    (if py_eq_str (module_btn g) "Manual" then
       "module" ::= dict_of (manual_fields g) ;;
       "modules_database" ::= PNone ;;
       "modules_name" ::= PNone
     else pass) ;;
    module <- name "module" ;;
    "t" ::= py_item module "Technology" ;;
    t <- name "t" ;;
    "module_tec" ::= module_tec t ;;
    module_tec <- name "module_tec" ;;
    "module" ::= set_item module "Technology" module_tec ;;
    is_bifacial <- lift (bif [0; 0; 1]%nat) ;;
    (if py_eq_False is_bifacial then
       "bifacial" ::= PBool false ;;
       "bifaciality" ::= PInt 0 ;;
       "row_height" ::= PInt 0 ;;
       "row_width" ::= PInt 0
     else
       "bifacial" ::= PBool true ;;
       "bifaciality" ::= bif [1; 0; 1]%nat ;;
       "row_height" ::= bif [1; 1; 1]%nat ;;
       "row_width" ::= bif [1; 2; 1]%nat) ;;
    modules_database <- name "modules_database" ;;
    modules_name <- name "modules_name" ;;
    module <- name "module" ;;
    bifacial <- name "bifacial" ;;
    bifaciality <- name "bifaciality" ;;
    row_height <- name "row_height" ;;
    row_width <- name "row_width" ;;
    ret (PList [modules_database; modules_name; module; bifacial;
                bifaciality; row_height; row_width]))%py.

(** ** [sys_config] *)

(** [dict(x)] on a dict: a copy. *)
Definition py_dict (v : pyval) : result pyval :=
  match v with
  | PDict d => Ok (PDict d)
  | _ => Raise TypeError
  end.

Definition sys_config (g : gui)
    (inverter_status module_status mount_status econfig_status : pyval)
    : result pyval :=
  dict_of
    [("latitude", ok (w_latitude g));
     ("longitude", ok (w_longitude g));
     ("tz", ok (w_timezone g));
     ("altitude", ok (w_altitude g));
     ("surface_albedo", ok (w_albedo g));
     ("inverter", (x <- py_index inverter_status 2 ;; py_dict x)%result);
     ("ac_model", py_index inverter_status 3);
     ("module", (x <- py_index module_status 2 ;; py_dict x)%result);
     ("bifacial", py_index module_status 3);
     ("bifaciality", py_index module_status 4);
     ("row_height", py_index module_status 5);
     ("row_width", py_index module_status 6);
     ("with_tracker", py_index mount_status 0);
     ("surface_azimuth", py_index mount_status 1);
     ("surface_tilt", py_index mount_status 2);
     ("axis_tilt", py_index mount_status 3);
     ("axis_azimuth", py_index mount_status 4);
     ("max_angle", py_index mount_status 5);
     ("num_arrays", ok (PInt (w_subarrays g)));
     ("modules_per_string", py_index econfig_status 0);
     ("strings_per_inverter", py_index econfig_status 1);
     ("num_inverter", py_index econfig_status 2);
     ("loss", ok (w_loss g));
     ("kpc", ok (kpc_loss g));
     ("kt", ok (kt_loss g));
     ("kin", ok (kin_loss g));
     ("name", ok (w_name g))].

(** ** [on_genconfig_clicked]: the configuration that a click generates *)

Definition on_genconfig_clicked (g : gui) : result pyval :=
  (inverter_status <- check_inverter g ;;
   module_status <- check_module g ;;
   mount_status <- check_mount g (w_subarrays g) ;;
   econfig_status <- check_econfig g (w_subarrays g) ;;
   sys_config g inverter_status module_status mount_status econfig_status)%result.

(** ** The panels that the handlers build

    Each status check reads its inputs by position in the widget tree; the
    positions are those of the trees that the [observe] handlers install.
    A labelled row is [Box([Label(text), widget])]; the label texts, which
    nothing reads, are written here in plain ASCII. *)

Definition Label (s : string) : widget := Input (PStr s).
Definition HTML (s : string) : widget := Input (PStr s).
Definition row (label : string) (value : pyval) : widget :=
  Box [Label label; Input value].

(** [s * n] and [s[:-2]] on strings. *)
Fixpoint str_repeat (s : string) (n : nat) : string :=
  match n with
  | O => EmptyString
  | S n' => (s ++ str_repeat s n')%string
  end.

Definition str_mul (s : string) (n : Z) : string := str_repeat s (Z.to_nat n).

Definition drop_last2 (s : string) : string :=
  let t := list_ascii_of_string s in
  string_of_list_ascii (firstn (List.length t - 2) t).

(** The text that [handle_toggle] and [handle_mppt] put into a per-subarray
    field: ['0'] for one subarray, else ['0, 0, ..., 0']. *)
Definition v_angles (subarrays : Z) : string :=
  if subarrays =? 1 then "0" else drop_last2 (str_mul "0, " subarrays).

Definition header_TO : widget := HTML "<h4>Seguidores y Orientacion</h4>".

Definition no_tracker (w_Tilt w_Azimuth w_Racking : pyval) : widget :=
  Box [row "Elevacion" w_Tilt;
       row "Azimutal" w_Azimuth;
       row "Racking" w_Racking].

Definition single_tracker (w_AxisTilt w_AxisAzimuth w_MaxAngle w_Racking : pyval)
    : widget :=
  Box [row "Elevacion Eje" w_AxisTilt;
       row "Azimutal Eje" w_AxisAzimuth;
       row "Angulo Maximo" w_MaxAngle;
       row "Racking" w_Racking].

(** [handle_toggle] of the tracker buttons: the new children of
    [sysconfig_vbox]; any other value leaves them as they are. *)
Definition handle_toggle (g : gui) (new : pyval) : widget :=
  let v := PStr (v_angles (w_subarrays g)) in
  if py_eq_str new "Sin Seguidor" then
    Box [header_TO; Input (tracker_btn g); no_tracker v v PNone]
  else if py_eq_str new "Seguidor 1-Eje" then
    Box [header_TO; Input (tracker_btn g); single_tracker v v v PNone]
  else sysconfig_vbox g.

(** [handle_mppt]: the text put into [w_mps] and [w_spi]. *)
Definition handle_mppt (new : Z) : pyval := PStr (v_angles new).

(** Inverter tab. *)
Definition w_dropinvrepo (dropdown_invrepo : pyval) : widget :=
  Box [row "Repositorio" dropdown_invrepo].
Definition w_dropmanufac (dropdown_manufac : pyval) : widget :=
  Box [row "Fabricantes" dropdown_manufac].
Definition w_dropinv (inv_drop : pyval) : widget :=
  Box [row "Inversores" inv_drop].
Definition w_dropmanual (dropdown_manual : pyval) : widget :=
  Box [row "Formato de Configuracion" dropdown_manual].

(** [handle_dropdown_repo]: the repository panel with the inverter
    drop-down. *)
Definition inverter_repo_vbox
    (inverter_btn dropdown_invrepo dropdown_manufac inv_drop : pyval)
    : widget :=
  Box [Input inverter_btn; w_dropinvrepo dropdown_invrepo;
       w_dropmanufac dropdown_manufac; w_dropinv inv_drop].

(** [handle_dropdown_manual]: the nine SNL fields, or the two PVWatts
    fields. *)
Definition inv_conf_snl
    (w_Paco w_Pdco w_Vdco w_Pso w_C0 w_C1 w_C2 w_C3 w_Pnt : pyval) : widget :=
  Box [Box [HTML "<h5>Configuracion SNL PVlib</h5>"];
       row "P_AC Nominal [W]" w_Paco;
       row "P_DC Nominal [W]" w_Pdco;
       row "V_DC Nominal [V]" w_Vdco;
       row "P_DC de Arraque [W]" w_Pso;
       row "C_0 [1/W]" w_C0;
       row "C_1 [1/V]" w_C1;
       row "C_2 [1/V]" w_C2;
       row "C_3 [1/V]" w_C3;
       row "P_AC Consumo Nocturno [W]" w_Pnt].

Definition inv_conf_pvwatts (w_pdc0 w_eta_inv_nom : pyval) : widget :=
  Box [Box [HTML "<h5>Configuracion NREL PVWatts</h5>"];
       row "P_DC Nominal [W]" w_pdc0;
       row "Eficiencia Nominal [ad.]" w_eta_inv_nom].

Definition inverter_manual_vbox (inverter_btn dropdown_manual : pyval)
    (inv_conf : widget) : widget :=
  Box [Input inverter_btn; w_dropmanual dropdown_manual; inv_conf].

(** Module tab. *)
Definition w_dropmodrepo (dropdown_modrepo : pyval) : widget :=
  Box [row "Repositorio" dropdown_modrepo].
Definition w_dropmodmanu (dropdown_modmanu : pyval) : widget :=
  Box [row "Fabricantes" dropdown_modmanu].
Definition w_dropmod (mod_drop : pyval) : widget :=
  Box [row "Modulos" mod_drop].

(** [handle_dropdown_modrepo]: the repository panel with the module
    drop-down. *)
Definition module_repo_vbox
    (module_btn dropdown_modrepo dropdown_modmanu mod_drop : pyval)
    : widget :=
  Box [Input module_btn; w_dropmodrepo dropdown_modrepo;
       w_dropmodmanu dropdown_modmanu; w_dropmod mod_drop].

(** [handle_dropdown_modmanuf] on [PVFree]: the database drop-down and the
    numeric id, itself inside a box. *)
Definition module_pvfree_vbox
    (module_btn dropdown_modrepo dropdown_pvfree pvfree_id : pyval)
    : widget :=
  Box [Input module_btn; w_dropmodrepo dropdown_modrepo;
       Box [row "Base de Datos" dropdown_pvfree];
       Box [Box [Label "ID"; Box [Input pvfree_id]]]].

(** [handle_modtoggle] on [Manual]: the eleven fields. *)
Definition mod_conf (w_T_NOCT w_Type w_N_s w_I_sc_ref w_V_oc_ref w_I_mp_ref
    w_V_mp_ref w_alpha_sc w_beta_oc w_gamma_r w_STC : pyval) : widget :=
  Box [Box [HTML "<h5>Configuracion Modulo</h5>"];
       row "T_NOCT [C]" w_T_NOCT;
       row "Tecnologia" w_Type;
       row "Numero Celdas" w_N_s;
       row "I_SC en STC [A]" w_I_sc_ref;
       row "V_OC en STC [V]" w_V_oc_ref;
       row "I_MP en STC [A]" w_I_mp_ref;
       row "V_MP en STC [A]" w_V_mp_ref;
       row "Coef. Temp. I_SC [A/C]" w_alpha_sc;
       row "Coef. Temp. V_OC [V/C]" w_beta_oc;
       row "Coef. Temp. P_MP [%/C]" w_gamma_r;
       row "P_Nominal en STC [W]" w_STC].

Definition module_manual_vbox (module_btn : pyval) (conf : widget) : widget :=
  Box [Input module_btn; conf].

(** [handle_dropdown_bifacial] *)
Definition w_dropbrifacial (dropdown_bifacial : pyval) : widget :=
  Box [row "Panel Bifacial" dropdown_bifacial].

Definition bif_conf (w_bifaciality w_rowheight w_rowwidth : pyval) : widget :=
  Box [row "Bifacialidad [%]" w_bifaciality;
       row "Alto Fila Paneles [m]" w_rowheight;
       row "Ancho Fila Paneles [m]" w_rowwidth].

Definition handle_dropdown_bifacial (new : bool)
    (w_bifaciality w_rowheight w_rowwidth : pyval) : widget :=
  if new then
    Box [w_dropbrifacial (PBool true);
         bif_conf w_bifaciality w_rowheight w_rowwidth]
  else Box [w_dropbrifacial (PBool false)].

(** ** The form as [execute] creates it

    The constructor defaults: nothing is selected, the subarray count is
    zero, the text fields are empty. *)

Definition execute (sam pvfree : pyval -> pyval -> result dict) : gui :=
  {| w_latitude := PFloat 0;
     w_longitude := PFloat 0;
     w_altitude := PFloat 0;
     w_timezone := PStr "America/Bogota";
     w_albedo := PFloat 0;
     inverter_btn := PNone;
     dropdown_invrepo := PNone;
     dropdown_manual := PNone;
     inverter_vbox := Box [Input PNone];
     btn_files := PDict [];
     module_btn := PNone;
     dropdown_modrepo := PNone;
     module_vbox := Box [Input PNone];
     modbtn_files := PDict [];
     bifacial_vbox := Box [w_dropbrifacial (PBool false)];
     w_subarrays := 0;
     w_mps := PStr EmptyString;
     w_spi := PStr EmptyString;
     w_numinv := 1;
     tracker_btn := PNone;
     sysconfig_vbox := Box [header_TO; Input PNone];
     w_loss := PFloat (146 # 10);
     kpc_loss := PFloat 0;
     kt_loss := PFloat 0;
     kin_loss := PFloat 0;
     w_name := PStr EmptyString;
     retrieve_sam := sam;
     pvfree_api := pvfree |}.

(** ** [cno_cen.get_cen]

    Samples are rationals.  The elements of [p] come out of an array
    division, where numpy answers a division by zero with [nan] or an
    infinity and a warning, never with an exception. *)

Inductive npfloat : Type :=
| Finite (q : Q)
| NaN
| PosInf
| NegInf.

(** [x / n] on an array element. *)
Definition true_divide (x : Q) (n : Z) : npfloat :=
  if n =? 0 then
    match Qcompare x 0 with
    | Eq => NaN
    | Gt => PosInf
    | Lt => NegInf
    end
  else Finite (x / inject_Z n).

(** [np.round(x, decimals)] on a float: numpy multiplies by the float
    [10 ** decimals], rounds to an integer and divides again (divides and
    then multiplies when [decimals] is negative).  Up to [10 ** 308] the
    scale factor is finite, and the result is [x] rounded at that decimal
    (as [around] has it, on the rational [x]).
    From [10 ** 309] on it is infinite in binary64, and what comes back is
    [nan] whatever the finite [x]: [inf / inf], or [0 * inf]. *)
Definition np_around (x : Q) (decimals : Z) : npfloat :=
  if (-308 <=? decimals) && (decimals <=? 308)
  then Finite (around x decimals)
  else NaN.

(** [np.arange(n)] *)
Definition arange (n : nat) : list Z := map Z.of_nat (seq 0 n).

(** [np.sort]: ascending. *)
Fixpoint insert_sorted (x : Q) (l : list Q) : list Q :=
  match l with
  | [] => [x]
  | y :: l' => if Qle_bool x y then x :: l else y :: insert_sorted x l'
  end.

Fixpoint np_sort (a : list Q) : list Q :=
  match a with
  | [] => []
  | x :: a' => insert_sorted x (np_sort a')
  end.

Definition Qmax (x y : Q) : Q := if Qle_bool x y then y else x.

(** [np.max]: a reduction without identity, so the empty array is an
    error. *)
Definition np_max (a : list Q) : result Q :=
  match a with
  | [] => Raise ValueError
  | x :: a' => Ok (fold_left Qmax a' x)
  end.

(** [np.percentile(a, q)] with the default linear interpolation: the
    position [(n - 1) * q / 100] in the sorted samples, interpolated between
    its two neighbours.  [q] outside [0, 100] is a [ValueError]; the empty
    array, which [get_cen] never passes on, is an [IndexError]. *)
Definition np_percentile (a : list Q) (q : Q) : result Q :=
  if negb (Qle_bool 0 q && Qle_bool q 100) then Raise ValueError
  else
    match a with
    | [] => Raise IndexError
    | _ :: _ =>
        let s := np_sort a in
        let n := List.length a in
        let h := (inject_Z (Z.of_nat n - 1) * (q / 100))%Q in
        let lo := Z.to_nat (Qfloor h) in
        let hi := Nat.min (lo + 1) (n - 1) in
        let g := (h - inject_Z (Qfloor h))%Q in
        Ok (nth lo s 0 + (nth hi s 0 - nth lo s 0) * g)%Q
    end.

Definition units : list (string * Z) := [("kW", 1000); ("MW", 1000000)].

Fixpoint units_item (d : list (string * Z)) (k : string) : result Z :=
  match d with
  | [] => Raise KeyError
  | (k', v) :: d' => if String.eqb k' k then Ok v else units_item d' k
  end.

(** The local variables of [get_cen] at its [return]. *)
Record cen_locals : Type := {
  pac : list Q;
  pac_max : Q;
  p : list npfloat;
  cen_per : npfloat;
  cen_pmax : npfloat
}.

Definition get_cen_locals (ac : list Q) (perc : Q) (decimals : Z)
    : result cen_locals :=
  (let pac := np_sort ac in
   pac_max <- np_max ac ;;
   let p := map (fun i => true_divide (1 * inject_Z i)
                            (Z.of_nat (List.length ac) - 1))
                (arange (List.length ac)) in
   pct <- np_percentile ac perc ;;
   mw <- units_item units "MW" ;;
   let cen_per := np_around (pct / inject_Z mw) decimals in
   m <- np_max ac ;;
   mw' <- units_item units "MW" ;;
   let cen_pmax := np_around (m / inject_Z mw') decimals in
   Ok {| pac := pac; pac_max := pac_max; p := p;
         cen_per := cen_per; cen_pmax := cen_pmax |})%result.

(** What [get_cen] returns: [(cen_per, cen_pmax)]. *)
Definition get_cen (ac : list Q) (perc : Q) (decimals : Z) (curve : bool)
    : result (npfloat * npfloat) :=
  (l <- get_cen_locals ac perc decimals ;; Ok (cen_per l, cen_pmax l))%result.

(** What [get_cen] hands to [plt.plot] when [curve] is true: the sorted
    samples against their rank probabilities. *)
Definition get_cen_plot (ac : list Q) (perc : Q) (decimals : Z) (curve : bool)
    : result (option (list Q * list npfloat)) :=
  (l <- get_cen_locals ac perc decimals ;;
   Ok (if curve then Some (pac l, p l) else None))%result.

(** * Vocabulary of the properties *)

(** A boolean test for distinct keys, to settle [NoDup] by computation. *)
Fixpoint distinct (l : list string) : bool :=
  match l with
  | [] => true
  | k :: l' => negb (existsb (String.eqb k) l') && distinct l'
  end.

(** ** Inverter and module records *)

(** The field names of the two inverter schemas. *)
Definition sandia_keys : list string :=
  ["Paco"; "Pdco"; "Vdco"; "Pso"; "C0"; "C1"; "C2"; "C3"; "Pnt"].

Definition pvwatts_keys : list string := ["Pdco"; "eta_inv_nom"].

(** What [check_inverter] returns: database, name, record and AC model,
    the record in the schema that the model names. *)
Definition inverter_schema (r : pyval) : Prop :=
  exists inverters_database inverter_name inverter ac_model,
    r = PList [inverters_database; inverter_name; PDict inverter;
               PStr ac_model] /\
    ((ac_model = "sandia" /\ dict_keys inverter = sandia_keys) \/
     (ac_model = "pvwatts" /\ dict_keys inverter = pvwatts_keys)).

(** The four inverter sources, each with the panel its handler installs and
    a source record that has the fields the check reads. *)
Inductive inverter_source (g : gui) : Prop :=
| source_repository (dropdown_manufac inv_drop : pyval) (record : dict) :
    inverter_btn g = PStr "Repositorio" ->
    inverter_vbox g =
      inverter_repo_vbox (inverter_btn g) (dropdown_invrepo g)
        dropdown_manufac inv_drop ->
    retrieve_sam g (dropdown_invrepo g) inv_drop = Ok record ->
    (forall k, In k sandia_keys -> succeeds (dict_get record k)) ->
    inverter_source g
| source_pvsyst (record : dict) :
    inverter_btn g = PStr "PVsyst" ->
    py_item (btn_files g) "inv" = Ok (PDict record) ->
    (forall k, In k pvwatts_keys -> succeeds (dict_get record k)) ->
    inverter_source g
| source_manual_snl
    (w_Paco w_Pdco w_Vdco w_Pso w_C0 w_C1 w_C2 w_C3 w_Pnt : pyval) :
    inverter_btn g = PStr "Manual" ->
    dropdown_manual g = PStr "SNL PVlib" ->
    inverter_vbox g =
      inverter_manual_vbox (inverter_btn g) (dropdown_manual g)
        (inv_conf_snl w_Paco w_Pdco w_Vdco w_Pso w_C0 w_C1 w_C2 w_C3 w_Pnt) ->
    inverter_source g
| source_manual_pvwatts (w_pdc0 w_eta_inv_nom : pyval) :
    inverter_btn g = PStr "Manual" ->
    dropdown_manual g = PStr "NREL PVWatts" ->
    inverter_vbox g =
      inverter_manual_vbox (inverter_btn g) (dropdown_manual g)
        (inv_conf_pvwatts w_pdc0 w_eta_inv_nom) ->
    inverter_source g.

(** The fields of a normalized module record, in the order written. *)
Definition canonical_fields : list string :=
  ["T_NOCT"; "Technology"; "N_s"; "I_sc_ref"; "V_oc_ref"; "I_mp_ref";
   "V_mp_ref"; "alpha_sc"; "beta_oc"; "gamma_r"; "STC"].

(** The six module sources and the selection that leads to each. *)
Inductive module_schema : Type :=
| CEC_repository
| Sandia_repository
| PVFree_cecmodule
| PVFree_pvmodule
| PVsyst_PAN
| Manual_entry.

Definition selects (g : gui) (s : module_schema) : Prop :=
  match s with
  | CEC_repository =>
      module_btn g = PStr "Repositorio" /\ dropdown_modrepo g = PStr "CECMod"
  | Sandia_repository =>
      module_btn g = PStr "Repositorio" /\
      dropdown_modrepo g = PStr "SandiaMod"
  | PVFree_cecmodule =>
      module_btn g = PStr "Repositorio" /\
      dropdown_modrepo g = PStr "PVFree" /\
      value_at (module_vbox g) [2; 0; 1]%nat = Ok (PStr "cecmodule")
  | PVFree_pvmodule =>
      module_btn g = PStr "Repositorio" /\
      dropdown_modrepo g = PStr "PVFree" /\
      value_at (module_vbox g) [2; 0; 1]%nat = Ok (PStr "pvmodule")
  | PVsyst_PAN => module_btn g = PStr "PVsyst"
  | Manual_entry => module_btn g = PStr "Manual"
  end.

(** The synonym table of the technology chain, and its seven tags. *)
Definition technology_synonyms : list (string * string) :=
  [("Mono-c-Si", "monosi"); ("monoSi", "monosi"); ("monosi", "monosi");
   ("c-Si", "monosi"); ("xsi", "monosi"); ("mtSiMono", "monosi");
   ("Multi-c-Si", "multisi"); ("multiSi", "multisi"); ("multisi", "multisi");
   ("mc-Si", "multisi"); ("EFG mc-Si", "multisi");
   ("polySi", "polisi"); ("polysi", "polisi"); ("mtSiPoly", "polisi");
   ("CIS", "cis"); ("cis", "cis");
   ("CIGS", "cigs"); ("cigs", "cigs");
   ("CdTe", "cdte"); ("cdte", "cdte"); ("Thin Film", "cdte"); ("GaAs", "cdte");
   ("amorphous", "asi"); ("asi", "asi"); ("a-Si / mono-Si", "asi");
   ("2-a-Si", "asi"); ("3-a-Si", "asi"); ("Si-Film", "asi");
   ("HIT-Si", "asi")].

Definition canonical_tags : list string :=
  ["monosi"; "multisi"; "polisi"; "cis"; "cigs"; "cdte"; "asi"].

(** ** Mount modes *)

(** The mount panel agrees with the tracker buttons, as [handle_toggle]
    leaves it: no panel before a button is chosen, else the panel of the
    chosen mode with whatever the user typed into it. *)
Inductive mount_panel (g : gui) : Prop :=
| panel_unset :
    py_eq_str (tracker_btn g) "Sin Seguidor" = false ->
    py_eq_str (tracker_btn g) "Seguidor 1-Eje" = false ->
    mount_panel g
| panel_fixed (h b : widget) (w_Tilt w_Azimuth w_Racking : pyval) :
    tracker_btn g = PStr "Sin Seguidor" ->
    sysconfig_vbox g = Box [h; b; no_tracker w_Tilt w_Azimuth w_Racking] ->
    mount_panel g
| panel_tracker (h b : widget)
    (w_AxisTilt w_AxisAzimuth w_MaxAngle w_Racking : pyval) :
    tracker_btn g = PStr "Seguidor 1-Eje" ->
    sysconfig_vbox g =
      Box [h; b; single_tracker w_AxisTilt w_AxisAzimuth w_MaxAngle w_Racking] ->
    mount_panel g.

(** The two mount modes of a generated configuration: one set of fields is
    null, each field of the other set is a list. *)
Definition field_is_null (d : dict) (k : string) : Prop :=
  dict_get d k = Ok PNone.

Definition field_is_list (d : dict) (k : string) : Prop :=
  exists l, dict_get d k = Ok (PList l).

Definition mount_list_keys : list string :=
  ["surface_tilt"; "surface_azimuth"; "axis_tilt"; "axis_azimuth";
   "max_angle"].

Definition tracker_mode (d : dict) : Prop :=
  dict_get d "with_tracker" = Ok (PBool true) /\
  field_is_null d "surface_tilt" /\
  field_is_null d "surface_azimuth" /\
  field_is_list d "axis_tilt" /\
  field_is_list d "axis_azimuth" /\
  field_is_list d "max_angle".

Definition fixed_mode (d : dict) : Prop :=
  dict_get d "with_tracker" = Ok (PBool false) /\
  field_is_null d "axis_tilt" /\
  field_is_null d "axis_azimuth" /\
  field_is_null d "max_angle" /\
  field_is_list d "surface_tilt" /\
  field_is_list d "surface_azimuth".

(** ** Numerals and per-subarray texts

    A JSON numeral by its parts, and how it is written. *)

Record exponent : Type := {
  exp_upper : bool;            (* [E] rather than [e] *)
  exp_sign : option bool;      (* no sign, [+] ([false]) or [-] ([true]) *)
  exp_digits : text
}.

Record numeral : Type := {
  num_neg : bool;
  num_int : text;
  num_frac : option text;
  num_exp : option exponent
}.

Definition all_digits (ds : text) : bool := forallb is_digit ds.

Definition digits_ok (ds : text) : bool := negb (is_nil ds) && all_digits ds.

(** Integer digits: a single zero, or digits that do not start with zero. *)
Definition int_ok (ds : text) : bool :=
  match ds with
  | [] => false
  | c :: r =>
      is_digit c && all_digits r && (negb (Ascii.eqb c "0") || is_nil r)
  end.

Definition wf_numeral (n : numeral) : bool :=
  int_ok (num_int n)
  && match num_frac n with
     | Some f => digits_ok f
     | None => true
     end
  && match num_exp n with
     | Some e => digits_ok (exp_digits e)
     | None => true
     end.

Definition render_exponent (e : exponent) : text :=
  (if exp_upper e then "E"%char else "e"%char)
    :: match exp_sign e with
       | Some true => ["-"%char]
       | Some false => ["+"%char]
       | None => []
       end
    ++ exp_digits e.

(** The written fraction and exponent of a numeral. *)
Definition render_frac (f : option text) : text :=
  match f with
  | Some ds => "."%char :: ds
  | None => []
  end.

Definition render_exp (e : option exponent) : text :=
  match e with
  | Some x => render_exponent x
  | None => []
  end.

Definition render (n : numeral) : text :=
  (if num_neg n then ["-"%char] else [])
  ++ num_int n ++ render_frac (num_frac n) ++ render_exp (num_exp n).

Definition exponent_value (e : exponent) : bool * text :=
  (match exp_sign e with Some true => true | _ => false end, exp_digits e).

(** The value that [json.loads] gives the numeral. *)
Definition numeral_value (n : numeral) : pyval :=
  number_value (num_neg n) (num_int n) (num_frac n)
    (option_map exponent_value (num_exp n)).

(** The value that [float] gives it. *)
Definition numeral_float (n : numeral) : Q :=
  float_value (num_neg n) (num_int n)
    (match num_frac n with Some f => f | None => [] end)
    (option_map exponent_value (num_exp n)).

Definition is_integer (n : numeral) : bool :=
  match num_frac n, num_exp n with
  | None, None => true
  | _, _ => false
  end.

(** What may follow a numeral inside an array: white space, a comma, the
    closing bracket, or the end of the text. *)
Definition ends_number (s : text) : bool :=
  match s with
  | [] => true
  | c :: _ => is_ws c || Ascii.eqb c ","%char || Ascii.eqb c "]"%char
  end.

Definition non_digit_head (s : text) : bool :=
  match s with
  | [] => true
  | c :: _ => negb (is_digit c)
  end.

(** One entry of a comma-delimited field: a numeral with white space
    around it. *)
Record entry : Type := {
  lead : text;
  num : numeral;
  trail : text
}.

Definition wf_entry (e : entry) : bool :=
  forallb is_ws (lead e) && wf_numeral (num e) && forallb is_ws (trail e).

Definition render_entry (e : entry) : text :=
  lead e ++ render (num e) ++ trail e.

Fixpoint delimited (es : list entry) : text :=
  match es with
  | [] => []
  | [e] => render_entry e
  | e :: es' => render_entry e ++ ","%char :: delimited es'
  end.

Definition plain (n : numeral) : entry :=
  {| lead := []; num := n; trail := [] |}.

(** Numerals and entries by their digits, to write samples with. *)
Definition integer (digits : string) : numeral :=
  {| num_neg := false; num_int := list_ascii_of_string digits;
     num_frac := None; num_exp := None |}.

Definition decimal (digits fraction : string) : numeral :=
  {| num_neg := false; num_int := list_ascii_of_string digits;
     num_frac := Some (list_ascii_of_string fraction); num_exp := None |}.

Definition spaced (n : numeral) : entry :=
  {| lead := [" "%char]; num := n; trail := [] |}.

(** What a per-subarray text field holds for [k] subarrays: a bare scalar
    when [k = 1], [k] comma-delimited numerals when [k > 1]. *)
Definition scalar_text (v : pyval) : Prop :=
  exists n, wf_numeral n = true /\ v = PStr (string_of_list_ascii (render n)).

Definition integer_text (v : pyval) : Prop :=
  exists n, wf_numeral n = true /\ is_integer n = true /\
            v = PStr (string_of_list_ascii (render n)).

Definition delimited_text (k : Z) (v : pyval) : Prop :=
  exists es, Z.of_nat (List.length es) = k /\ forallb wf_entry es = true /\
             v = PStr (string_of_list_ascii (delimited es)).

Definition geometry_field (k : Z) (v : pyval) : Prop :=
  (k = 1 /\ scalar_text v) \/ (1 < k /\ delimited_text k v).

Definition electrical_field (k : Z) (v : pyval) : Prop :=
  (k = 1 /\ integer_text v) \/ (1 < k /\ delimited_text k v).

Definition racking_chosen (v : pyval) : Prop :=
  v = PStr "open_rack" \/ v = PStr "close_mount" \/ v = PStr "insulated_back".

Definition list_of_length (k : Z) (v : pyval) : Prop :=
  exists l, v = PList l /\ Z.of_nat (List.length l) = k.

(** The mount panel of either mode, every per-subarray field filled in for
    [k] subarrays and a racking chosen. *)
Inductive mount_fields (g : gui) (k : Z) : Prop :=
| fields_fixed (h b : widget) (w_Tilt w_Azimuth w_Racking : pyval) :
    tracker_btn g = PStr "Sin Seguidor" ->
    sysconfig_vbox g = Box [h; b; no_tracker w_Tilt w_Azimuth w_Racking] ->
    geometry_field k w_Tilt ->
    geometry_field k w_Azimuth ->
    racking_chosen w_Racking ->
    mount_fields g k
| fields_tracker (h b : widget)
    (w_AxisTilt w_AxisAzimuth w_MaxAngle w_Racking : pyval) :
    tracker_btn g = PStr "Seguidor 1-Eje" ->
    sysconfig_vbox g =
      Box [h; b; single_tracker w_AxisTilt w_AxisAzimuth w_MaxAngle w_Racking] ->
    geometry_field k w_AxisTilt ->
    geometry_field k w_AxisAzimuth ->
    geometry_field k w_MaxAngle ->
    racking_chosen w_Racking ->
    mount_fields g k.

(** What [check_mount] returns for the mode: the lists of the mode with one
    element per subarray, the others null. *)
Definition mount_lists (k : Z) (r : pyval) : Prop :=
  exists module_type racking_model,
    (exists surface_azimuth surface_tilt,
        r = PList [PBool false; surface_azimuth; surface_tilt;
                   PNone; PNone; PNone; module_type; racking_model] /\
        list_of_length k surface_azimuth /\
        list_of_length k surface_tilt) \/
    (exists axis_tilt axis_azimuth max_angle,
        r = PList [PBool true; PNone; PNone; axis_tilt; axis_azimuth;
                   max_angle; module_type; racking_model] /\
        list_of_length k axis_tilt /\
        list_of_length k axis_azimuth /\
        list_of_length k max_angle).

Definition econfig_lists (k : Z) (r : pyval) : Prop :=
  exists modules_per_string strings_per_inverter num_inverters,
    r = PList [modules_per_string; strings_per_inverter; num_inverters] /\
    list_of_length k modules_per_string /\
    list_of_length k strings_per_inverter.

(** ** The capacity statistic *)




(** ** Sample forms

    Source records in the three formats and forms filled in for each
    source, to run the checks on. *)

(** The untouched form, with collaborators that know no equipment. *)
Definition default_form : gui :=
  execute (fun _ _ => Raise KeyError) (fun _ _ => Raise KeyError).

Definition cec_record : dict :=
  [("Name", PStr "Canadian Solar CS5P-220M");
   ("BIPV", PStr "N");
   ("Technology", PStr "Mono-c-Si");
   ("STC", PFloat 219.961);
   ("T_NOCT", PFloat 42.4);
   ("N_s", PInt 96);
   ("I_sc_ref", PFloat 5.1);
   ("V_oc_ref", PFloat 59.4);
   ("I_mp_ref", PFloat 4.69);
   ("V_mp_ref", PFloat 46.9);
   ("alpha_sc", PFloat 0.004539);
   ("beta_oc", PFloat (-0.22216));
   ("gamma_r", PFloat (-0.476));
   ("a_ref", PFloat 2.6373)].

Definition sandia_record : dict :=
  [("Name", PStr "Canadian Solar CS5P-220M 2009");
   ("Vintage", PInt 2009);
   ("Material", PStr "c-Si");
   ("Cells_in_Series", PInt 96);
   ("Isco", PFloat 5.09115);
   ("Voco", PFloat 59.2608);
   ("Impo", PFloat 4.54629);
   ("Vmpo", PFloat 48.3156);
   ("Aisc", PFloat 0.000397);
   ("Bvoco", PFloat (-0.21696))].

Definition pan_record : dict :=
  [("Technol", PStr "mtSiMono");
   ("NCelS", PInt 72);
   ("TRef", PFloat 25);
   ("Isc", PFloat 9.5);
   ("Voc", PFloat 46.1);
   ("Imp", PFloat 9);
   ("Vmp", PFloat 37.8);
   ("mIsc_percent", PFloat 0.052);
   ("mVoc_percent", PFloat (-0.293));
   ("mPmpp", PFloat (-0.39));
   ("Pmpp", PFloat 340);
   ("Gamma", PFloat 0.95);
   ("Adjust", PInt 0);
   ("Technology", PStr "mtSiMono");
   ("T_NOCT", PFloat 45)].

Definition snl_record : dict :=
  [("Vac", PInt 208);
   ("Pso", PFloat 2.089607);
   ("Paco", PFloat 250);
   ("Pdco", PFloat 259.588593);
   ("Vdco", PFloat 40);
   ("C0", PFloat (-0.000041));
   ("C1", PFloat (-0.000091));
   ("C2", PFloat 0.000494);
   ("C3", PFloat (-0.013171));
   ("Pnt", PFloat 0.075)].

Definition ond_record : dict :=
  [("Vac", PFloat 400);
   ("Pso", PFloat 50);
   ("Paco", PFloat 50000);
   ("Pdco", PFloat 51000);
   ("pdc0", PFloat 51000);
   ("Vdco", PFloat 600);
   ("Pnt", PFloat 3);
   ("eta_inv_nom", PFloat 98.3);
   ("eta_inv_ref", PFloat 0.9637);
   ("Name", PStr "SUN2000-50KTL")].

Definition demo_sam (database column : pyval) : result dict :=
  if py_eq_str database "CECInverter" && py_eq_str column "ABB__MICRO_0_25"
  then Ok snl_record
  else if py_eq_str database "CECMod" && py_eq_str column "Canadian_Solar_CS5P_220M"
  then Ok cec_record
  else if py_eq_str database "SandiaMod"
          && py_eq_str column "Canadian_Solar_CS5P_220M___2009_"
  then Ok sandia_record
  else Raise KeyError.

Definition demo_pvfree (database id : pyval) : result dict :=
  if py_eq_str database "cecmodule" then Ok cec_record
  else if py_eq_str database "pvmodule" then Ok sandia_record
  else Raise KeyError.

Definition demo_form
    (ibtn irepo imanual : pyval) (ivbox : widget) (ifiles : pyval)
    (mbtn mrepo : pyval) (mvbox : widget) (mfiles : pyval)
    (k : Z) (mps spi tbtn : pyval) (svbox : widget) : gui :=
  {| w_latitude := PFloat 4.6;
     w_longitude := PFloat (-74.1);
     w_altitude := PFloat 2600;
     w_timezone := PStr "America/Bogota";
     w_albedo := PFloat 0.2;
     inverter_btn := ibtn;
     dropdown_invrepo := irepo;
     dropdown_manual := imanual;
     inverter_vbox := ivbox;
     btn_files := ifiles;
     module_btn := mbtn;
     dropdown_modrepo := mrepo;
     module_vbox := mvbox;
     modbtn_files := mfiles;
     bifacial_vbox := Box [w_dropbrifacial (PBool false)];
     w_subarrays := k;
     w_mps := mps;
     w_spi := spi;
     w_numinv := 1;
     tracker_btn := tbtn;
     sysconfig_vbox := svbox;
     w_loss := PFloat 14.6;
     kpc_loss := PFloat 0;
     kt_loss := PFloat 0;
     kin_loss := PFloat 0;
     w_name := PStr "demo";
     retrieve_sam := demo_sam;
     pvfree_api := demo_pvfree |}.

Definition demo_inv_pvwatts : widget :=
  inverter_manual_vbox (PStr "Manual") (PStr "NREL PVWatts")
    (inv_conf_pvwatts (PFloat 51000) (PFloat 0.983)).

Definition demo_inv_snl : widget :=
  inverter_manual_vbox (PStr "Manual") (PStr "SNL PVlib")
    (inv_conf_snl (PFloat 250) (PFloat 259.588593) (PFloat 40)
       (PFloat 2.089607) (PFloat (-0.000041)) (PFloat (-0.000091))
       (PFloat 0.000494) (PFloat (-0.013171)) (PFloat 0.075)).

Definition demo_inv_repo : widget :=
  inverter_repo_vbox (PStr "Repositorio") (PStr "CECInverter")
    (PStr "ABB") (PStr "ABB__MICRO_0_25").

Definition demo_mod_manual : widget :=
  module_manual_vbox (PStr "Manual")
    (mod_conf (PFloat 45) (PStr "monosi") (PFloat 72) (PFloat 9.5)
       (PFloat 46.1) (PFloat 9) (PFloat 37.8) (PFloat 0.005)
       (PFloat (-0.13)) (PFloat (-0.39)) (PFloat 340)).

Definition demo_fixed_panel : widget :=
  Box [header_TO; Input (PStr "Sin Seguidor");
       no_tracker (PStr "10, 12.5") (PStr "180, 180") (PStr "open_rack")].

Definition demo_tracker_panel : widget :=
  Box [header_TO; Input (PStr "Seguidor 1-Eje");
       single_tracker (PStr "0") (PStr "180") (PStr "45")
         (PStr "insulated_back")].

(** Manual PVWatts inverter, manual module, two fixed subarrays. *)
Definition demo_fixed : gui :=
  demo_form (PStr "Manual") PNone (PStr "NREL PVWatts") demo_inv_pvwatts
    (PDict [])
    (PStr "Manual") PNone demo_mod_manual (PDict [])
    2 (PStr "10, 12") (PStr "3, 4") (PStr "Sin Seguidor") demo_fixed_panel.

(** Repository inverter, uploaded module file, one tracked subarray. *)
Definition demo_tracker : gui :=
  demo_form (PStr "Repositorio") (PStr "CECInverter") PNone demo_inv_repo
    (PDict [])
    (PStr "PVsyst") PNone (Box [Input (PStr "PVsyst"); Box []])
    (PDict [("mod", PDict pan_record)])
    1 (PStr "18") (PStr "6") (PStr "Seguidor 1-Eje") demo_tracker_panel.

(** The module tab alone, for each of the other module sources. *)
Definition demo_module (mrepo : pyval) (mvbox : widget) : gui :=
  demo_form (PStr "Manual") PNone (PStr "SNL PVlib") demo_inv_snl (PDict [])
    (PStr "Repositorio") mrepo mvbox (PDict [])
    2 (PStr "10, 12") (PStr "3, 4") (PStr "Sin Seguidor") demo_fixed_panel.

Definition demo_cec : gui :=
  demo_module (PStr "CECMod")
    (module_repo_vbox (PStr "Repositorio") (PStr "CECMod")
       (PStr "Canadian") (PStr "Canadian_Solar_CS5P_220M")).

Definition demo_sandia : gui :=
  demo_module (PStr "SandiaMod")
    (module_repo_vbox (PStr "Repositorio") (PStr "SandiaMod")
       (PStr "Canadian") (PStr "Canadian_Solar_CS5P_220M___2009_")).

Definition demo_pvfree_cec : gui :=
  demo_module (PStr "PVFree")
    (module_pvfree_vbox (PStr "Repositorio") (PStr "PVFree")
       (PStr "cecmodule") (PInt 123)).

Definition demo_pvfree_pv : gui :=
  demo_module (PStr "PVFree")
    (module_pvfree_vbox (PStr "Repositorio") (PStr "PVFree")
       (PStr "pvmodule") (PInt 123)).

(** An uploaded inverter file. *)
Definition demo_ond : gui :=
  demo_form (PStr "PVsyst") PNone PNone (Box [Input (PStr "PVsyst"); Box []])
    (PDict [("inv", PDict ond_record)])
    (PStr "Manual") PNone demo_mod_manual (PDict [])
    2 (PStr "10, 12") (PStr "3, 4") (PStr "Sin Seguidor") demo_fixed_panel.

(** A form that selects the schema. *)
Definition demo_of_schema (s : module_schema) : gui :=
  match s with
  | CEC_repository => demo_cec
  | Sandia_repository => demo_sandia
  | PVFree_cecmodule => demo_pvfree_cec
  | PVFree_pvmodule => demo_pvfree_pv
  | PVsyst_PAN => demo_tracker
  | Manual_entry => demo_fixed
  end.
(** * Further handlers of [execute]

    The handlers that fill the equipment drop-downs, the two buttons that
    load an equipment file, and the download button. *)

(** ** Strings *)

(** The search behind [s.index(sub)] and [sub in s]: the first position at
    which [sub] occurs in [s]. *)
Fixpoint str_find (s sub : string) : option nat :=
  if String.prefix sub s then Some 0%nat
  else
    match s with
    | EmptyString => None
    | String _ s' => option_map S (str_find s' sub)
    end.

(** [s.index(sub)] *)
Definition str_index (s sub : string) : result nat :=
  match str_find s sub with
  | Some i => Ok i
  | None => Raise ValueError
  end.

(** [sub in s] *)
Definition str_contains (sub s : string) : bool :=
  match str_find s sub with
  | Some _ => true
  | None => false
  end.

(** [s[:i]] *)
Definition str_upto (s : string) (i : nat) : string := String.substring 0 i s.

(** [s.split(sep)] for a separator of one character. *)
Fixpoint str_split (sep : ascii) (s : string) : list string :=
  match s with
  | EmptyString => [EmptyString]
  | String c s' =>
      if Ascii.eqb c sep then EmptyString :: str_split sep s'
      else
        match str_split sep s' with
        | x :: xs => String c x :: xs
        | [] => [String c EmptyString]
        end
  end.

(** [pd.unique]: the distinct values in order of first appearance. *)
Fixpoint pd_unique (l : list string) : list string :=
  match l with
  | [] => []
  | x :: l' => x :: filter (fun y => negb (String.eqb x y)) (pd_unique l')
  end.


(** ** The manufacturer and equipment drop-downs

    [sam_columns database] stands for
    [pvlib.pvsystem.retrieve_sam(database).transpose().index]: the column
    names of the database, one per piece of equipment, all distinct. *)

(** The loop [for string in ...: manufacturers.append(string[:string.index(sep)])]. *)
Fixpoint append_manufacturers (sep : string) (index : list string)
    (manufacturers : list string) : result (list string) :=
  match index with
  | [] => Ok manufacturers
  | string_ :: rest =>
      (i <- str_index string_ sep ;;
       append_manufacturers sep rest (manufacturers ++ [str_upto string_ i]))%result
  end.

(** The options that the manufacturer drop-down receives. *)
Definition manufacturer_options (sep : string)
    (sam_columns : string -> result (list string)) (new : string)
    : result (list string) :=
  (index <- sam_columns new ;;
   manufacturers <- append_manufacturers sep index [EmptyString] ;;
   Ok (pd_unique (manufacturers ++ [new])))%result.

(** [handle_dropdown_manuf]: the new [dropdown_manufac.options]. *)
Definition handle_dropdown_manuf
    (sam_columns : string -> result (list string)) (new : string)
    : result (list string) :=
  manufacturer_options "__" sam_columns new.

(** [handle_dropdown_modmanuf]: the new [dropdown_modmanu.options]; for
    [PVFree] the handler installs the PVFree panel and sets no options. *)
Definition handle_dropdown_modmanuf
    (sam_columns : string -> result (list string)) (new : string)
    : result (option (list string)) :=
  if String.eqb new "PVFree" then Ok None
  else (o <- manufacturer_options "_" sam_columns new ;; Ok (Some o))%result.




(** ** [on_button_clicked] of the OND button

    [ond] stands for what [pvsyst.ond_to_inverter_param] returns; the
    handler's result is the new [btn.files]. *)

(** [float(e)] and [float(e) * 1000] *)
Definition float_of (e : result pyval) : result pyval :=
  (v <- e ;; py_float v)%result.

Definition kilo (e : result pyval) : result pyval :=
  (v <- e ;; x <- py_float v ;; py_mul x (PInt 1000))%result.

(** [e.split(',')[i]] *)
Definition split_item (e : result pyval) (i : nat) : result pyval :=
  (v <- e ;;
   match v with
   | PStr s =>
       match nth_error (str_split ","%char s) i with
       | Some x => Ok (PStr x)
       | None => Raise IndexError
       end
   | _ => Raise AttributeError
   end)%result.

(** [ond['pvGInverter'][k]] and [ond['pvGInverter']['TConverter'][k]] *)
Definition pvGInverter (ond : pyval) (k : string) : result pyval :=
  (a <- py_item ond "pvGInverter" ;; py_item a k)%result.

Definition TConverter (ond : pyval) (k : string) : result pyval :=
  (a <- py_item ond "pvGInverter" ;; b <- py_item a "TConverter" ;;
   py_item b k)%result.

Definition pvCommercial (ond : pyval) (k : string) : result pyval :=
  (a <- py_item ond "pvGInverter" ;; b <- py_item a "pvCommercial" ;;
   py_item b k)%result.

Definition on_button_clicked (ond : pyval) : result pyval :=
  (inverter <- dict_of
     [("Vac", float_of (TConverter ond "VOutConv"));
      ("Pso", float_of (TConverter ond "PLim1"));
      ("Paco", kilo (TConverter ond "PNomConv"));
      ("Pdco", kilo (TConverter ond "PNomDC"));
      ("pdc0", kilo (TConverter ond "PNomDC"));
      ("Vdco", float_of (split_item (TConverter ond "VNomEff") 1));
      ("Pnt", float_of (pvGInverter ond "Night_Loss"));
      ("Vdcmax", float_of (TConverter ond "VAbsMax"));
      ("Idcmax", float_of (TConverter ond "IMaxDC"));
      ("Mppt_low", float_of (TConverter ond "VMppMin"));
      ("Mppt_high", float_of (TConverter ond "VMPPMax"));
      ("eta_inv_nom", float_of (TConverter ond "EfficEuro"));
      ("eta_inv_ref", ok (PFloat (9637 # 10000)));
      ("Name", pvCommercial ond "Model")] ;;
   Ok (PDict [("inv", inverter)]))%result.

(** ** [on_modbutton_clicked]

    [module] stands for what [pvsyst.pan_to_module_param] returns, its
    [IAM] array a list; the handler's result is the new [modbtn.files]. *)

Definition py_add (a b : pyval) : result pyval :=
  match to_Z a, to_Z b with
  | Some x, Some y => Ok (PInt (x + y))
  | _, _ =>
      match to_Q a, to_Q b with
      | Some x, Some y => Ok (PFloat (x + y))
      | _, _ => Raise TypeError
      end
  end.

(** [a.tolist()] *)
Definition tolist (v : pyval) : result pyval :=
  match v with
  | PList l => Ok (PList l)
  | _ => Raise AttributeError
  end.

Definition on_modbutton_clicked (module : pyval) : result pyval :=
  (module <- set_item module "Adjust" (PInt 0) ;;
   technol <- py_item module "Technol" ;;
   module <- set_item module "Technology" technol ;;
   tref <- py_item module "TRef" ;;
   t_noct <- py_add tref (PInt 20) ;;
   module <- set_item module "T_NOCT" t_noct ;;
   iam <- py_item module "IAM" ;;
   iam <- tolist iam ;;
   module <- set_item module "IAM" iam ;;
   Ok (PDict [("mod", module)]))%result.

(** ** The manual module form

    The values of the technology drop-down that [handle_modtoggle] builds
    for [Manual]. *)
Definition w_Type_options : list (string * string) :=
  [("Mono-Si", "monosi"); ("Multi-Si", "multisi"); ("Poli-Si", "polysi");
   ("CIS", "cis"); ("CIGS", "cigs"); ("CdTe", "cdte");
   ("Amorfo", "amorphous")].

(** ** [on_button_clicked] of the download button: the file it writes *)

Definition json_file (w_name : string) : string :=
  if negb (String.eqb w_name EmptyString)
  then "./configurations/system_config_" ++ w_name ++ ".json"
  else "./configurations/system_config.json".

(** * Vocabulary of the further properties *)

(** The fields of a generated configuration, in the order written. *)
Definition config_keys : list string :=
  ["latitude"; "longitude"; "tz"; "altitude"; "surface_albedo";
   "inverter"; "ac_model"; "module"; "bifacial"; "bifaciality";
   "row_height"; "row_width"; "with_tracker"; "surface_azimuth";
   "surface_tilt"; "axis_tilt"; "axis_azimuth"; "max_angle"; "num_arrays";
   "modules_per_string"; "strings_per_inverter"; "num_inverter"; "loss";
   "kpc"; "kt"; "kin"; "name"].

(** [k] zeros, as a list value. *)
Definition zeros (k : Z) : pyval := PList (repeat (PInt 0) (Z.to_nat k)).

(** The module type that goes with a racking model. *)
Definition module_type_for (racking_model : pyval) : pyval :=
  if py_eq_str racking_model "insulated_back" then PStr "glass_polymer"
  else PStr "glass_glass".

(** The mount panel as [handle_toggle] builds it at a subarray count of
    [j]: every text field holds the default for [j], no racking is chosen
    yet. *)
Definition fresh_panel (g : gui) (j : Z) : Prop :=
  (tracker_btn g = PStr "Sin Seguidor" \/
   tracker_btn g = PStr "Seguidor 1-Eje") /\
  exists g0, w_subarrays g0 = j /\
             sysconfig_vbox g = handle_toggle g0 (tracker_btn g).

(** A sample OND record and a sample PAN record, as the file readers
    return them. *)
Definition demo_ond_file : pyval :=
  PDict
    [("pvGInverter",
      PDict
        [("pvCommercial", PDict [("Model", PStr "SUN2000-50KTL")]);
         ("TConverter",
          PDict [("VOutConv", PStr "400.0");
                 ("PLim1", PStr "50");
                 ("PNomConv", PStr "50.0");
                 ("PNomDC", PStr "51.0");
                 ("VNomEff", PStr "570.0, 600.0, 850.0,");
                 ("VAbsMax", PStr "1100");
                 ("IMaxDC", PStr "88.0");
                 ("VMppMin", PStr "200");
                 ("VMPPMax", PStr "1000");
                 ("EfficEuro", PStr "98.3")]);
         ("Night_Loss", PStr "3.0")])].

Definition demo_pan_file : pyval :=
  PDict
    [("Technol", PStr "mtSiMono");
     ("NCelS", PInt 72);
     ("TRef", PFloat 25);
     ("Isc", PFloat 9.5);
     ("Voc", PFloat 46.1);
     ("Imp", PFloat 9);
     ("Vmp", PFloat 37.8);
     ("mIsc_percent", PFloat 0.052);
     ("mVoc_percent", PFloat (-0.293));
     ("mPmpp", PFloat (-0.39));
     ("Pmpp", PFloat 340);
     ("Gamma", PFloat 0.95);
     ("IAM", PList [PList [PFloat 0; PFloat 1]; PList [PFloat 90; PFloat 0]])].


(** The entries of the default text for [n] subarrays: [0, 0, ..., 0]. *)
Definition zero_entries (n : nat) : list entry :=
  match n with
  | O => []
  | S n' => plain (integer "0") :: repeat (spaced (integer "0")) n'
  end.

(** The position of the percentile [q] among [n] sorted samples, and the
    sorted samples read at a fractional position: interpolated between the
    two neighbours of the position. *)
Definition position (n : nat) (q : Q) : Q :=
  (inject_Z (Z.of_nat n - 1) * (q / 100))%Q.

Definition sample_at (s : list Q) (h : Q) : Q :=
  let lo := Z.to_nat (Qfloor h) in
  let hi := Nat.min (lo + 1) (List.length s - 1) in
  (nth lo s 0 + (nth hi s 0 - nth lo s 0) * (h - inject_Z (Qfloor h)))%Q.

(** The sample form after a module file was loaded: [files] is what the
    load stored. *)
Definition demo_pan_form (files : pyval) : gui :=
  demo_form (PStr "Manual") PNone (PStr "NREL PVWatts") demo_inv_pvwatts
    (PDict []) (PStr "PVsyst") PNone (Box [Input (PStr "PVsyst"); Box []])
    files 2 (PStr "10, 12") (PStr "3, 4") (PStr "Sin Seguidor")
    demo_fixed_panel.

(** A form whose inverter tab is not filled in, with the exception that
    [check_inverter] raises on it: no source button; [Manual] without a
    format; [PVsyst] with no file loaded; [Repositorio] while the panel
    still lacks the equipment drop-down, as [handle_toggle] and
    [handle_dropdown_manuf] leave it. *)
Inductive inverter_incomplete (g : gui) : exn -> Prop :=
| inverter_no_source :
    inverter_btn g <> PStr "Repositorio" ->
    inverter_btn g <> PStr "PVsyst" ->
    inverter_btn g <> PStr "Manual" ->
    inverter_incomplete g UnboundLocalError
| inverter_no_format :
    inverter_btn g = PStr "Manual" ->
    dropdown_manual g <> PStr "SNL PVlib" ->
    dropdown_manual g <> PStr "NREL PVWatts" ->
    inverter_incomplete g UnboundLocalError
| inverter_no_file :
    inverter_btn g = PStr "PVsyst" ->
    btn_files g = PDict [] ->
    inverter_incomplete g KeyError
| inverter_no_equipment (children : list widget) :
    inverter_btn g = PStr "Repositorio" ->
    inverter_vbox g = Box children ->
    (List.length children <= 3)%nat ->
    inverter_incomplete g IndexError.

(** The same for the module tab and [check_module]. *)
Inductive module_incomplete (g : gui) : exn -> Prop :=
| module_no_source :
    module_btn g <> PStr "Repositorio" ->
    module_btn g <> PStr "PVsyst" ->
    module_btn g <> PStr "Manual" ->
    module_incomplete g UnboundLocalError
| module_no_file :
    module_btn g = PStr "PVsyst" ->
    modbtn_files g = PDict [] ->
    module_incomplete g KeyError
| module_no_equipment (children : list widget) :
    module_btn g = PStr "Repositorio" ->
    dropdown_modrepo g <> PStr "PVFree" ->
    module_vbox g = Box children ->
    (List.length children <= 3)%nat ->
    module_incomplete g IndexError.


(** * Properties *)

(** ** Dictionaries *)

Lemma dict_get_set_same (d : dict) (k : string) (v : pyval) :
  dict_get (dict_set d k v) k = Ok v.
Proof.
  induction d as [|[k' v'] d IH]; simpl.
  - now rewrite String.eqb_refl.
  - destruct (String.eqb k' k) eqn:E; simpl; now rewrite E.
Qed.

Lemma dict_get_set_other (d : dict) (k k' : string) (v : pyval) :
  k <> k' -> dict_get (dict_set d k v) k' = dict_get d k'.
Proof.
  intros Hne. induction d as [|[k0 v0] d IH]; simpl.
  - destruct (String.eqb_spec k k'); [contradiction|reflexivity].
  - destruct (String.eqb_spec k0 k) as [->|Hk]; simpl.
    + destruct (String.eqb_spec k k'); [contradiction|reflexivity].
    + destruct (String.eqb_spec k0 k'); [reflexivity|exact IH].
Qed.

Lemma dict_keys_set_present (d : dict) (k : string) (v : pyval) :
  In k (dict_keys d) -> dict_keys (dict_set d k v) = dict_keys d.
Proof.
  unfold dict_keys. induction d as [|[k' v'] d IH]; simpl; [easy|].
  intros [->|Hin].
  - now rewrite String.eqb_refl.
  - destruct (String.eqb_spec k' k) as [->|Hk]; simpl; [reflexivity|].
    now rewrite IH.
Qed.

Lemma dict_set_fresh (d : dict) (k : string) (v : pyval) :
  ~ In k (dict_keys d) -> dict_set d k v = d ++ [(k, v)].
Proof.
  unfold dict_keys. induction d as [|[k' v'] d IH]; simpl; [easy|].
  intros Hnin. destruct (String.eqb_spec k' k) as [->|Hk].
  - exfalso. apply Hnin. now left.
  - rewrite IH; [reflexivity|]. intros Hin. apply Hnin. now right.
Qed.

Lemma dict_display_from (vs acc : dict) :
  NoDup (dict_keys (acc ++ vs)) ->
  fold_left (fun d kv => dict_set d (fst kv) (snd kv)) vs acc = acc ++ vs.
Proof.
  revert acc. induction vs as [|[k v] vs IH]; intros acc Hnd; simpl.
  - now rewrite app_nil_r.
  - assert (Hfresh : ~ In k (dict_keys acc)).
    { unfold dict_keys in *. rewrite map_app in Hnd. simpl in Hnd.
      apply NoDup_remove_2 in Hnd. intros Hin. apply Hnd.
      apply in_or_app. now left. }
    rewrite (dict_set_fresh _ _ _ Hfresh).
    rewrite IH; rewrite <- app_assoc; simpl; [reflexivity|exact Hnd].
Qed.

Lemma dict_display_nodup (vs : dict) :
  NoDup (dict_keys vs) -> dict_display vs = vs.
Proof. intros Hnd. unfold dict_display. now rewrite dict_display_from. Qed.

Lemma dict_get_in (d : dict) (k : string) (v : pyval) :
  NoDup (dict_keys d) -> In (k, v) d -> dict_get d k = Ok v.
Proof.
  unfold dict_keys. induction d as [|[k' v'] d IH]; simpl; [easy|].
  intros Hnd [Heq|Hin].
  - inversion Heq; subst. now rewrite String.eqb_refl.
  - inversion Hnd as [|? ? Hnin Hnd']; subst.
    destruct (String.eqb_spec k' k) as [->|Hk].
    + exfalso. apply Hnin. now apply (in_map fst) in Hin.
    + now apply IH.
Qed.

(** The items of a display that evaluates: every expression has a value,
    in the order written. *)
Lemma eval_items_spec (items : list (string * result pyval)) (vs : dict) :
  eval_items items = Ok vs ->
  map fst vs = map fst items /\
  forall k e, In (k, e) items -> exists v, e = Ok v /\ In (k, v) vs.
Proof.
  revert vs. induction items as [|[k e] items IH]; intros vs H; simpl in H.
  - inversion H; subst. split; [reflexivity|intros ? ? []].
  - destruct e as [v|err]; simpl in H; [|discriminate].
    destruct (eval_items items) as [vs'|err]; simpl in H; [|discriminate].
    inversion H; subst. destruct (IH vs' eq_refl) as [Hk Hv]. split.
    + simpl. now rewrite Hk.
    + intros k' e' [Heq|Hin].
      * inversion Heq; subst. exists v. split; [reflexivity|now left].
      * destruct (Hv _ _ Hin) as [x [Hx Hin']]. exists x. split; [exact Hx|now right].
Qed.

Lemma dict_of_spec (items : list (string * result pyval)) (r : pyval) :
  NoDup (map fst items) ->
  dict_of items = Ok r ->
  exists d, r = PDict d /\ dict_keys d = map fst items /\
    forall k e, In (k, e) items -> exists v, e = Ok v /\ dict_get d k = Ok v.
Proof.
  intros Hnd H. unfold dict_of in H.
  destruct (eval_items items) as [vs|err] eqn:E; simpl in H; [|discriminate].
  inversion H; subst. destruct (eval_items_spec _ _ E) as [Hk Hv].
  assert (Hnd' : NoDup (dict_keys vs)) by (unfold dict_keys; now rewrite Hk).
  rewrite (dict_display_nodup _ Hnd'). exists vs. repeat split; [exact Hk|].
  intros k e Hin. destruct (Hv _ _ Hin) as [v [He Hin']].
  exists v. split; [exact He|]. now apply dict_get_in.
Qed.

Lemma distinct_NoDup (l : list string) : distinct l = true -> NoDup l.
Proof.
  induction l as [|k l IH]; simpl; intros H; constructor.
  - apply andb_prop in H. destruct H as [H _].
    intros Hin. apply negb_true_iff in H.
    assert (existsb (String.eqb k) l = true).
    { apply existsb_exists. exists k. split; [exact Hin|apply String.eqb_refl]. }
    congruence.
  - apply IH. apply andb_prop in H. tauto.
Qed.

(** ** Running a function body *)

Ltac run_body :=
  unfold call, bind, assign, name, pass, ret, lift, ok;
  cbn [dict_set dict_get py_eq_str negb String.eqb Ascii.eqb Bool.eqb].

Ltac run_body_in H :=
  unfold call, bind, assign, name, pass, ret, lift, ok in H;
  cbn [dict_set dict_get py_eq_str negb String.eqb Ascii.eqb Bool.eqb] in H.

Ltac read_panel :=
  cbn [value_at children_at value_of nth_error
       no_tracker single_tracker row Label HTML
       inverter_repo_vbox inverter_manual_vbox inv_conf_snl inv_conf_pvwatts
       w_dropinvrepo w_dropmanufac w_dropinv w_dropmanual
       module_repo_vbox module_pvfree_vbox module_manual_vbox mod_conf
       w_dropmodrepo w_dropmodmanu w_dropmod
       w_dropbrifacial bif_conf handle_dropdown_bifacial].

(** ** Subarray count below one (C9) *)

Lemma check_econfig_unbound (g : gui) (k : Z) :
  k <= 0 -> check_econfig g k = Raise UnboundLocalError.
Proof.
  intros Hk. unfold check_econfig.
  destruct (Z.eqb_spec k 1); [lia|].
  destruct (Z.gtb_spec k 1); [lia|].
  reflexivity.
Qed.

Lemma check_mount_unbound (g : gui) (k : Z) :
  k <= 0 -> mount_panel g -> check_mount g k = Raise UnboundLocalError.
Proof.
  intros Hk Hp. unfold check_mount.
  destruct (Z.eqb_spec k 1); [lia|].
  destruct (Z.gtb_spec k 1); [lia|].
  destruct Hp as [H1 H2 | h b t a r H1 H2 | h b t a m r H1 H2];
    rewrite ?H1, ?H2; [reflexivity| |];
    cbn [py_eq_str String.eqb Ascii.eqb Bool.eqb]; read_panel;
    unfold module_type_of_racking; run_body;
    (destruct (py_eq_str r "open_rack"); [reflexivity|]);
    (destruct (py_eq_str r "close_mount"); [reflexivity|]);
    destruct (py_eq_str r "insulated_back"); reflexivity.
Qed.

(** C9. With a subarray count of zero or less, neither the [== 1] nor the
    [> 1] branch binds the per-subarray lists, and both [check_mount] and
    [check_econfig] end in [UnboundLocalError] at their [return]. *)
Theorem subarray_count_below_one_unbound (g : gui) (k : Z) :
  k <= 0 ->
  mount_panel g ->
  check_mount g k = Raise UnboundLocalError /\
  check_econfig g k = Raise UnboundLocalError.
Proof.
  intros Hk Hp. split.
  - now apply check_mount_unbound.
  - now apply check_econfig_unbound.
Qed.

(** The count is zero in the form as created, so a click on an untouched
    form fails in this way. *)
Lemma subarray_count_below_one_unbound_default :
  w_subarrays default_form = 0 /\
  check_mount default_form (w_subarrays default_form)
    = Raise UnboundLocalError /\
  check_econfig default_form (w_subarrays default_form)
    = Raise UnboundLocalError.
Proof.
  split; [reflexivity|].
  apply (subarray_count_below_one_unbound default_form
           (w_subarrays default_form)).
  - simpl. lia.
  - apply panel_unset; reflexivity.
Defined.

(** ** Shapes of what the builtins return *)

Lemma JSONArray_is_list (fuel : nat) (values : list pyval) (s rest : text)
    (v : pyval) :
  JSONArray fuel values s = Ok (v, rest) -> exists l, v = PList l.
Proof.
  revert values s. induction fuel as [|fuel IH]; intros values s H.
  - discriminate.
  - cbn [JSONArray] in H.
    destruct (scan_once fuel s) as [[value r]|e]; cbn [rbind] in H; [|discriminate].
    destruct (skip_ws r) as [|c r']; [discriminate|].
    destruct (Ascii.eqb c "]").
    + inversion H; subst. now eexists.
    + destruct (Ascii.eqb c ","); [|discriminate]. now apply IH in H.
Qed.

Lemma str_to_list_is_list (s v : pyval) :
  str_to_list s = Ok v -> exists l, v = PList l.
Proof.
  destruct s as [| | | |s| |]; try discriminate.
  unfold str_to_list, json_loads. cbn [String.append list_ascii_of_string skip_ws is_ws].
  set (t := list_ascii_of_string (s ++ "]")).
  cbn [List.length Nat.add Nat.mul scan_once Ascii.eqb Bool.eqb dquote].
  destruct (skip_ws t) as [|c r]; [discriminate|].
  destruct (Ascii.eqb c "]").
  - cbn [rbind]. destruct (skip_ws r); [|discriminate].
    intros H; inversion H; subst. now eexists.
  - destruct (JSONArray _ _ _) as [[v' r']|e] eqn:E; cbn [rbind]; [|discriminate].
    destruct (skip_ws r'); [|discriminate].
    intros H; inversion H; subst. now apply JSONArray_is_list in E.
Qed.

Lemma float_list1_is_list (e : result pyval) (v : pyval) :
  float_list1 e = Ok v -> exists x, v = PList [x].
Proof.
  unfold float_list1. destruct e as [s|]; cbn [rbind]; [|discriminate].
  destruct (py_float s); cbn [rbind]; [|discriminate].
  intros H; inversion H. now eexists.
Qed.

Lemma int_list1_is_list (e : result pyval) (v : pyval) :
  int_list1 e = Ok v -> exists x, v = PList [x].
Proof.
  unfold int_list1. destruct e as [s|]; cbn [rbind]; [|discriminate].
  destruct (py_int s); cbn [rbind]; [|discriminate].
  intros H; inversion H. now eexists.
Qed.

Lemma str_to_list_of_is_list (e : result pyval) (v : pyval) :
  str_to_list_of e = Ok v -> exists l, v = PList l.
Proof.
  unfold str_to_list_of. destruct e as [s|]; cbn [rbind]; [|discriminate].
  apply str_to_list_is_list.
Qed.

(** Case analysis on the next expression that a body evaluates. *)
Ltac next_case H :=
  match type of H with
  | context [match ?e with Ok _ => _ | Raise _ => _ end] =>
      lazymatch e with
      | context [match _ with Ok _ => _ | Raise _ => _ end] => fail
      | context [if _ then _ else _] => fail
      | Ok _ => fail
      | Raise _ => fail
      | _ => let E := fresh "E" in destruct e eqn:E; try discriminate H
      end
  | context [if ?c then _ else _] =>
      lazymatch c with
      | context [match _ with Ok _ => _ | Raise _ => _ end] => fail
      | context [if _ then _ else _] => fail
      | _ => let E := fresh "E" in destruct c eqn:E; try discriminate H
      end
  end.

Ltac run_cases H :=
  repeat (run_body_in H; try discriminate H; next_case H).

Lemma check_mount_shape (g : gui) (k : Z) (ms : pyval) :
  check_mount g k = Ok ms ->
  1 <= k /\
  exists module_type racking_model,
    (exists surface_azimuth surface_tilt,
        ms = PList [PBool false; PList surface_azimuth; PList surface_tilt;
                    PNone; PNone; PNone; module_type; racking_model] /\
        (k = 1 -> List.length surface_azimuth = 1%nat /\
                  List.length surface_tilt = 1%nat)) \/
    (exists axis_tilt axis_azimuth max_angle,
        ms = PList [PBool true; PNone; PNone; PList axis_tilt;
                    PList axis_azimuth; PList max_angle;
                    module_type; racking_model] /\
        (k = 1 -> List.length axis_tilt = 1%nat /\
                  List.length axis_azimuth = 1%nat /\
                  List.length max_angle = 1%nat)).
Proof.
  unfold check_mount, module_type_of_racking. intros H.
  destruct (py_eq_str (tracker_btn g) "Sin Seguidor") eqn:Efix;
    [|destruct (py_eq_str (tracker_btn g) "Seguidor 1-Eje") eqn:Etrk;
      [|discriminate H]];
    (destruct (Z.eqb_spec k 1) as [->|Hk1];
     [|destruct (Z.gtb_spec k 1) as [Hgt|Hle]]).
  all: run_cases H.
  all: inversion H; subst; clear H.
  all: split; [lia|].
  all: repeat match goal with
       | E : float_list1 _ = Ok _ |- _ =>
           apply float_list1_is_list in E; destruct E as [? ->]
       | E : str_to_list_of _ = Ok _ |- _ =>
           apply str_to_list_of_is_list in E; destruct E as [? ->]
       end.
  all: do 2 eexists;
       first [ left; do 2 eexists; split;
               [reflexivity | intros Hk; try lia; split; reflexivity]
             | right; do 3 eexists; split;
               [reflexivity | intros Hk; try lia; repeat split; reflexivity] ].
Qed.

(** ** The mount mode of a generated configuration (C1) *)

Ltac in_items := cbn [In]; repeat first [left; reflexivity | right].

Lemma sys_config_mount (g : gui)
    (inverter_status module_status mount_status econfig_status cfg : pyval) :
  sys_config g inverter_status module_status mount_status econfig_status
    = Ok cfg ->
  exists d, cfg = PDict d /\
    (forall k i,
        In (k, i) [("with_tracker", 0%nat); ("surface_azimuth", 1%nat);
                   ("surface_tilt", 2%nat); ("axis_tilt", 3%nat);
                   ("axis_azimuth", 4%nat); ("max_angle", 5%nat)] ->
        exists v, py_index mount_status i = Ok v /\ dict_get d k = Ok v).
Proof.
  intros H. unfold sys_config in H.
  apply dict_of_spec in H; [|apply distinct_NoDup; reflexivity].
  destruct H as [d [-> [_ Hget]]]. exists d. split; [reflexivity|].
  intros k i Hin. cbn [In] in Hin.
  repeat (destruct Hin as [Heq|Hin];
          [inversion Heq; subst; apply Hget; in_items|]).
  destruct Hin.
Qed.

Lemma modes_exclusive (d : dict) : ~ (tracker_mode d /\ fixed_mode d).
Proof.
  intros [[Ht _] [Hf _]]. rewrite Ht in Hf. discriminate.
Qed.

(** C1. Every generated configuration is in exactly one mount mode: with
    [with_tracker] true the fixed-mount fields [surface_tilt] and
    [surface_azimuth] are null and [axis_tilt], [axis_azimuth] and
    [max_angle] are lists; with [with_tracker] false it is the other way
    round.  For one subarray each of these lists has exactly one
    element. *)
Theorem mount_mode_invariant (g : gui) (cfg : pyval) :
  on_genconfig_clicked g = Ok cfg ->
  exists d, cfg = PDict d /\
    ((tracker_mode d /\ ~ fixed_mode d) \/ (fixed_mode d /\ ~ tracker_mode d)) /\
    (w_subarrays g = 1 ->
     forall k l, In k mount_list_keys -> dict_get d k = Ok (PList l) ->
                 List.length l = 1%nat).
Proof.
  unfold on_genconfig_clicked. intros H.
  destruct (check_inverter g) as [inverter_status|]; cbn [rbind] in H;
    [|discriminate].
  destruct (check_module g) as [module_status|]; cbn [rbind] in H;
    [|discriminate].
  destruct (check_mount g (w_subarrays g)) as [mount_status|] eqn:Em;
    cbn [rbind] in H; [|discriminate].
  destruct (check_econfig g (w_subarrays g)) as [econfig_status|];
    cbn [rbind] in H; [|discriminate].
  apply sys_config_mount in H. destruct H as [d [-> Hget]].
  exists d. split; [reflexivity|].
  apply check_mount_shape in Em.
  destruct Em as [_ [mt [rm [[saz [st [-> Hone]]]|[at_ [aaz [ma [-> Hone]]]]]]]].
  - split.
    + right.
      assert (Hm : fixed_mode d).
      { unfold fixed_mode, field_is_null, field_is_list.
        repeat split;
          match goal with
          | |- exists l, dict_get d ?k = _ =>
              destruct (Hget k _ ltac:(in_items)) as [v [Hv ->]];
              inversion Hv; now eexists
          | |- dict_get d ?k = _ =>
              destruct (Hget k _ ltac:(in_items)) as [v [Hv ->]];
              now inversion Hv
          end. }
      split; [exact Hm|]. intros Ht. apply (modes_exclusive d). now split.
    + intros Hk k l Hin Hl. destruct (Hone Hk) as [H1 H2].
      cbn [In mount_list_keys] in Hin.
      repeat (destruct Hin as [<-|Hin];
              [match type of Hl with
               | dict_get d ?key = _ =>
                   destruct (Hget key _ ltac:(in_items)) as [v [Hv Hd]]
               end;
               rewrite Hd in Hl; cbn in Hv; congruence|]).
      destruct Hin.
  - split.
    + left.
      assert (Hm : tracker_mode d).
      { unfold tracker_mode, field_is_null, field_is_list.
        repeat split;
          match goal with
          | |- exists l, dict_get d ?k = _ =>
              destruct (Hget k _ ltac:(in_items)) as [v [Hv ->]];
              inversion Hv; now eexists
          | |- dict_get d ?k = _ =>
              destruct (Hget k _ ltac:(in_items)) as [v [Hv ->]];
              now inversion Hv
          end. }
      split; [exact Hm|]. intros Hf. apply (modes_exclusive d). now split.
    + intros Hk k l Hin Hl. destruct (Hone Hk) as [H1 [H2 H3]].
      cbn [In mount_list_keys] in Hin.
      repeat (destruct Hin as [<-|Hin];
              [match type of Hl with
               | dict_get d ?key = _ =>
                   destruct (Hget key _ ltac:(in_items)) as [v [Hv Hd]]
               end;
               rewrite Hd in Hl; cbn in Hv; congruence|]).
      destruct Hin.
Qed.

Lemma mount_mode_invariant_witness :
  exists cfg, on_genconfig_clicked demo_tracker = Ok cfg /\
    exists d, cfg = PDict d /\
      ((tracker_mode d /\ ~ fixed_mode d) \/
       (fixed_mode d /\ ~ tracker_mode d)) /\
      (w_subarrays demo_tracker = 1 ->
       forall k l, In k mount_list_keys -> dict_get d k = Ok (PList l) ->
                   List.length l = 1%nat).
Proof.
  eexists. split; [vm_compute; reflexivity|].
  apply (mount_mode_invariant demo_tracker). vm_compute. reflexivity.
Defined.

(** ** The two inverter schemas (C4) *)

Ltac has_field Hrec k :=
  let v := fresh "v" in let Hv := fresh "Hv" in
  destruct (Hrec k ltac:(cbn [sandia_keys pvwatts_keys]; in_items)) as [v Hv];
  cbn [py_item]; rewrite Hv.

(** C4. For each of the four inverter sources [check_inverter] returns a
    result tagged with an AC model, in one of exactly two schemas: tag
    [sandia] with the nine coefficients, or tag [pvwatts] with [Pdco] and
    [eta_inv_nom]. *)
Theorem check_inverter_schema (g : gui) :
  inverter_source g ->
  exists r, check_inverter g = Ok r /\ inverter_schema r.
Proof.
  intros [manufac inv_drop record Hbtn Hbox Hsam Hrec
         | record Hbtn Hfiles Hrec
         | w1 w2 w3 w4 w5 w6 w7 w8 w9 Hbtn Hman Hbox
         | w1 w2 Hbtn Hman Hbox];
    unfold check_inverter; rewrite Hbtn; rewrite ?Hman, ?Hbox, ?Hfiles;
    cbn [py_eq_str String.eqb Ascii.eqb Bool.eqb]; read_panel.
  - run_body. rewrite Hsam. cbn [rbind]. run_body.
    unfold dict_of. cbn [eval_items].
    has_field Hrec "Paco". has_field Hrec "Pdco". has_field Hrec "Vdco".
    has_field Hrec "Pso". has_field Hrec "C0". has_field Hrec "C1".
    has_field Hrec "C2". has_field Hrec "C3". has_field Hrec "Pnt".
    cbn. eexists. split; [reflexivity|].
    do 4 eexists. split; [reflexivity|]. left. split; reflexivity.
  - run_body. cbn [rbind]. unfold dict_of. cbn [eval_items].
    has_field Hrec "Pdco". has_field Hrec "eta_inv_nom".
    cbn. eexists. split; [reflexivity|].
    do 4 eexists. split; [reflexivity|]. right. split; reflexivity.
  - run_body. cbn. eexists. split; [reflexivity|].
    do 4 eexists. split; [reflexivity|]. left. split; reflexivity.
  - run_body. cbn. eexists. split; [reflexivity|].
    do 4 eexists. split; [reflexivity|]. right. split; reflexivity.
Qed.

Lemma check_inverter_schema_witness :
  inverter_source demo_tracker /\
  exists r, check_inverter demo_tracker = Ok r /\ inverter_schema r.
Proof.
  assert (H : inverter_source demo_tracker).
  { apply (source_repository demo_tracker (PStr "ABB") (PStr "ABB__MICRO_0_25")
             snl_record); try reflexivity.
    intros k Hk. cbn [sandia_keys In] in Hk.
    repeat (destruct Hk as [<-|Hk]; [eexists; reflexivity|]).
    destruct Hk. }
  split; [exact H|]. exact (check_inverter_schema demo_tracker H).
Defined.

(** Each of the four sources on a sample form, with the tag it gets. *)
Example inverter_sources_tagged :
  (check_inverter demo_tracker >>= fun r => py_index r 3) = Ok (PStr "sandia")
  /\ (check_inverter demo_ond >>= fun r => py_index r 3) = Ok (PStr "pvwatts")
  /\ (check_inverter demo_cec >>= fun r => py_index r 3) = Ok (PStr "sandia")
  /\ (check_inverter demo_fixed >>= fun r => py_index r 3)
     = Ok (PStr "pvwatts").
Proof. repeat split; vm_compute; reflexivity. Qed.

(** Whatever the form holds, a result of [check_inverter] is in one of the
    two schemas: no other selection gets as far as the [return]. *)
Lemma check_inverter_result (g : gui) (r : pyval) :
  check_inverter g = Ok r -> inverter_schema r.
Proof.
  unfold check_inverter. intros H.
  destruct (py_eq_str (inverter_btn g) "Repositorio") eqn:E1;
  destruct (py_eq_str (inverter_btn g) "PVsyst") eqn:E2;
  destruct (py_eq_str (inverter_btn g) "Manual") eqn:E3;
  try (destruct (inverter_btn g) as [| | | |s| |]; try discriminate;
         cbn [py_eq_str] in E1, E2, E3;
         apply String.eqb_eq in E1; subst;
         discriminate).
  all: try (destruct (inverter_btn g) as [| | | |s| |]; try discriminate;
         cbn [py_eq_str] in E1, E2, E3;
         apply String.eqb_eq in E2; subst;
         discriminate).
  all: run_cases H.
  all: inversion H; subst; clear H.
  all: repeat match goal with
       | E : dict_of _ = Ok _ |- _ =>
           apply dict_of_spec in E; [|apply distinct_NoDup; reflexivity];
           destruct E as [? [-> [? _]]]
       end.
  all: unfold inverter_schema; do 4 eexists; split; [reflexivity|].
  all: first [ left; split; [reflexivity|assumption]
             | right; split; [reflexivity|assumption] ].
Qed.

(** ** The fields of a normalized module record (C3) *)

Lemma canonical_fields_count : List.length canonical_fields = 11%nat.
Proof. reflexivity. Qed.

Lemma canonical_fields_distinct : NoDup canonical_fields.
Proof. apply distinct_NoDup. reflexivity. Qed.

Lemma set_technology_keys (d : dict) (v : pyval) :
  dict_keys d = canonical_fields ->
  dict_keys (dict_set d "Technology" v) = canonical_fields.
Proof.
  intros H. rewrite dict_keys_set_present; [exact H|].
  rewrite H. cbn [canonical_fields]. in_items.
Qed.

Ltac module_record_keys H :=
  run_cases H; inversion H; subst; clear H;
  repeat match goal with
  | E : dict_of _ = Ok _ |- _ =>
      (apply dict_of_spec in E; [|apply distinct_NoDup; reflexivity]);
      destruct E as [? [-> [? _]]]
  end;
  repeat match goal with
  | E : set_item (PDict _) _ _ = Ok _ |- _ =>
      cbn [set_item] in E; inversion E; subst; clear E
  end;
  do 2 eexists; (split; [reflexivity|]); assumption.

(** The record of a supported source: the eleven fields as read from the
    source, with [Technology] then overwritten by its normalized tag. *)
Lemma module_record_shape (s : module_schema) (g : gui) (r : pyval) :
  selects g s ->
  check_module g = Ok r ->
  exists d t,
    py_index r 2 = Ok (PDict (dict_set d "Technology" (module_tec t))) /\
    dict_keys d = canonical_fields.
Proof.
  intros Hsel H. unfold check_module in H.
  destruct s; cbn [selects] in Hsel.
  - destruct Hsel as [Hbtn Hrepo]. rewrite Hbtn, Hrepo in H.
    module_record_keys H.
  - destruct Hsel as [Hbtn Hrepo]. rewrite Hbtn, Hrepo in H.
    module_record_keys H.
  - destruct Hsel as [Hbtn [Hrepo Hdb]]. rewrite Hbtn, Hrepo, !Hdb in H.
    cbn [rbind] in H. module_record_keys H.
  - destruct Hsel as [Hbtn [Hrepo Hdb]]. rewrite Hbtn, Hrepo, !Hdb in H.
    cbn [rbind] in H. module_record_keys H.
  - rewrite Hsel in H. module_record_keys H.
  - rewrite Hsel in H. module_record_keys H.
Qed.

(** C3, as the code has it. For each of the six module sources the
    normalized record has exactly the eleven fields [T_NOCT], [Technology],
    [N_s], [I_sc_ref], [V_oc_ref], [I_mp_ref], [V_mp_ref], [alpha_sc],
    [beta_oc], [gamma_r] and [STC]: the three temperature coefficients
    bring the count to eleven, not ten. *)
Theorem module_record_fields (s : module_schema) (g : gui) (r : pyval) :
  selects g s ->
  check_module g = Ok r ->
  exists module,
    py_index r 2 = Ok (PDict module) /\ dict_keys module = canonical_fields.
Proof.
  intros Hsel H.
  destruct (module_record_shape s g r Hsel H) as [d [t [Hr Hk]]].
  eexists. split; [exact Hr|]. now apply set_technology_keys.
Qed.

Lemma module_record_fields_witness :
  selects demo_cec CEC_repository /\
  exists r, check_module demo_cec = Ok r /\
    exists module,
      py_index r 2 = Ok (PDict module) /\ dict_keys module = canonical_fields.
Proof.
  assert (H : selects demo_cec CEC_repository) by (split; reflexivity).
  split; [exact H|]. eexists. split; [vm_compute; reflexivity|].
  apply (module_record_fields CEC_repository demo_cec); [exact H|].
  vm_compute. reflexivity.
Defined.

(** Each of the six sources does produce a record. *)
Lemma every_schema_normalizes (s : module_schema) :
  selects (demo_of_schema s) s /\ succeeds (check_module (demo_of_schema s)).
Proof.
  destruct s; (split; [repeat split|eexists; vm_compute; reflexivity]).
Qed.

(** The count of ten fails on the manually entered module of the sample
    form. *)
Lemma module_record_ten_fields_fails :
  ~ (forall (s : module_schema) (g : gui) (r : pyval) (module : dict),
        selects g s ->
        check_module g = Ok r ->
        py_index r 2 = Ok (PDict module) ->
        List.length (dict_keys module) = 10%nat).
Proof.
  intros H.
  assert (Hsel : selects demo_fixed Manual_entry) by reflexivity.
  destruct (check_module demo_fixed) as [r|] eqn:E; [|discriminate].
  pose proof (H Manual_entry demo_fixed r) as Hr.
  vm_compute in E. inversion E; subst; clear E.
  specialize (Hr _ Hsel eq_refl eq_refl). vm_compute in Hr. discriminate.
Qed.

(** ** Technology normalization (C2) *)

Lemma py_in_strs_In (s : string) (l : list string) :
  py_in_strs (PStr s) l = true -> In s l.
Proof.
  unfold py_in_strs. intros H. apply existsb_exists in H.
  destruct H as [x [Hin Heq]]. cbn [py_eq_str] in Heq.
  apply String.eqb_eq in Heq. now subst.
Qed.

Lemma module_tec_synonym (s tag : string) :
  In (s, tag) technology_synonyms -> module_tec (PStr s) = PStr tag.
Proof.
  intros Hin. cbn [In technology_synonyms] in Hin.
  repeat (destruct Hin as [Heq|Hin]; [inversion Heq; subst; reflexivity|]).
  destruct Hin.
Qed.

Ltac not_a_synonym Hout :=
  match goal with
  | |- context [py_in_strs ?v ?l] =>
      let E := fresh "E" in
      destruct (py_in_strs v l) eqn:E;
      [ exfalso; apply Hout; apply py_in_strs_In in E;
        cbn [In] in E; cbn [map fst technology_synonyms];
        repeat (destruct E as [<-|E]; [in_items|]); destruct E
      | ]
  end.

Lemma module_tec_unknown (s : string) :
  ~ In s (map fst technology_synonyms) -> module_tec (PStr s) = PNone.
Proof.
  intros Hout. unfold module_tec.
  do 7 not_a_synonym Hout. reflexivity.
Qed.

Lemma module_tec_range (v : pyval) :
  module_tec v = PNone \/ exists tag, In tag canonical_tags /\ module_tec v = PStr tag.
Proof.
  unfold module_tec.
  repeat match goal with
  | |- context [py_in_strs ?v ?l] =>
      destruct (py_in_strs v l);
      [right; eexists; split; [|reflexivity]; cbn [canonical_tags]; in_items|]
  end.
  now left.
Qed.

(** C2. The technology chain is a function from strings to a tag or null:
    each synonym in the table gets its tag, every other string gets null,
    and the tags that can come out are exactly seven. *)
Theorem technology_normalization :
  (forall s tag, In (s, tag) technology_synonyms ->
                 module_tec (PStr s) = PStr tag) /\
  (forall s, ~ In s (map fst technology_synonyms) ->
             module_tec (PStr s) = PNone) /\
  (forall tag, In tag canonical_tags <->
               exists s, module_tec (PStr s) = PStr tag) /\
  NoDup canonical_tags /\
  List.length canonical_tags = 7%nat.
Proof.
  split; [exact module_tec_synonym|].
  split; [exact module_tec_unknown|].
  split; [|split; [apply distinct_NoDup; reflexivity|reflexivity]].
  intros tag. split.
  - intros Hin. cbn [In canonical_tags] in Hin.
    destruct Hin as [<-|[<-|[<-|[<-|[<-|[<-|[<-|[]]]]]]]].
    + now exists "monosi".
    + now exists "multisi".
    + now exists "polysi".
    + now exists "cis".
    + now exists "cigs".
    + now exists "cdte".
    + now exists "asi".
  - intros [s Hs]. destruct (module_tec_range (PStr s)) as [Hn|[t [Hin Ht]]].
    + rewrite Hn in Hs. discriminate.
    + rewrite Ht in Hs. inversion Hs; subst. exact Hin.
Qed.

(** The record of a supported source carries a normalized technology: null
    or one of the seven tags. *)
Lemma module_record_technology (s : module_schema) (g : gui) (r : pyval) :
  selects g s ->
  check_module g = Ok r ->
  exists module,
    py_index r 2 = Ok (PDict module) /\
    (dict_get module "Technology" = Ok PNone \/
     exists tag, In tag canonical_tags /\
                 dict_get module "Technology" = Ok (PStr tag)).
Proof.
  intros Hsel H.
  destruct (module_record_shape s g r Hsel H) as [d [t [Hr _]]].
  eexists. split; [exact Hr|]. rewrite dict_get_set_same.
  destruct (module_tec_range t) as [->|[tag [Hin ->]]];
    [now left|right; now exists tag].
Qed.

(** ** The capacity statistic *)

Lemma Qle_bool_false (x y : Q) : Qle_bool x y = false -> (y < x)%Q.
Proof.
  intros H. apply Qnot_le_lt. intros Hle.
  apply Qle_bool_iff in Hle. congruence.
Qed.

Lemma insert_sorted_perm (x : Q) (l : list Q) :
  Permutation (insert_sorted x l) (x :: l).
Proof.
  induction l as [|y l IH]; simpl.
  - apply Permutation_refl.
  - destruct (Qle_bool x y).
    + apply Permutation_refl.
    + apply perm_trans with (y :: x :: l).
      * now apply perm_skip.
      * apply perm_swap.
Qed.

Lemma np_sort_perm (a : list Q) : Permutation (np_sort a) a.
Proof.
  induction a as [|x a IH]; simpl.
  - apply perm_nil.
  - apply perm_trans with (x :: np_sort a).
    + apply insert_sorted_perm.
    + now apply perm_skip.
Qed.

Lemma np_sort_length (a : list Q) : List.length (np_sort a) = List.length a.
Proof. apply Permutation_length, np_sort_perm. Qed.

Lemma insert_sorted_hd (x y : Q) (l : list Q) :
  (y <= x)%Q -> HdRel Qle y l -> HdRel Qle y (insert_sorted x l).
Proof.
  intros Hyx Hhd. destruct l as [|z l]; simpl.
  - now constructor.
  - destruct (Qle_bool x z); constructor; [exact Hyx|].
    now inversion Hhd.
Qed.

Lemma insert_sorted_sorted (x : Q) (l : list Q) :
  Sorted Qle l -> Sorted Qle (insert_sorted x l).
Proof.
  induction l as [|y l IH]; intros Hs; simpl.
  - repeat constructor.
  - inversion Hs as [|? ? Hs' Hhd]; subst.
    destruct (Qle_bool x y) eqn:E.
    + constructor; [exact Hs|]. constructor. now apply Qle_bool_iff.
    + constructor; [now apply IH|].
      apply insert_sorted_hd; [|exact Hhd].
      apply Qlt_le_weak. now apply Qle_bool_false.
Qed.

Lemma np_sort_sorted (a : list Q) : Sorted Qle (np_sort a).
Proof.
  induction a as [|x a IH]; simpl.
  - constructor.
  - now apply insert_sorted_sorted.
Qed.


(** The maximum is a sample, and no sample exceeds it. *)
Lemma fold_Qmax_ge (l : list Q) (x : Q) :
  (x <= fold_left Qmax l x)%Q /\
  (forall y, In y l -> y <= fold_left Qmax l x)%Q.
Proof.
  revert x. induction l as [|z l IH]; intros x; simpl.
  - split; [apply Qle_refl|intros ? []].
  - destruct (IH (Qmax x z)) as [H1 H2].
    assert (Hx : (x <= Qmax x z)%Q).
    { unfold Qmax. destruct (Qle_bool x z) eqn:E.
      - now apply Qle_bool_iff. - apply Qle_refl. }
    assert (Hz : (z <= Qmax x z)%Q).
    { unfold Qmax. destruct (Qle_bool x z) eqn:E.
      - apply Qle_refl. - apply Qlt_le_weak. now apply Qle_bool_false. }
    split.
    + now apply Qle_trans with (Qmax x z).
    + intros y [<-|Hin]; [now apply Qle_trans with (Qmax x z)|now apply H2].
Qed.

Lemma np_max_ge (a : list Q) (m : Q) :
  np_max a = Ok m -> forall y, In y a -> (y <= m)%Q.
Proof.
  destruct a as [|x a]; [discriminate|]. simpl. intros H y Hin.
  inversion H; subst. destruct (fold_Qmax_ge a x) as [H1 H2].
  destruct Hin as [<-|Hin]; [exact H1|now apply H2].
Qed.

Lemma np_max_nonempty (x : Q) (a : list Q) : exists m, np_max (x :: a) = Ok m.
Proof. now eexists. Qed.

Lemma rint_bounds (q : Q) : Qfloor q <= rint q <= Qfloor q + 1.
Proof.
  unfold rint. destruct (Qcompare _ _); [destruct (Z.even _)| |]; lia.
Qed.

Lemma rint_mono (x y : Q) : (x <= y)%Q -> rint x <= rint y.
Proof.
  intros Hxy. pose proof (Qfloor_resp_le _ _ Hxy) as Hf.
  destruct (Z.eq_dec (Qfloor x) (Qfloor y)) as [Heq|Hne].
  - unfold rint. rewrite <- Heq.
    destruct (Qcompare_spec (x - inject_Z (Qfloor x)) (1 # 2)) as [Hx|Hx|Hx];
    destruct (Qcompare_spec (y - inject_Z (Qfloor x)) (1 # 2)) as [Hy|Hy|Hy];
    try (destruct (Z.even (Qfloor x))); try lia; exfalso; lra.
  - pose proof (rint_bounds x). pose proof (rint_bounds y). lia.
Qed.

Lemma rint_comp (x y : Q) : (x == y)%Q -> rint x = rint y.
Proof.
  intros H. apply Z.le_antisymm; apply rint_mono; rewrite H; apply Qle_refl.
Qed.



Lemma around_comp (x y : Q) (d : Z) : (x == y)%Q -> around x d = around y d.
Proof.
  intros H. unfold around. destruct (0 <=? d).
  - f_equal. apply rint_comp. now rewrite H.
  - do 2 f_equal. apply rint_comp. now rewrite H.
Qed.


Lemma np_around_comp (x y : Q) (d : Z) :
  (x == y)%Q -> np_around x d = np_around y d.
Proof.
  intros H. unfold np_around. now rewrite (around_comp x y d H).
Qed.


Lemma np_percentile_defined (a : list Q) (q : Q) :
  a <> [] -> (0 <= q)%Q -> (q <= 100)%Q ->
  let s := np_sort a in
  let n := List.length a in
  let h := (inject_Z (Z.of_nat n - 1) * (q / 100))%Q in
  let lo := Z.to_nat (Qfloor h) in
  let hi := Nat.min (lo + 1) (n - 1) in
  np_percentile a q =
    Ok (nth lo s 0 + (nth hi s 0 - nth lo s 0) * (h - inject_Z (Qfloor h)))%Q.
Proof.
  intros Ha Hq0 Hq1. unfold np_percentile.
  apply Qle_bool_iff in Hq0. apply Qle_bool_iff in Hq1.
  rewrite Hq0, Hq1. cbn [andb negb].
  destruct a as [|x a]; [contradiction|]. reflexivity.
Qed.




Lemma get_cen_locals_defined (ac : list Q) (perc : Q) (decimals : Z) :
  ac <> [] -> (0 <= perc)%Q -> (perc <= 100)%Q ->
  exists v m,
    np_percentile ac perc = Ok v /\ np_max ac = Ok m /\
    get_cen_locals ac perc decimals =
      Ok {| pac := np_sort ac;
            pac_max := m;
            p := map (fun i => true_divide (1 * inject_Z i)
                                 (Z.of_nat (List.length ac) - 1))
                     (arange (List.length ac));
            cen_per := np_around (v / inject_Z 1000000) decimals;
            cen_pmax := np_around (m / inject_Z 1000000) decimals |}.
Proof.
  intros Ha Hq0 Hq1. unfold get_cen_locals.
  rewrite (np_percentile_defined ac perc Ha Hq0 Hq1).
  destruct ac as [|x ac]; [contradiction|].
  destruct (np_max_nonempty x ac) as [m Hm]. rewrite Hm.
  do 2 eexists. repeat split; reflexivity.
Qed.




(** ** The documented example (C6) *)

(** C6. On the samples [1, 2, 3, 4, 5] with [perc = 50] and
    [decimals = 6], [get_cen] returns [(3e-6, 5e-6)]: the median and the
    maximum, in megawatts. *)
Theorem get_cen_example :
  get_cen [1; 2; 3; 4; 5]%Q 50 6 true
  = Ok (Finite (3 # 1000000), Finite (5 # 1000000)).
Proof. vm_compute. reflexivity. Qed.

(** ** A single sample (C8) *)

(** C8, as the code has it. With one sample the rank formula divides
    zero by zero; in the array division this gives [nan] for the only
    probability and no exception, and [get_cen] goes on to return its
    pair. *)
Theorem single_sample_result
    (x perc : Q) (decimals : Z) (curve : bool) :
  (0 <= perc)%Q -> (perc <= 100)%Q ->
  get_cen_plot [x] perc decimals true = Ok (Some ([x], [NaN])) /\
  exists cen_per cen_pmax,
    get_cen [x] perc decimals curve = Ok (cen_per, cen_pmax).
Proof.
  intros Hq0 Hq1.
  assert (Ha : [x] <> []) by discriminate.
  destruct (get_cen_locals_defined [x] perc decimals Ha Hq0 Hq1)
    as [v [m [Hv [Hm Hl]]]].
  unfold get_cen_plot, get_cen. rewrite Hl. cbn [rbind pac p cen_per cen_pmax].
  split; [reflexivity|]. now do 2 eexists.
Qed.

Lemma single_sample_result_witness :
  get_cen_plot [5]%Q 50 6 true = Ok (Some ([5]%Q, [NaN])) /\
  exists cen_per cen_pmax,
    get_cen [5]%Q 50 6 true = Ok (cen_per, cen_pmax).
Proof.
  apply (single_sample_result 5 50 6 true).
  - vm_compute. discriminate.
  - vm_compute. discriminate.
Defined.

(** One sample of five watts: [get_cen] returns [(5e-6, 5e-6)], it does
    not fail. *)
Lemma single_sample_no_failure :
  get_cen [5]%Q 50 6 true
  = Ok (Finite (5 # 1000000), Finite (5 # 1000000)) /\
  ~ (exists e, get_cen [5]%Q 50 6 true = Raise e).
Proof.
  split; [vm_compute; reflexivity|].
  intros [e He]. vm_compute in He. discriminate.
Qed.

(** ** Ranks and interpolation (C7) *)








(** The sample of the witness: the 75th percentile of 10, 20, 30 lies half
    way between the samples of rank 1 and 2. *)
Example percentile_75_of_three :
  get_cen [30; 10; 20]%Q 75 6 false
  = Ok (Finite (25 # 1000000), Finite (30 # 1000000)).
Proof. vm_compute. reflexivity. Qed.

(** ** Per-subarray fields (C5) *)

(** *** Characters *)

Local Open Scope char_scope.

Lemma digit_not_special (c : ascii) :
  is_digit c = true ->
  Ascii.eqb c "-" = false /\ Ascii.eqb c "+" = false /\
  Ascii.eqb c "." = false /\ Ascii.eqb c "e" = false /\
  Ascii.eqb c "E" = false /\ is_ws c = false /\ is_space c = false /\
  Ascii.eqb c dquote = false /\ Ascii.eqb c "{" = false /\
  Ascii.eqb c "[" = false /\ Ascii.eqb c "]" = false /\
  Ascii.eqb c "," = false /\ Ascii.eqb "n" c = false /\
  Ascii.eqb "t" c = false /\ Ascii.eqb "f" c = false.
Proof.
  destruct c as [[] [] [] [] [] [] [] []]; intros H;
    try discriminate H; repeat split; reflexivity.
Qed.

Lemma delimiter_not_number (c : ascii) :
  is_ws c || Ascii.eqb c "," || Ascii.eqb c "]" = true ->
  is_digit c = false /\ Ascii.eqb c "." = false /\
  Ascii.eqb c "e" = false /\ Ascii.eqb c "E" = false.
Proof.
  destruct c as [[] [] [] [] [] [] [] []]; intros H;
    try discriminate H; repeat split; reflexivity.
Qed.

(** *** Scanning a written numeral *)

Lemma span_digits_app (ds t : text) :
  all_digits ds = true -> non_digit_head t = true ->
  span_digits (ds ++ t) = (ds, t).
Proof.
  intros Hds Ht. induction ds as [|d ds IH]; cbn [app].
  - destruct t as [|c t]; [reflexivity|]. cbn [span_digits].
    cbn [non_digit_head] in Ht. apply negb_true_iff in Ht. now rewrite Ht.
  - cbn [all_digits forallb] in Hds. apply andb_prop in Hds.
    destruct Hds as [Hd Hds]. cbn [span_digits]. rewrite Hd.
    now rewrite (IH Hds).
Qed.

Lemma digits_ok_cons (ds : text) :
  digits_ok ds = true ->
  exists d ds', ds = d :: ds' /\ is_digit d = true /\ all_digits ds = true.
Proof.
  unfold digits_ok. destruct ds as [|d ds']; [discriminate|].
  cbn [is_nil negb andb]. intros H. exists d, ds'.
  split; [reflexivity|]. split; [|exact H].
  cbn [all_digits forallb] in H. now apply andb_prop in H.
Qed.

Lemma ends_number_non_digit (s : text) :
  ends_number s = true -> non_digit_head s = true.
Proof.
  destruct s as [|c s]; [reflexivity|]. cbn [ends_number non_digit_head].
  intros H. apply delimiter_not_number in H. destruct H as [-> _]. reflexivity.
Qed.

Lemma scan_exponent_absent (rest : text) :
  ends_number rest = true -> scan_exponent rest = (None, rest).
Proof.
  destruct rest as [|c s]; [reflexivity|]. cbn [ends_number scan_exponent].
  intros H. apply delimiter_not_number in H.
  destruct H as [_ [_ [-> ->]]]. reflexivity.
Qed.

Lemma scan_sign_digit (d : ascii) (t : text) :
  is_digit d = true -> scan_sign (d :: t) = (false, d :: t).
Proof.
  intros Hd. destruct (digit_not_special d Hd) as [Hm [Hp _]].
  unfold scan_sign. cbn [eat]. now rewrite Hm, Hp.
Qed.

Lemma scan_exponent_render (e : exponent) (rest : text) :
  digits_ok (exp_digits e) = true -> non_digit_head rest = true ->
  scan_exponent (render_exponent e ++ rest) = (Some (exponent_value e), rest).
Proof.
  destruct e as [upper sign ds]. cbn [exp_digits]. intros He Hrest.
  destruct (digits_ok_cons _ He) as [d [ds' [-> [Hd Hall]]]].
  pose proof (span_digits_app _ _ Hall Hrest) as Hspan.
  unfold render_exponent, exponent_value. cbn [exp_upper exp_sign exp_digits].
  destruct upper, sign as [[]|];
    cbn [app scan_exponent Ascii.eqb Bool.eqb orb];
    first [ rewrite (scan_sign_digit d _ Hd) | unfold scan_sign; cbn [eat Ascii.eqb Bool.eqb] ];
    cbn [app] in Hspan; rewrite Hspan; reflexivity.
Qed.

(** The exponent part of a numeral, written or absent. *)
Lemma scan_exp_part (e : option exponent) (rest : text) :
  match e with Some x => digits_ok (exp_digits x) | None => true end = true ->
  ends_number rest = true ->
  scan_exponent (render_exp e ++ rest) = (option_map exponent_value e, rest).
Proof.
  intros He Hrest. destruct e as [x|]; cbn [render_exp option_map app].
  - apply scan_exponent_render; [exact He|now apply ends_number_non_digit].
  - now apply scan_exponent_absent.
Qed.

Lemma exp_part_non_digit (e : option exponent) (rest : text) :
  ends_number rest = true -> non_digit_head (render_exp e ++ rest) = true.
Proof.
  intros Hrest. destruct e as [x|]; cbn [render_exp app].
  - unfold render_exponent. destruct (exp_upper x); reflexivity.
  - now apply ends_number_non_digit.
Qed.

Lemma exp_part_no_point (e : option exponent) (rest : text) :
  ends_number rest = true -> eat "." (render_exp e ++ rest) = None.
Proof.
  intros Hrest. destruct e as [x|]; cbn [render_exp app].
  - unfold render_exponent. destruct (exp_upper x); reflexivity.
  - destruct rest as [|c r]; [reflexivity|]. cbn [ends_number] in Hrest.
    apply delimiter_not_number in Hrest. destruct Hrest as [_ [Hp _]].
    cbn [eat]. now rewrite Hp.
Qed.

Lemma scan_frac_part (f : option text) (e : option exponent) (rest : text) :
  match f with Some ds => digits_ok ds | None => true end = true ->
  ends_number rest = true ->
  scan_fraction (render_frac f ++ render_exp e ++ rest)
    = (f, render_exp e ++ rest).
Proof.
  intros Hf Hrest. destruct f as [ds|]; cbn [render_frac app].
  - destruct (digits_ok_cons _ Hf) as [d [ds' [Hds [Hd Hall]]]].
    unfold scan_fraction. cbn [eat Ascii.eqb Bool.eqb].
    rewrite (span_digits_app _ _ Hall (exp_part_non_digit e rest Hrest)).
    rewrite Hds. reflexivity.
  - unfold scan_fraction. now rewrite exp_part_no_point.
Qed.

Lemma int_ok_cons (ds : text) :
  int_ok ds = true ->
  exists c r, ds = c :: r /\ is_digit c = true /\ all_digits r = true /\
              (Ascii.eqb c "0" = true -> r = []).
Proof.
  destruct ds as [|c r]; [discriminate|]. cbn [int_ok]. intros H.
  apply andb_prop in H. destruct H as [H Hz]. apply andb_prop in H.
  destruct H as [Hc Hr]. exists c, r. repeat split; try assumption.
  intros H0. rewrite H0 in Hz. cbn [negb orb] in Hz.
  destruct r; [reflexivity|discriminate].
Qed.

Lemma render_parts (n : numeral) :
  render n = (if num_neg n then ["-"] else [])
             ++ num_int n ++ render_frac (num_frac n) ++ render_exp (num_exp n).
Proof. reflexivity. Qed.

Lemma wf_numeral_parts (n : numeral) :
  wf_numeral n = true ->
  int_ok (num_int n) = true /\
  match num_frac n with Some f => digits_ok f | None => true end = true /\
  match num_exp n with Some e => digits_ok (exp_digits e) | None => true end
    = true.
Proof.
  unfold wf_numeral. intros H. apply andb_prop in H. destruct H as [H He].
  apply andb_prop in H. tauto.
Qed.

Lemma frac_part_non_digit (f : option text) (e : option exponent) (rest : text) :
  ends_number rest = true ->
  non_digit_head (render_frac f ++ render_exp e ++ rest) = true.
Proof.
  intros Hrest. destruct f; cbn [render_frac app];
    [reflexivity|now apply exp_part_non_digit].
Qed.

(** The number pattern matches a written numeral exactly, and yields its
    value. *)
Lemma match_number_render (n : numeral) (rest : text) :
  wf_numeral n = true -> ends_number rest = true ->
  match_number (render n ++ rest) = Some (numeral_value n, rest).
Proof.
  intros Hwf Hrest. destruct (wf_numeral_parts n Hwf) as [Hi [Hf He]].
  destruct (int_ok_cons _ Hi) as [c [r [Hint [Hc [Hr Hzero]]]]].
  destruct (digit_not_special c Hc) as [Hm _].
  rewrite render_parts. unfold numeral_value. rewrite Hint.
  rewrite <- !app_assoc.
  assert (Hbody :
    match (c :: r) ++ render_frac (num_frac n) ++ render_exp (num_exp n) ++ rest
    with
    | c0 :: r0 =>
        if is_digit c0 then
          let (ds, r1) :=
            if Ascii.eqb c0 "0" then ([], r0) else span_digits r0 in
          let (fp, r2) := scan_fraction r1 in
          let (ep, r3) := scan_exponent r2 in
          Some (number_value (num_neg n) (c0 :: ds) fp ep, r3)
        else None
    | [] => None
    end = Some (number_value (num_neg n) (c :: r) (num_frac n)
                   (option_map exponent_value (num_exp n)), rest)).
  { cbn [app]. rewrite Hc.
    assert (Hspan :
      (if Ascii.eqb c "0"
       then ([], r ++ render_frac (num_frac n) ++ render_exp (num_exp n) ++ rest)
       else span_digits
              (r ++ render_frac (num_frac n) ++ render_exp (num_exp n) ++ rest))
      = (r, render_frac (num_frac n) ++ render_exp (num_exp n) ++ rest)).
    { destruct (Ascii.eqb c "0") eqn:E0.
      - rewrite (Hzero eq_refl). reflexivity.
      - apply span_digits_app; [exact Hr|now apply frac_part_non_digit]. }
    rewrite Hspan. rewrite (scan_frac_part _ _ _ Hf Hrest).
    rewrite (scan_exp_part _ _ He Hrest). reflexivity. }
  unfold match_number. destruct (num_neg n); cbn [app eat].
  - cbn [Ascii.eqb Bool.eqb]. exact Hbody.
  - rewrite Hm. exact Hbody.
Qed.

(** *** Decoding a comma-delimited field *)

Lemma render_head (n : numeral) (rest : text) :
  wf_numeral n = true ->
  exists c r, render n ++ rest = c :: r /\ (c = "-" \/ is_digit c = true).
Proof.
  intros Hwf. destruct (wf_numeral_parts n Hwf) as [Hi _].
  destruct (int_ok_cons _ Hi) as [c [r [Hint [Hc _]]]].
  rewrite render_parts, Hint. destruct (num_neg n); cbn [app].
  - do 2 eexists. split; [reflexivity|now left].
  - do 2 eexists. split; [reflexivity|now right].
Qed.

Lemma scan_once_number (fuel : nat) (c : ascii) (r : text)
    (x : pyval * text) :
  c = "-" \/ is_digit c = true ->
  match_number (c :: r) = Some x ->
  scan_once (S fuel) (c :: r) = Ok x.
Proof.
  intros Hc Hm. cbn [scan_once].
  destruct Hc as [->|Hd].
  - cbn [Ascii.eqb Bool.eqb dquote strip_prefix lit_null lit_true lit_false
         list_ascii_of_string].
    now rewrite Hm.
  - destruct (digit_not_special c Hd)
      as [_ [_ [_ [_ [_ [_ [_ [Hq [Hb [Hk [_ [_ [Hn [Ht Hf]]]]]]]]]]]]]].
    rewrite Hq, Hb, Hk.
    cbn [strip_prefix lit_null lit_true lit_false list_ascii_of_string].
    rewrite Hn, Ht, Hf. now rewrite Hm.
Qed.

Lemma scan_once_numeral (fuel : nat) (n : numeral) (rest : text) :
  (0 < fuel)%nat -> wf_numeral n = true -> ends_number rest = true ->
  scan_once fuel (render n ++ rest) = Ok (numeral_value n, rest).
Proof.
  intros Hfuel Hwf Hrest. destruct fuel as [|fuel]; [lia|]. pose proof (match_number_render n rest Hwf Hrest) as Hm.
  destruct (render_head n rest Hwf) as [c [r [Heq Hc]]].
  rewrite Heq in *. now apply scan_once_number.
Qed.

Lemma skip_ws_app (ws s : text) :
  forallb is_ws ws = true -> skip_ws (ws ++ s) = skip_ws s.
Proof.
  induction ws as [|c ws IH]; [reflexivity|]. cbn [forallb app skip_ws].
  intros H. apply andb_prop in H. destruct H as [-> H]. now apply IH.
Qed.

Lemma skip_ws_numeral (n : numeral) (rest : text) :
  wf_numeral n = true -> skip_ws (render n ++ rest) = render n ++ rest.
Proof.
  intros Hwf. destruct (render_head n rest Hwf) as [c [r [-> Hc]]].
  cbn [skip_ws]. destruct Hc as [->|Hd]; [reflexivity|].
  destruct (digit_not_special c Hd) as [_ [_ [_ [_ [_ [-> _]]]]]]. reflexivity.
Qed.

Lemma wf_entry_parts (e : entry) :
  wf_entry e = true ->
  forallb is_ws (lead e) = true /\ wf_numeral (num e) = true /\
  forallb is_ws (trail e) = true.
Proof.
  unfold wf_entry. intros H. apply andb_prop in H. destruct H as [H Ht].
  apply andb_prop in H. tauto.
Qed.

(** After the white space that follows a value comes the closing bracket
    or the comma of the next entry. *)
Lemma ends_number_trail (ws s : text) (c : ascii) :
  forallb is_ws ws = true -> c = "," \/ c = "]" ->
  ends_number (ws ++ c :: s) = true.
Proof.
  intros Hws Hc. destruct ws as [|w ws]; cbn [app ends_number].
  - destruct Hc as [->| ->]; reflexivity.
  - cbn [forallb] in Hws. apply andb_prop in Hws. destruct Hws as [-> _].
    reflexivity.
Qed.

(** The array loop on the entries of a field, up to the closing bracket. *)
Lemma JSONArray_entries (es : list entry) (e : entry) (fuel : nat)
    (values : list pyval) (rest : text) :
  forallb wf_entry (e :: es) = true ->
  (List.length es + 2 <= fuel)%nat ->
  JSONArray fuel values
      (render (num e) ++ trail e
       ++ match es with
          | [] => []
          | _ :: _ => "," :: delimited es
          end ++ "]" :: rest)
    = Ok (PList (values ++ map (fun x => numeral_value (num x)) (e :: es)),
          rest).
Proof.
  revert e fuel values. induction es as [|e' es IH]; intros e fuel values Hwf Hfuel.
  - cbn [forallb] in Hwf. apply andb_prop in Hwf. destruct Hwf as [He _].
    destruct (wf_entry_parts e He) as [_ [Hn Ht]].
    destruct fuel as [|fuel]; [simpl in Hfuel; lia|].
    cbn [app JSONArray].
    rewrite scan_once_numeral;
      [|simpl in Hfuel; lia|exact Hn
       |apply ends_number_trail; [exact Ht|now right]].
    cbn [rbind]. rewrite skip_ws_app by exact Ht.
    cbn [skip_ws is_ws Ascii.eqb Bool.eqb map]. reflexivity.
  - cbn [forallb] in Hwf. apply andb_prop in Hwf. destruct Hwf as [He Hwf].
    destruct (wf_entry_parts e He) as [_ [Hn Ht]].
    assert (He' : wf_entry e' = true).
    { cbn [forallb] in Hwf. now apply andb_prop in Hwf. }
    destruct (wf_entry_parts e' He') as [Hl' [Hn' _]].
    destruct fuel as [|fuel]; [simpl in Hfuel; lia|].
    cbn [JSONArray app].
    rewrite scan_once_numeral;
      [|simpl in Hfuel; lia|exact Hn
       |apply ends_number_trail; [exact Ht|now left]].
    cbn [rbind]. rewrite skip_ws_app by exact Ht.
    cbn [skip_ws is_ws Ascii.eqb Bool.eqb].
    assert (Hd : delimited (e' :: es)
                 = lead e' ++ render (num e') ++ trail e'
                   ++ match es with
                      | [] => []
                      | _ :: _ => "," :: delimited es
                      end).
    { cbn [delimited]. unfold render_entry. destruct es.
      - now rewrite app_nil_r.
      - now rewrite <- !app_assoc. }
    rewrite Hd. rewrite <- !app_assoc. rewrite skip_ws_app by exact Hl'.
    rewrite skip_ws_numeral by exact Hn'.
    rewrite (IH e' fuel (values ++ [numeral_value (num e)]) Hwf);
      [|simpl in *; lia].
    cbn [map]. rewrite <- app_assoc. reflexivity.
Qed.

Lemma list_ascii_of_string_app (s1 s2 : string) :
  list_ascii_of_string (s1 ++ s2)
  = list_ascii_of_string s1 ++ list_ascii_of_string s2.
Proof.
  induction s1 as [|c s1 IH]; [reflexivity|].
  cbn [String.append list_ascii_of_string app]. now rewrite IH.
Qed.

Lemma render_entry_length (e : entry) :
  wf_entry e = true -> (1 <= List.length (render_entry e))%nat.
Proof.
  intros He. destruct (wf_entry_parts e He) as [_ [Hn _]].
  destruct (render_head (num e) (trail e) Hn) as [c [r [Heq _]]].
  unfold render_entry. rewrite length_app, Heq. simpl. lia.
Qed.

Lemma delimited_length (es : list entry) :
  forallb wf_entry es = true ->
  (List.length es <= List.length (delimited es))%nat.
Proof.
  induction es as [|e es IH]; [simpl; lia|]. cbn [forallb]. intros H.
  apply andb_prop in H. destruct H as [He Hes].
  pose proof (render_entry_length e He). specialize (IH Hes).
  destruct es as [|e' es]; cbn [delimited List.length] in *; [lia|].
  rewrite length_app. cbn [List.length] in *. lia.
Qed.

Lemma delimited_cons (e : entry) (es : list entry) :
  delimited (e :: es)
  = lead e ++ render (num e) ++ trail e
    ++ match es with
       | [] => []
       | _ :: _ => "," :: delimited es
       end.
Proof.
  cbn [delimited]. unfold render_entry. destruct es.
  - now rewrite app_nil_r.
  - now rewrite <- !app_assoc.
Qed.

(** [str_to_list] on a field of comma-delimited numerals: the list of their
    values, one per numeral. *)
Lemma str_to_list_delimited (es : list entry) :
  es <> [] -> forallb wf_entry es = true ->
  str_to_list (PStr (string_of_list_ascii (delimited es)))
  = Ok (PList (map (fun x => numeral_value (num x)) es)).
Proof.
  intros Hne Hwf. destruct es as [|e es]; [contradiction|].
  pose proof (delimited_length _ Hwf) as Hlen.
  assert (He : wf_entry e = true).
  { cbn [forallb] in Hwf. now apply andb_prop in Hwf. }
  destruct (wf_entry_parts e He) as [Hl [Hn _]].
  unfold str_to_list, json_loads.
  rewrite !list_ascii_of_string_app, list_ascii_of_string_of_list_ascii.
  cbn [list_ascii_of_string app skip_ws is_ws].
  set (t := delimited (e :: es) ++ ["]"]) in *.
  assert (Hfuel : (List.length es + 2 <= 1 + 2 * List.length ("[" :: t))%nat).
  { unfold t. cbn [List.length]. rewrite length_app.
    cbn [List.length] in *. lia. }
  set (fuel := (1 + 2 * List.length ("[" :: t))%nat) in *.
  change (2 + 2 * List.length ("[" :: t))%nat with (S fuel).
  cbn [scan_once Ascii.eqb Bool.eqb dquote].
  unfold t. rewrite delimited_cons. rewrite <- !app_assoc.
  rewrite skip_ws_app by exact Hl. rewrite skip_ws_numeral by exact Hn.
  destruct (render_head (num e)
              (trail e ++ match es with
                          | [] => []
                          | _ :: _ => "," :: delimited es
                          end ++ ["]"]) Hn) as [c [r [Heq Hc]]].
  rewrite Heq.
  assert (Hnb : Ascii.eqb c "]" = false).
  { destruct Hc as [->|Hd]; [reflexivity|].
    now destruct (digit_not_special c Hd)
      as [_ [_ [_ [_ [_ [_ [_ [_ [_ [_ [-> _]]]]]]]]]]]. }
  rewrite Hnb, <- Heq.
  rewrite (JSONArray_entries es e fuel [] [] Hwf Hfuel).
  reflexivity.
Qed.

(** *** A bare scalar under [float] and [int] *)

Lemma digits_last (ds : text) :
  digits_ok ds = true -> exists p d, ds = p ++ [d] /\ is_digit d = true.
Proof.
  intros H. destruct (digits_ok_cons _ H) as [c [r [Hds [_ Hall]]]].
  destruct (exists_last (l := ds)) as [p [d Hpd]]; [now rewrite Hds|].
  exists p, d. split; [exact Hpd|].
  unfold all_digits in Hall. rewrite forallb_forall in Hall.
  apply Hall. rewrite Hpd. apply in_or_app. right. now left.
Qed.

Lemma int_ok_digits_ok (ds : text) : int_ok ds = true -> digits_ok ds = true.
Proof.
  intros H. destruct (int_ok_cons _ H) as [c [r [-> [Hc [Hr _]]]]].
  unfold digits_ok. cbn [is_nil negb andb all_digits forallb].
  now rewrite Hc.
Qed.

Lemma render_last (n : numeral) :
  wf_numeral n = true -> exists p d, render n = p ++ [d] /\ is_digit d = true.
Proof.
  intros Hwf. destruct (wf_numeral_parts n Hwf) as [Hi [Hf He]].
  rewrite render_parts.
  destruct (num_exp n) as [e|]; cbn [render_exp].
  - destruct (digits_last _ He) as [p [d [Hp Hd]]].
    unfold render_exponent. rewrite Hp.
    eexists. exists d. split; [|exact Hd].
    rewrite app_comm_cons. rewrite !app_assoc. reflexivity.
  - destruct (num_frac n) as [f|]; cbn [render_frac].
    + destruct (digits_last _ Hf) as [p [d [Hp Hd]]]. rewrite Hp.
      eexists. exists d. split; [|exact Hd].
      rewrite app_nil_r. rewrite app_comm_cons. rewrite !app_assoc.
      reflexivity.
    + destruct (digits_last _ (int_ok_digits_ok _ Hi)) as [p [d [Hp Hd]]].
      rewrite Hp. eexists. exists d. split; [|exact Hd].
      rewrite !app_nil_r. rewrite !app_assoc. reflexivity.
Qed.

Lemma strip_numeral (n : numeral) :
  wf_numeral n = true -> strip (render n) = render n.
Proof.
  intros Hwf. unfold strip.
  assert (Hl : lstrip (render n) = render n).
  { destruct (render_head n [] Hwf) as [c [r [Heq Hc]]].
    rewrite app_nil_r in Heq. rewrite Heq. cbn [lstrip].
    destruct Hc as [->|Hd]; [reflexivity|].
    now destruct (digit_not_special c Hd) as [_ [_ [_ [_ [_ [_ [-> _]]]]]]]. }
  rewrite Hl. destruct (render_last n Hwf) as [p [d [Heq Hd]]].
  rewrite Heq at 1. rewrite rev_app_distr. cbn [rev app lstrip].
  destruct (digit_not_special d Hd) as [_ [_ [_ [_ [_ [_ [-> _]]]]]]].
  cbn [rev]. rewrite rev_involutive. now rewrite <- Heq.
Qed.

Lemma scan_float_numeral (n : numeral) :
  wf_numeral n = true -> scan_float (render n) = Some (numeral_float n).
Proof.
  intros Hwf. destruct (wf_numeral_parts n Hwf) as [Hi [Hf He]].
  destruct (int_ok_cons _ Hi) as [c [r [Hint [Hc [Hr _]]]]].
  assert (Hall : all_digits (num_int n) = true).
  { rewrite Hint. cbn [all_digits forallb]. now rewrite Hc. }
  assert (Hsign : scan_sign (render n)
                  = (num_neg n,
                     num_int n ++ render_frac (num_frac n)
                       ++ render_exp (num_exp n) ++ [])).
  { rewrite render_parts, app_nil_r. destruct (num_neg n); cbn [app].
    - reflexivity.
    - rewrite Hint. cbn [app]. now apply scan_sign_digit. }
  unfold scan_float, numeral_float. rewrite Hsign.
  rewrite (span_digits_app _ _ Hall
             (frac_part_non_digit (num_frac n) (num_exp n) [] eq_refl)).
  assert (Hnil : is_nil (num_int n) = false) by now rewrite Hint.
  rewrite Hnil. cbn [andb].
  destruct (num_frac n) as [f|]; cbn [render_frac app].
  - destruct (digits_ok_cons _ Hf) as [d [ds' [Hds [Hd Hfall]]]].
    cbn [eat Ascii.eqb Bool.eqb].
    rewrite (span_digits_app _ _ Hfall
               (exp_part_non_digit (num_exp n) [] eq_refl)).
    now rewrite (scan_exp_part (num_exp n) [] He eq_refl).
  - rewrite (exp_part_no_point (num_exp n) [] eq_refl).
    now rewrite (scan_exp_part (num_exp n) [] He eq_refl).
Qed.

Lemma py_float_numeral (n : numeral) :
  wf_numeral n = true ->
  py_float (PStr (string_of_list_ascii (render n)))
  = Ok (PFloat (numeral_float n)).
Proof.
  intros Hwf. cbn [py_float].
  rewrite list_ascii_of_string_of_list_ascii, (strip_numeral n Hwf).
  now rewrite (scan_float_numeral n Hwf).
Qed.

Lemma scan_int_numeral (n : numeral) :
  wf_numeral n = true -> is_integer n = true ->
  exists z, scan_int (render n) = Some z.
Proof.
  intros Hwf Hint. destruct (wf_numeral_parts n Hwf) as [Hi _].
  destruct (int_ok_cons _ Hi) as [c [r [Hds [Hc [Hr _]]]]].
  assert (Hall : all_digits (num_int n) = true).
  { rewrite Hds. cbn [all_digits forallb]. now rewrite Hc. }
  unfold is_integer in Hint. rewrite render_parts.
  destruct (num_frac n); [discriminate|].
  destruct (num_exp n); [discriminate|].
  cbn [render_frac render_exp]. rewrite !app_nil_r. unfold scan_int.
  assert (Hsign : scan_sign ((if num_neg n then ["-"] else []) ++ num_int n)
                  = (num_neg n, num_int n ++ [])).
  { rewrite app_nil_r. destruct (num_neg n); cbn [app].
    - reflexivity.
    - rewrite Hds. now apply scan_sign_digit. }
  rewrite Hsign. rewrite (span_digits_app (num_int n) [] Hall eq_refl).
  rewrite Hds. now eexists.
Qed.

Lemma py_int_numeral (n : numeral) :
  wf_numeral n = true -> is_integer n = true ->
  exists z, py_int (PStr (string_of_list_ascii (render n))) = Ok (PInt z).
Proof.
  intros Hwf Hint. cbn [py_int].
  rewrite list_ascii_of_string_of_list_ascii, (strip_numeral n Hwf).
  destruct (scan_int_numeral n Hwf Hint) as [z ->]. now exists z.
Qed.

(** *** The lists that the checks build *)

Local Close Scope char_scope.

Lemma scalar_float_list1 (v : pyval) :
  scalar_text v -> exists x, float_list1 (Ok v) = Ok (PList [x]).
Proof.
  intros [n [Hwf ->]]. unfold float_list1. cbn [rbind].
  rewrite (py_float_numeral n Hwf). cbn [rbind]. now eexists.
Qed.

Lemma integer_int_list1 (v : pyval) :
  integer_text v -> exists x, int_list1 (Ok v) = Ok (PList [x]).
Proof.
  intros [n [Hwf [Hint ->]]]. unfold int_list1. cbn [rbind].
  destruct (py_int_numeral n Hwf Hint) as [z ->]. cbn [rbind]. now eexists.
Qed.

Lemma delimited_str_to_list (k : Z) (v : pyval) :
  1 < k -> delimited_text k v ->
  exists l, str_to_list v = Ok (PList l) /\ Z.of_nat (List.length l) = k.
Proof.
  intros Hk [es [Hlen [Hwf ->]]].
  rewrite str_to_list_delimited; [|intros ->; simpl in Hlen; lia|exact Hwf].
  eexists. split; [reflexivity|]. now rewrite length_map.
Qed.

Lemma geometry_field_one (v : pyval) :
  geometry_field 1 v ->
  exists l, float_list1 (Ok v) = Ok (PList l) /\ Z.of_nat (List.length l) = 1.
Proof.
  intros [[_ Hs]|[Hk _]]; [|lia].
  destruct (scalar_float_list1 v Hs) as [x Hx]. now exists [x].
Qed.

Lemma geometry_field_many (k : Z) (v : pyval) :
  1 < k -> geometry_field k v ->
  exists l, str_to_list_of (Ok v) = Ok (PList l) /\
            Z.of_nat (List.length l) = k.
Proof.
  intros Hk [[Hk1 _]|[_ Hd]]; [lia|].
  unfold str_to_list_of. cbn [rbind]. now apply delimited_str_to_list.
Qed.

Lemma electrical_field_one (v : pyval) :
  electrical_field 1 v ->
  exists l, int_list1 (Ok v) = Ok (PList l) /\ Z.of_nat (List.length l) = 1.
Proof.
  intros [[_ Hs]|[Hk _]]; [|lia].
  destruct (integer_int_list1 v Hs) as [x Hx]. now exists [x].
Qed.

Lemma electrical_field_many (k : Z) (v : pyval) :
  1 < k -> electrical_field k v ->
  exists l, str_to_list v = Ok (PList l) /\ Z.of_nat (List.length l) = k.
Proof.
  intros Hk [[Hk1 _]|[_ Hd]]; [lia|]. now apply delimited_str_to_list.
Qed.

Lemma field_count_positive (k : Z) (v : pyval) :
  geometry_field k v -> 1 <= k.
Proof. intros [[-> _]|[Hk _]]; lia. Qed.

Ltac choose_racking H :=
  destruct H as [->|[->| ->]]; unfold module_type_of_racking; run_body.

Lemma check_mount_lists (g : gui) (k : Z) :
  mount_fields g k -> exists r, check_mount g k = Ok r /\ mount_lists k r.
Proof.
  intros [h b t a r Hbtn Hbox Ht Ha Hr | h b t a m r Hbtn Hbox Ht Ha Hm Hr];
    pose proof (field_count_positive k t Ht) as Hk;
    unfold check_mount; rewrite Hbtn, Hbox;
    cbn [py_eq_str String.eqb Ascii.eqb Bool.eqb]; read_panel;
    (destruct (Z.eq_dec k 1) as [->|Hk1];
     [ cbn [Z.eqb Pos.eqb]
     | destruct (Z.eqb_spec k 1) as [|_]; [contradiction|];
       destruct (Z.gtb_spec k 1) as [_|]; [|lia] ]).
  - destruct (geometry_field_one t Ht) as [lt [Et Hlt]].
    destruct (geometry_field_one a Ha) as [la [Ea Hla]].
    run_body. rewrite Et, Ea. choose_racking Hr.
    all: eexists; (split; [reflexivity|]); unfold mount_lists;
      do 2 eexists; left; do 2 eexists;
      (split; [reflexivity|]); split; eexists; split; eauto.
  - destruct (geometry_field_many k t ltac:(lia) Ht) as [lt [Et Hlt]].
    destruct (geometry_field_many k a ltac:(lia) Ha) as [la [Ea Hla]].
    run_body. rewrite Et, Ea. choose_racking Hr.
    all: eexists; (split; [reflexivity|]); unfold mount_lists;
      do 2 eexists; left; do 2 eexists;
      (split; [reflexivity|]); split; eexists; split; eauto.
  - destruct (geometry_field_one t Ht) as [lt [Et Hlt]].
    destruct (geometry_field_one a Ha) as [la [Ea Hla]].
    destruct (geometry_field_one m Hm) as [lm [Em Hlm]].
    run_body. rewrite Et, Ea, Em. choose_racking Hr.
    all: eexists; (split; [reflexivity|]); unfold mount_lists;
      do 2 eexists; right; do 3 eexists;
      (split; [reflexivity|]); repeat split; eexists; split; eauto.
  - destruct (geometry_field_many k t ltac:(lia) Ht) as [lt [Et Hlt]].
    destruct (geometry_field_many k a ltac:(lia) Ha) as [la [Ea Hla]].
    destruct (geometry_field_many k m ltac:(lia) Hm) as [lm [Em Hlm]].
    run_body. rewrite Et, Ea, Em. choose_racking Hr.
    all: eexists; (split; [reflexivity|]); unfold mount_lists;
      do 2 eexists; right; do 3 eexists;
      (split; [reflexivity|]); repeat split; eexists; split; eauto.
Qed.

Lemma check_econfig_lists (g : gui) (k : Z) :
  electrical_field k (w_mps g) -> electrical_field k (w_spi g) ->
  exists r, check_econfig g k = Ok r /\ econfig_lists k r.
Proof.
  intros Hm Hs. unfold check_econfig.
  assert (Hk : 1 <= k) by (destruct Hm as [[-> _]|[Hk _]]; lia).
  destruct (Z.eq_dec k 1) as [->|Hk1].
  - cbn [Z.eqb Pos.eqb].
    destruct (electrical_field_one _ Hm) as [lm [Em Hlm]].
    destruct (electrical_field_one _ Hs) as [ls [Es Hls]].
    unfold int_list1 in Em, Es. cbn [rbind] in Em, Es.
    unfold int_list1, ok. cbn [rbind py_int].
    run_body. rewrite Em. run_body. rewrite Es. run_body.
    eexists. split; [reflexivity|]. unfold econfig_lists.
    do 3 eexists. split; [reflexivity|]. split; eexists; split; eauto.
  - destruct (Z.eqb_spec k 1) as [|_]; [contradiction|].
    destruct (Z.gtb_spec k 1) as [_|]; [|lia].
    destruct (electrical_field_many k _ ltac:(lia) Hm) as [lm [Em Hlm]].
    destruct (electrical_field_many k _ ltac:(lia) Hs) as [ls [Es Hls]].
    cbn [py_int]. run_body. rewrite Em. run_body. rewrite Es. run_body.
    eexists. split; [reflexivity|]. unfold econfig_lists.
    do 3 eexists. split; [reflexivity|]. split; eexists; split; eauto.
Qed.

(** C5, as the code has it. With the per-subarray fields filled in for
    [k] subarrays, every list that [check_mount] and [check_econfig] build
    has length [k]: tilt and azimuth, or axis tilt, axis azimuth and
    maximum rotation, and modules per string and strings per inverter.
    Filled in means [k] comma-delimited numerals each when [k > 1], and a
    bare numeral each when [k = 1], which in the two electrical fields,
    read with [int], has to be an integer numeral. *)
Theorem per_subarray_lengths (g : gui) (k : Z) :
  mount_fields g k ->
  electrical_field k (w_mps g) ->
  electrical_field k (w_spi g) ->
  (exists r, check_mount g k = Ok r /\ mount_lists k r) /\
  (exists r, check_econfig g k = Ok r /\ econfig_lists k r).
Proof.
  intros Hmount Hmps Hspi. split.
  - now apply check_mount_lists.
  - now apply check_econfig_lists.
Qed.

Lemma per_subarray_lengths_witness :
  (exists r, check_mount demo_fixed 2 = Ok r /\ mount_lists 2 r) /\
  (exists r, check_econfig demo_fixed 2 = Ok r /\ econfig_lists 2 r).
Proof.
  apply (per_subarray_lengths demo_fixed 2).
  - apply (fields_fixed demo_fixed 2 header_TO (Input (PStr "Sin Seguidor"))
             (PStr "10, 12.5") (PStr "180, 180") (PStr "open_rack")).
    + reflexivity.
    + reflexivity.
    + right. split; [lia|].
      exists [plain (integer "10"); spaced (decimal "12" "5")].
      repeat split; reflexivity.
    + right. split; [lia|].
      exists [plain (integer "180"); spaced (integer "180")].
      repeat split; reflexivity.
    + left. reflexivity.
  - right. split; [lia|].
    exists [plain (integer "10"); spaced (integer "12")].
    repeat split; reflexivity.
  - right. split; [lia|].
    exists [plain (integer "3"); spaced (integer "4")].
    repeat split; reflexivity.
Defined.

(** For one subarray a bare scalar with a fraction in the two electrical
    fields gives no list: [check_econfig] fails on it with [ValueError]. *)
Lemma bare_scalar_rejected :
  scalar_text (PStr "2.0") /\
  check_econfig
    (demo_form (PStr "Manual") PNone (PStr "NREL PVWatts") demo_inv_pvwatts
       (PDict []) (PStr "Manual") PNone demo_mod_manual (PDict [])
       1 (PStr "2.0") (PStr "2.0") (PStr "Seguidor 1-Eje")
       demo_tracker_panel) 1
  = Raise ValueError.
Proof.
  split; [|vm_compute; reflexivity].
  exists (decimal "2" "0"). split; reflexivity.
Qed.

(** One tracked subarray with bare scalars in every field: lists of length
    one. *)
Example one_subarray_lists :
  check_mount demo_tracker 1
    = Ok (PList [PBool true; PNone; PNone; PList [PFloat 0];
                 PList [PFloat 180]; PList [PFloat 45];
                 PStr "glass_polymer"; PStr "insulated_back"]) /\
  check_econfig demo_tracker 1
    = Ok (PList [PList [PInt 18]; PList [PInt 6]; PInt 1]).
Proof. split; vm_compute; reflexivity. Qed.

(** The texts that the handlers put into the fields are of the right
    shape for the count: [str_to_list] turns the default text for three
    subarrays into a list of three. *)
Example default_text_three :
  v_angles 3 = "0, 0, 0" /\
  str_to_list (handle_mppt 3) = Ok (PList [PInt 0; PInt 0; PInt 0]).
Proof. split; vm_compute; reflexivity. Qed.

(** For one subarray the electrical fields go through [int], which takes
    an integer numeral only. *)
Example fractional_count_rejected :
  int_list1 (Ok (PStr "12.5")) = Raise ValueError /\
  float_list1 (Ok (PStr "12.5")) = Ok (PList [PFloat 12.5]).
Proof. split; vm_compute; reflexivity. Qed.

(** Nothing checks the number of entries against the count: the list is as
    long as the text has entries. *)
Example entries_not_counted :
  check_econfig demo_fixed 5
    = Ok (PList [PList [PInt 10; PInt 12]; PList [PInt 3; PInt 4]; PInt 1]).
Proof. vm_compute. reflexivity. Qed.

(** A result of either check needs a count of at least one. *)
Lemma check_econfig_needs_subarrays (g : gui) (k : Z) (r : pyval) :
  check_econfig g k = Ok r -> 1 <= k.
Proof.
  intros H. destruct (Z.le_gt_cases 1 k) as [Hk|Hk]; [exact Hk|].
  rewrite check_econfig_unbound in H by lia. discriminate.
Qed.

Lemma check_mount_needs_subarrays (g : gui) (k : Z) (r : pyval) :
  check_mount g k = Ok r -> 1 <= k.
Proof. intros H. now apply check_mount_shape in H. Qed.

(** An emptied field of a form with several subarrays decodes to the empty
    list: still a list, with no entry. *)
Example empty_field_empty_list : str_to_list (PStr EmptyString) = Ok (PList []).
Proof. vm_compute. reflexivity. Qed.

(** ** The fuel of the decoder is enough

    Every step of the decoder consumes text, so the fuel that [json_loads]
    sets from the length of the text never runs out: [RecursionError] is
    not a result of [json_loads]. *)

Local Open Scope char_scope.

Lemma skip_ws_length (s : text) : (List.length (skip_ws s) <= List.length s)%nat.
Proof.
  induction s as [|c s IH]; cbn [skip_ws]; [lia|].
  destruct (is_ws c); cbn [List.length] in *; lia.
Qed.

Lemma span_digits_length (s ds r : text) :
  span_digits s = (ds, r) -> (List.length r <= List.length s)%nat.
Proof.
  revert ds r. induction s as [|c s IH]; intros ds r; cbn [span_digits].
  - intros H. inversion H. simpl. lia.
  - destruct (is_digit c).
    + destruct (span_digits s) as [ds' r'] eqn:E. intros H. inversion H; subst.
      specialize (IH _ _ eq_refl). cbn [List.length]. lia.
    + intros H. inversion H. lia.
Qed.

Lemma eat_length (c : ascii) (s r : text) :
  eat c s = Some r -> List.length s = S (List.length r).
Proof.
  destruct s as [|x s]; cbn [eat]; [discriminate|].
  destruct (Ascii.eqb x c); [|discriminate]. intros H. now inversion H.
Qed.

Lemma scan_sign_length (s r : text) (neg : bool) :
  scan_sign s = (neg, r) -> (List.length r <= List.length s)%nat.
Proof.
  unfold scan_sign. destruct (eat "-" s) as [r1|] eqn:E1.
  - intros H. inversion H; subst. apply eat_length in E1. lia.
  - destruct (eat "+" s) as [r2|] eqn:E2; intros H; inversion H; subst.
    + apply eat_length in E2. lia.
    + lia.
Qed.

Lemma scan_exponent_length (s r : text) (ep : option (bool * text)) :
  scan_exponent s = (ep, r) -> (List.length r <= List.length s)%nat.
Proof.
  unfold scan_exponent. destruct s as [|e s']; [intros H; inversion H; lia|].
  destruct (_ || _); [|intros H; inversion H; lia].
  destruct (scan_sign s') as [neg r1] eqn:Es.
  destruct (span_digits r1) as [[|d ds] t] eqn:Ed; intros H; inversion H; subst.
  - lia.
  - apply scan_sign_length in Es. apply span_digits_length in Ed.
    cbn [List.length]. lia.
Qed.

Lemma scan_fraction_length (s r : text) (fp : option text) :
  scan_fraction s = (fp, r) -> (List.length r <= List.length s)%nat.
Proof.
  unfold scan_fraction. destruct (eat "." s) as [r1|] eqn:E.
  - destruct (span_digits r1) as [[|d ds] t] eqn:Ed; intros H; inversion H; subst.
    + lia.
    + apply eat_length in E. apply span_digits_length in Ed. lia.
  - intros H. inversion H. lia.
Qed.

Lemma match_number_length (s r : text) (v : pyval) :
  match_number s = Some (v, r) -> (List.length r < List.length s)%nat.
Proof.
  unfold match_number.
  assert (Hbody : forall neg s1,
    match s1 with
    | c :: r0 =>
        if is_digit c then
          let (ds, r1) :=
            if Ascii.eqb c "0" then ([], r0) else span_digits r0 in
          let (fp, r2) := scan_fraction r1 in
          let (ep, r3) := scan_exponent r2 in
          Some (number_value neg (c :: ds) fp ep, r3)
        else None
    | [] => None
    end = Some (v, r) -> (List.length r < List.length s1)%nat).
  { intros neg s1. destruct s1 as [|c r0]; [discriminate|].
    destruct (is_digit c); [|discriminate].
    destruct (if Ascii.eqb c "0" then ([], r0) else span_digits r0)
      as [ds r1] eqn:E1.
    assert (H1 : (List.length r1 <= List.length r0)%nat).
    { destruct (Ascii.eqb c "0").
      - inversion E1. lia.
      - now apply span_digits_length in E1. }
    destruct (scan_fraction r1) as [fp r2] eqn:E2.
    destruct (scan_exponent r2) as [ep r3] eqn:E3.
    intros H. inversion H; subst.
    apply scan_fraction_length in E2. apply scan_exponent_length in E3.
    cbn [List.length]. lia. }
  destruct (eat "-" s) as [r1|] eqn:E.
  - intros H. apply Hbody in H. apply eat_length in E. lia.
  - apply Hbody.
Qed.

Lemma strip_prefix_length (p s r : text) :
  strip_prefix p s = Some r ->
  List.length s = (List.length p + List.length r)%nat.
Proof.
  revert s. induction p as [|a p IH]; intros s; cbn [strip_prefix].
  - intros H. now inversion H.
  - destruct s as [|b s]; [discriminate|].
    destruct (Ascii.eqb a b); [|discriminate].
    intros H. apply IH in H. cbn [List.length]. lia.
Qed.

Lemma py_scanstring_spec (s acc : text) :
  match py_scanstring s acc with
  | Ok (_, r) => (List.length r < List.length s)%nat
  | Raise e => e = JSONDecodeError
  end.
Proof.
  remember (List.length s) as n eqn:Hn.
  revert s acc Hn. induction n as [n IH] using lt_wf_ind. intros s acc Hn.
  subst n.
  destruct s as [|c r]; cbn [py_scanstring]; [reflexivity|].
  destruct (Ascii.eqb c dquote); [subst; cbn [List.length]; lia|].
  destruct (Ascii.eqb c backslash).
  - destruct r as [|e r']; [reflexivity|].
    assert (Hrec : forall acc',
      match py_scanstring r' acc' with
      | Ok (_, r0) => (List.length r0 < List.length (c :: e :: r'))%nat
      | Raise e0 => e0 = JSONDecodeError
      end).
    { intros acc'. specialize (IH (List.length r')
        ltac:(subst; cbn [List.length]; lia) r' acc' eq_refl).
      destruct (py_scanstring r' acc') as [[? r0]|]; [|exact IH].
      cbn [List.length]. lia. }
    repeat match goal with
    | |- context [if ?b then _ else _] => destruct b; [apply Hrec|]
    end.
    reflexivity.
  - destruct (_ <? _)%N; [reflexivity|].
    specialize (IH (List.length r) ltac:(subst; cbn [List.length]; lia)
                  r (c :: acc) eq_refl).
    destruct (py_scanstring r (c :: acc)) as [[? r0]|]; [|exact IH].
    cbn [List.length]. lia.
Qed.

Lemma decoder_consumes (fuel : nat) :
  (forall s v r, scan_once fuel s = Ok (v, r) ->
                 (List.length r < List.length s)%nat) /\
  (forall values s v r, JSONArray fuel values s = Ok (v, r) ->
                        (List.length r < List.length s)%nat) /\
  (forall pairs s v r, JSONObject fuel pairs s = Ok (v, r) ->
                       (List.length r < List.length s)%nat).
Proof.
  induction fuel as [|fuel [IHs [IHa IHo]]].
  - repeat split; intros; discriminate.
  - split; [|split].
    + intros s v r. cbn [scan_once]. destruct s as [|c s]; [discriminate|].
      destruct (Ascii.eqb c dquote).
      { pose proof (py_scanstring_spec s []) as Hs.
        destruct (py_scanstring s []) as [[str r']|]; cbn [rbind];
          [|discriminate].
        intros H. inversion H; subst. cbn [List.length]. lia. }
      destruct (Ascii.eqb c "{").
      { pose proof (skip_ws_length s) as Hw.
        destruct (skip_ws s) as [|c' r']; [discriminate|].
        destruct (Ascii.eqb c' "}").
        - intros H. inversion H; subst. cbn [List.length] in *. lia.
        - intros H. apply IHo in H. cbn [List.length] in *. lia. }
      destruct (Ascii.eqb c "[").
      { pose proof (skip_ws_length s) as Hw.
        destruct (skip_ws s) as [|c' r']; [discriminate|].
        destruct (Ascii.eqb c' "]").
        - intros H. inversion H; subst. cbn [List.length] in *. lia.
        - intros H. apply IHa in H. cbn [List.length] in *. lia. }
      destruct (strip_prefix lit_null (c :: s)) as [r1|] eqn:E1.
      { intros H. inversion H; subst. apply strip_prefix_length in E1.
        rewrite E1. cbn. lia. }
      destruct (strip_prefix lit_true (c :: s)) as [r2|] eqn:E2.
      { intros H. inversion H; subst. apply strip_prefix_length in E2.
        rewrite E2. cbn. lia. }
      destruct (strip_prefix lit_false (c :: s)) as [r3|] eqn:E3.
      { intros H. inversion H; subst. apply strip_prefix_length in E3.
        rewrite E3. cbn. lia. }
      destruct (match_number (c :: s)) as [[v' r']|] eqn:En; [|discriminate].
      intros H. inversion H; subst. now apply match_number_length in En.
    + intros values s v r. cbn [JSONArray].
      destruct (scan_once fuel s) as [[value r1]|] eqn:E; cbn [rbind];
        [|discriminate].
      apply IHs in E. pose proof (skip_ws_length r1) as Hw.
      destruct (skip_ws r1) as [|c r2]; [discriminate|].
      destruct (Ascii.eqb c "]").
      { intros H. inversion H; subst. cbn [List.length] in *. lia. }
      destruct (Ascii.eqb c ","); [|discriminate].
      intros H. apply IHa in H. pose proof (skip_ws_length r2).
      cbn [List.length] in *. lia.
    + intros pairs s v r. cbn [JSONObject].
      destruct s as [|q s]; [discriminate|].
      destruct (Ascii.eqb q dquote); [|discriminate].
      pose proof (py_scanstring_spec s []) as Hs.
      destruct (py_scanstring s []) as [[key r1]|]; cbn [rbind];
        [|discriminate].
      pose proof (skip_ws_length r1) as Hw1.
      destruct (skip_ws r1) as [|c r2]; [discriminate|].
      destruct (Ascii.eqb c ":"); [|discriminate].
      destruct (scan_once fuel (skip_ws r2)) as [[value r3]|] eqn:E;
        cbn [rbind]; [|discriminate].
      apply IHs in E. pose proof (skip_ws_length r2) as Hw2.
      pose proof (skip_ws_length r3) as Hw3.
      destruct (skip_ws r3) as [|c' r4]; [discriminate|].
      destruct (Ascii.eqb c' "}").
      { intros H. inversion H; subst. cbn [List.length] in *. lia. }
      destruct (Ascii.eqb c' ","); [|discriminate].
      intros H. apply IHo in H. pose proof (skip_ws_length r4).
      cbn [List.length] in *. lia.
Qed.

Lemma decoder_fuel (fuel : nat) :
  (forall s, (2 * List.length s + 1 <= fuel)%nat ->
             scan_once fuel s <> Raise RecursionError) /\
  (forall values s, (2 * List.length s + 2 <= fuel)%nat ->
                    JSONArray fuel values s <> Raise RecursionError) /\
  (forall pairs s, (2 * List.length s + 2 <= fuel)%nat ->
                   JSONObject fuel pairs s <> Raise RecursionError).
Proof.
  induction fuel as [|fuel [IHs [IHa IHo]]].
  - repeat split; intros; lia.
  - destruct (decoder_consumes fuel) as [Cs [Ca Co]].
    split; [|split].
    + intros s Hf. cbn [scan_once]. destruct s as [|c s]; [discriminate|].
      cbn [List.length] in Hf.
      destruct (Ascii.eqb c dquote).
      { pose proof (py_scanstring_spec s []) as Hs.
        destruct (py_scanstring s []) as [[str r']|]; cbn [rbind];
          [discriminate|]. subst. discriminate. }
      destruct (Ascii.eqb c "{").
      { pose proof (skip_ws_length s) as Hw.
        destruct (skip_ws s) as [|c' r']; [discriminate|].
        destruct (Ascii.eqb c' "}"); [discriminate|].
        apply IHo. cbn [List.length] in *. lia. }
      destruct (Ascii.eqb c "[").
      { pose proof (skip_ws_length s) as Hw.
        destruct (skip_ws s) as [|c' r']; [discriminate|].
        destruct (Ascii.eqb c' "]"); [discriminate|].
        apply IHa. cbn [List.length] in *. lia. }
      destruct (strip_prefix lit_null (c :: s)); [discriminate|].
      destruct (strip_prefix lit_true (c :: s)); [discriminate|].
      destruct (strip_prefix lit_false (c :: s)); [discriminate|].
      destruct (match_number (c :: s)); discriminate.
    + intros values s Hf. cbn [JSONArray].
      pose proof (IHs s ltac:(lia)) as Hs.
      destruct (scan_once fuel s) as [[value r1]|e] eqn:E; cbn [rbind].
      * apply Cs in E. pose proof (skip_ws_length r1) as Hw.
        destruct (skip_ws r1) as [|c r2]; [discriminate|].
        destruct (Ascii.eqb c "]"); [discriminate|].
        destruct (Ascii.eqb c ","); [|discriminate].
        apply IHa. pose proof (skip_ws_length r2).
        cbn [List.length] in *. lia.
      * intros H. apply Hs. congruence.
    + intros pairs s Hf. cbn [JSONObject].
      destruct s as [|q s]; [discriminate|]. cbn [List.length] in Hf.
      destruct (Ascii.eqb q dquote); [|discriminate].
      pose proof (py_scanstring_spec s []) as Hk.
      destruct (py_scanstring s []) as [[key r1]|]; cbn [rbind];
        [|subst; discriminate].
      pose proof (skip_ws_length r1) as Hw1.
      destruct (skip_ws r1) as [|c r2]; [discriminate|].
      destruct (Ascii.eqb c ":"); [|discriminate].
      pose proof (skip_ws_length r2) as Hw2.
      pose proof (IHs (skip_ws r2) ltac:(cbn [List.length] in *; lia)) as Hs.
      destruct (scan_once fuel (skip_ws r2)) as [[value r3]|e] eqn:E;
        cbn [rbind].
      * apply Cs in E. pose proof (skip_ws_length r3) as Hw3.
        destruct (skip_ws r3) as [|c' r4]; [discriminate|].
        destruct (Ascii.eqb c' "}"); [discriminate|].
        destruct (Ascii.eqb c' ","); [|discriminate].
        apply IHo. pose proof (skip_ws_length r4).
        cbn [List.length] in *. lia.
      * intros H. apply Hs. congruence.
Qed.

(** The decoder never stops for lack of fuel. *)
Lemma json_loads_fuel (s : string) : json_loads s <> Raise RecursionError.
Proof.
  unfold json_loads. set (t := list_ascii_of_string s).
  destruct (decoder_fuel (2 + 2 * List.length t)) as [Hs _].
  pose proof (skip_ws_length t) as Hw.
  specialize (Hs (skip_ws t) ltac:(lia)).
  destruct (scan_once _ (skip_ws t)) as [[v r]|e]; cbn [rbind].
  - destruct (skip_ws r); discriminate.
  - congruence.
Qed.

Local Close Scope char_scope.
(** * Further properties *)

(** ** [str_to_list] *)

(** X1. [str_to_list] returns nothing but lists: whatever the argument, a
    result is a list, and only a string argument gives one. *)
Theorem str_to_list_returns_list (v r : pyval) :
  str_to_list v = Ok r -> (exists s, v = PStr s) /\ (exists l, r = PList l).
Proof.
  intros H. split.
  - destruct v; try discriminate H. now eexists.
  - exact (str_to_list_is_list v r H).
Qed.

Lemma str_to_list_returns_list_witness :
  (exists s, PStr "10, 12.5" = PStr s) /\
  (exists l, PList [PInt 10; PFloat 12.5] = PList l).
Proof.
  apply (str_to_list_returns_list (PStr "10, 12.5")
           (PList [PInt 10; PFloat 12.5])).
  vm_compute. reflexivity.
Defined.

Lemma numeral_value_typed (n : numeral) :
  if is_integer n then exists z, numeral_value n = PInt z
  else exists q, numeral_value n = PFloat q.
Proof.
  unfold is_integer, numeral_value, number_value.
  destruct (num_frac n), (num_exp n); cbn [option_map]; now eexists.
Qed.

(** X2. A field of comma-delimited numerals decodes to one value per
    entry, in the order written: a numeral without fraction and exponent
    gives the [int] it denotes, any other numeral gives a [float]. *)
Theorem str_to_list_values (es : list entry) :
  es <> [] -> forallb wf_entry es = true ->
  exists vs,
    str_to_list (PStr (string_of_list_ascii (delimited es))) = Ok (PList vs) /\
    List.length vs = List.length es /\
    forall i e, nth_error es i = Some e ->
      if is_integer (num e)
      then exists z, numeral_value (num e) = PInt z /\
                     nth_error vs i = Some (PInt z)
      else exists q, nth_error vs i = Some (PFloat q).
Proof.
  intros Hne Hwf. eexists. split; [apply str_to_list_delimited; assumption|].
  split; [apply length_map|].
  intros i e Hi. rewrite nth_error_map, Hi. cbn [option_map].
  pose proof (numeral_value_typed (num e)) as H.
  destruct (is_integer (num e)); destruct H as [x Hx]; exists x.
  - split; [exact Hx|now rewrite Hx].
  - now rewrite Hx.
Qed.

Lemma str_to_list_values_witness :
  exists vs,
    str_to_list (PStr "10, 12.5") = Ok (PList vs) /\
    List.length vs = 2%nat /\
    forall i e,
      nth_error [plain (integer "10"); spaced (decimal "12" "5")] i = Some e ->
      if is_integer (num e)
      then exists z, numeral_value (num e) = PInt z /\
                     nth_error vs i = Some (PInt z)
      else exists q, nth_error vs i = Some (PFloat q).
Proof.
  apply (str_to_list_values [plain (integer "10"); spaced (decimal "12" "5")]).
  - discriminate.
  - vm_compute. reflexivity.
Defined.

(** ** [check_econfig] and [check_mount] *)

Lemma delimited_text_decodes (m : Z) (v : pyval) :
  delimited_text m v ->
  exists l, str_to_list v = Ok (PList l) /\ Z.of_nat (List.length l) = m.
Proof.
  intros [es [Hlen [Hwf ->]]]. destruct es as [|e es].
  - exists []. split; [vm_compute; reflexivity|exact Hlen].
  - rewrite str_to_list_delimited; [|discriminate|exact Hwf].
    eexists. split; [reflexivity|]. now rewrite length_map.
Qed.

(** X3. With more than one subarray, [check_econfig] takes the two lists
    as they are written: each has as many elements as its field has
    entries, whatever the subarray count and whatever the other field
    holds.  The count of entries is never compared with the count of
    subarrays. *)
Theorem check_econfig_entries_not_counted (g : gui) (k m n : Z) :
  1 < k -> delimited_text m (w_mps g) -> delimited_text n (w_spi g) ->
  exists modules_per_string strings_per_inverter,
    check_econfig g k =
      Ok (PList [modules_per_string; strings_per_inverter;
                 PInt (w_numinv g)]) /\
    list_of_length m modules_per_string /\
    list_of_length n strings_per_inverter.
Proof.
  intros Hk Hm Hn.
  destruct (delimited_text_decodes m _ Hm) as [l1 [H1 L1]].
  destruct (delimited_text_decodes n _ Hn) as [l2 [H2 L2]].
  unfold check_econfig.
  destruct (Z.eqb_spec k 1); [lia|].
  destruct (Z.gtb_spec k 1); [|lia].
  rewrite H1, H2. exists (PList l1), (PList l2).
  split; [reflexivity|]. split; eexists; (split; [reflexivity|assumption]).
Qed.

Lemma check_econfig_entries_not_counted_witness :
  exists modules_per_string strings_per_inverter,
    check_econfig demo_fixed 5 =
      Ok (PList [modules_per_string; strings_per_inverter;
                 PInt (w_numinv demo_fixed)]) /\
    list_of_length 2 modules_per_string /\
    list_of_length 2 strings_per_inverter.
Proof.
  apply (check_econfig_entries_not_counted demo_fixed 5 2 2).
  - lia.
  - exists [plain (integer "10"); spaced (integer "12")].
    repeat split; reflexivity.
  - exists [plain (integer "3"); spaced (integer "4")].
    repeat split; reflexivity.
Defined.

Lemma py_eq_str_true (v : pyval) (s : string) :
  py_eq_str v s = true -> v = PStr s.
Proof.
  destruct v; cbn [py_eq_str]; try discriminate.
  intros H. apply String.eqb_eq in H. now subst.
Qed.

(** X4. Whatever [check_mount] returns ends in a racking model that is one
    of [open_rack], [close_mount] and [insulated_back], preceded by the
    module type that goes with it: [glass_polymer] for [insulated_back],
    [glass_glass] for the other two.  With any other racking, the blank
    option included, the check returns nothing. *)
Theorem check_mount_module_type (g : gui) (k : Z) (ms : pyval) :
  check_mount g k = Ok ms ->
  exists racking_model,
    racking_chosen racking_model /\
    py_index ms 7 = Ok racking_model /\
    py_index ms 6 = Ok (module_type_for racking_model).
Proof.
  unfold check_mount, module_type_of_racking. intros H.
  destruct (py_eq_str (tracker_btn g) "Sin Seguidor") eqn:Efix;
    [|destruct (py_eq_str (tracker_btn g) "Seguidor 1-Eje") eqn:Etrk;
      [|discriminate H]];
    (destruct (Z.eqb_spec k 1) as [->|Hk1];
     [|destruct (Z.gtb_spec k 1) as [Hgt|Hle]]).
  all: run_cases H.
  all: inversion H; subst; clear H.
  all: match goal with
       | E : py_eq_str ?r _ = true |- _ =>
           apply py_eq_str_true in E; subst; eexists;
           split; [|split; reflexivity]
       end.
  all: unfold racking_chosen; tauto.
Qed.

Lemma check_mount_module_type_witness :
  exists racking_model,
    racking_chosen racking_model /\
    py_index (PList [PBool true; PNone; PNone; PList [PFloat 0];
                     PList [PFloat 180]; PList [PFloat 45];
                     PStr "glass_polymer"; PStr "insulated_back"]) 7
      = Ok racking_model /\
    py_index (PList [PBool true; PNone; PNone; PList [PFloat 0];
                     PList [PFloat 180]; PList [PFloat 45];
                     PStr "glass_polymer"; PStr "insulated_back"]) 6
      = Ok (module_type_for racking_model).
Proof.
  apply (check_mount_module_type demo_tracker 1).
  vm_compute. reflexivity.
Defined.
(** ** The default texts of [handle_toggle] and [handle_mppt] *)

Local Open Scope char_scope.

Lemma zero_entries_step (n : nat) :
  delimited (zero_entries (S (S n)))
  = "0" :: "," :: " " :: delimited (zero_entries (S n)).
Proof.
  cbn [zero_entries repeat]. rewrite !delimited_cons.
  cbn [plain spaced lead num trail app].
  destruct n; reflexivity.
Qed.

Lemma zero_entries_wf (n : nat) : forallb wf_entry (zero_entries n) = true.
Proof.
  destruct n as [|n]; [reflexivity|]. cbn [zero_entries forallb].
  replace (wf_entry (plain (integer "0"%string))) with true by reflexivity.
  cbn [andb]. induction n as [|n IH]; [reflexivity|].
  cbn [repeat forallb]. now rewrite IH.
Qed.

Lemma zero_entries_values (n : nat) :
  map (fun x => numeral_value (num x)) (zero_entries n) = repeat (PInt 0) n.
Proof.
  destruct n as [|n]; [reflexivity|]. cbn [zero_entries map repeat].
  f_equal. now rewrite map_repeat.
Qed.

Lemma str_repeat_zeros (n : nat) :
  list_ascii_of_string (str_repeat "0, " (S n))
  = delimited (zero_entries (S n)) ++ [","; " "].
Proof.
  induction n as [|n IH]; [reflexivity|].
  change (str_repeat "0, " (S (S n)))
    with ("0, " ++ str_repeat "0, " (S n))%string.
  rewrite list_ascii_of_string_app, IH, zero_entries_step. reflexivity.
Qed.

Lemma drop_last2_app (t : text) (a b : ascii) :
  drop_last2 (string_of_list_ascii (t ++ [a; b])) = string_of_list_ascii t.
Proof.
  unfold drop_last2. rewrite list_ascii_of_string_of_list_ascii.
  f_equal. rewrite length_app. cbn [List.length].
  replace (List.length t + 2 - 2)%nat with (List.length t + 0)%nat by lia.
  rewrite firstn_app_2. cbn [firstn]. now rewrite app_nil_r.
Qed.

(** For two subarrays or more the default text is [0, 0, ..., 0], one zero
    per subarray. *)
Lemma v_angles_text (k : Z) :
  2 <= k ->
  v_angles k = string_of_list_ascii (delimited (zero_entries (Z.to_nat k))).
Proof.
  intros Hk. unfold v_angles, str_mul.
  destruct (Z.eqb_spec k 1) as [|_]; [lia|].
  destruct (Z.to_nat k) as [|n] eqn:E; [lia|].
  rewrite <- (string_of_list_ascii_of_string (str_repeat "0, " (S n))).
  rewrite str_repeat_zeros. apply drop_last2_app.
Qed.

(** Below one subarray it is empty. *)
Lemma v_angles_empty (k : Z) : k <= 0 -> v_angles k = EmptyString.
Proof.
  intros Hk. unfold v_angles, str_mul.
  destruct (Z.eqb_spec k 1); [lia|].
  replace (Z.to_nat k) with 0%nat by lia. reflexivity.
Qed.

Lemma v_angles_decodes (k : Z) :
  2 <= k -> str_to_list (PStr (v_angles k)) = Ok (zeros k).
Proof.
  intros Hk. rewrite (v_angles_text k Hk).
  rewrite str_to_list_delimited.
  - now rewrite zero_entries_values.
  - destruct (Z.to_nat k) eqn:E; [lia|discriminate].
  - apply zero_entries_wf.
Qed.

Lemma zero_entries_last (n : nat) :
  exists p, delimited (zero_entries (S n)) = p ++ ["0"].
Proof.
  induction n as [|n [p IH]].
  - now exists [].
  - exists ("0" :: "," :: " " :: p). now rewrite zero_entries_step, IH.
Qed.

(** Unless it is for exactly one subarray, the default text is no
    number. *)
Lemma v_angles_not_float (k : Z) :
  k <> 1 -> py_float (PStr (v_angles k)) = Raise ValueError.
Proof.
  intros Hk. destruct (Z.le_gt_cases k 0) as [H0|H0].
  - now rewrite (v_angles_empty k H0).
  - rewrite (v_angles_text k) by lia. cbn [py_float].
    rewrite list_ascii_of_string_of_list_ascii.
    destruct (Z.to_nat k) as [|[|n]] eqn:E; [lia|lia|].
    assert (Hs : strip (delimited (zero_entries (S (S n))))
                 = delimited (zero_entries (S (S n)))).
    { unfold strip. destruct (zero_entries_last (S n)) as [p Hp].
      assert (Hl : lstrip (delimited (zero_entries (S (S n))))
                   = delimited (zero_entries (S (S n))))
        by now rewrite zero_entries_step.
      rewrite Hl. rewrite Hp at 1. rewrite rev_app_distr.
      cbn [rev app lstrip is_space]. cbn [rev].
      rewrite rev_involutive. now rewrite <- Hp. }
    rewrite Hs, zero_entries_step. reflexivity.
Qed.

Local Close Scope char_scope.

(** X5. What [handle_mppt] writes into the two electrical fields is
    accepted by [check_econfig] for the same count: left as they are, the
    fields give one zero per subarray, so a form whose electrical fields
    were never edited yields zero modules per string and zero strings per
    inverter. *)
Theorem default_fields_zeros (g : gui) (k : Z) :
  1 <= k -> w_mps g = handle_mppt k -> w_spi g = handle_mppt k ->
  check_econfig g k = Ok (PList [zeros k; zeros k; PInt (w_numinv g)]).
Proof.
  intros Hk Hm Hs. unfold check_econfig, handle_mppt in *. rewrite Hm, Hs.
  destruct (Z.eqb_spec k 1) as [->|Hk1]; [reflexivity|].
  destruct (Z.gtb_spec k 1); [|lia].
  unfold ok. rewrite (v_angles_decodes k) by lia. reflexivity.
Qed.

Lemma default_fields_zeros_witness :
  check_econfig
    (demo_form (PStr "Manual") PNone (PStr "NREL PVWatts") demo_inv_pvwatts
       (PDict []) (PStr "Manual") PNone demo_mod_manual (PDict [])
       3 (handle_mppt 3) (handle_mppt 3) (PStr "Sin Seguidor")
       demo_fixed_panel) 3
  = Ok (PList [zeros 3; zeros 3; PInt 1]).
Proof.
  apply (default_fields_zeros
           (demo_form (PStr "Manual") PNone (PStr "NREL PVWatts")
              demo_inv_pvwatts (PDict []) (PStr "Manual") PNone
              demo_mod_manual (PDict []) 3 (handle_mppt 3) (handle_mppt 3)
              (PStr "Sin Seguidor") demo_fixed_panel) 3);
    [lia|reflexivity|reflexivity].
Defined.

(** X6. Right after a mount mode is chosen the panel holds the default
    texts and no racking model.  In that state [check_mount], called with
    the count the panel was built for, reads every text field and then
    fails at its [return] with [UnboundLocalError]: the module type has no
    value until a racking model is picked. *)
Theorem fresh_panel_unbound (g : gui) (k : Z) :
  fresh_panel g k -> check_mount g k = Raise UnboundLocalError.
Proof.
  intros [Hb [g0 [Hj Hbox]]]. unfold check_mount, handle_toggle in *.
  rewrite Hj in Hbox.
  destruct Hb as [Hb|Hb]; rewrite Hb in *;
    cbn [py_eq_str String.eqb Ascii.eqb Bool.eqb] in *; rewrite Hbox;
    read_panel; unfold module_type_of_racking;
    (destruct (Z.eqb_spec k 1) as [->|Hk1]; [reflexivity|]);
    (destruct (Z.gtb_spec k 1); [|reflexivity]);
    unfold str_to_list_of; cbn [rbind];
    rewrite (v_angles_decodes k) by lia; reflexivity.
Qed.

Lemma fresh_panel_unbound_witness :
  check_mount
    (demo_form (PStr "Manual") PNone (PStr "NREL PVWatts") demo_inv_pvwatts
       (PDict []) (PStr "Manual") PNone demo_mod_manual (PDict [])
       2 (PStr "10, 12") (PStr "3, 4") (PStr "Seguidor 1-Eje")
       (handle_toggle demo_fixed (PStr "Seguidor 1-Eje"))) 2
  = Raise UnboundLocalError.
Proof.
  apply fresh_panel_unbound. split; [right; reflexivity|].
  exists demo_fixed. split; reflexivity.
Defined.

(** X7. The mount panel is built once, when the mode is chosen, and its
    texts are not refreshed when the subarray count changes afterwards.  A
    panel built at any count other than one holds texts that are no
    number, so [check_mount] for exactly one subarray fails on it with
    [ValueError]. *)
Theorem stale_panel_rejected (g : gui) (j : Z) :
  fresh_panel g j -> j <> 1 -> check_mount g 1 = Raise ValueError.
Proof.
  intros [Hb [g0 [Hj Hbox]]] Hne. unfold check_mount, handle_toggle in *.
  rewrite Hj in Hbox.
  destruct Hb as [Hb|Hb]; rewrite Hb in *;
    cbn [py_eq_str String.eqb Ascii.eqb Bool.eqb] in *; rewrite Hbox;
    read_panel; cbn [Z.eqb Pos.eqb];
    unfold float_list1; cbn [rbind];
    rewrite (v_angles_not_float j Hne); reflexivity.
Qed.

Lemma stale_panel_rejected_witness :
  check_mount
    (demo_form (PStr "Manual") PNone (PStr "NREL PVWatts") demo_inv_pvwatts
       (PDict []) (PStr "Manual") PNone demo_mod_manual (PDict [])
       1 (PStr "10") (PStr "3") (PStr "Sin Seguidor")
       (handle_toggle demo_fixed (PStr "Sin Seguidor"))) 1
  = Raise ValueError.
Proof.
  apply (stale_panel_rejected _ 2); [|lia].
  split; [left; reflexivity|].
  exists demo_fixed. split; reflexivity.
Defined.
(** ** [check_inverter] *)

Lemma py_eq_str_false (v : pyval) (s : string) :
  v <> PStr s -> py_eq_str v s = false.
Proof.
  intros H. destruct (py_eq_str v s) eqn:E; [|reflexivity].
  now apply py_eq_str_true in E.
Qed.

Lemma value_at_short (children : list widget) (i : nat) (path : list nat) :
  (List.length children <= i)%nat ->
  value_at (Box children) (i :: path) = Raise IndexError.
Proof.
  intros H. cbn [value_at children_at].
  now rewrite (proj2 (nth_error_None children i) H).
Qed.

(** X8. While the inverter tab is not filled in, [check_inverter] fails,
    each way of being incomplete with its own exception:
    [UnboundLocalError] at the [return] when no source button is selected
    or when [Manual] is selected without a format (the blank option
    included); [KeyError] when [PVsyst] is selected and no file was
    loaded; [IndexError] when [Repositorio] is selected and the panel has
    no equipment drop-down yet. *)
Theorem check_inverter_incomplete (g : gui) (e : exn) :
  inverter_incomplete g e -> check_inverter g = Raise e.
Proof.
  unfold check_inverter.
  intros [H1 H2 H3|H1 H2 H3|H1 H2|children H1 H2 H3].
  - rewrite !py_eq_str_false by assumption. reflexivity.
  - rewrite H1. cbn [py_eq_str String.eqb Ascii.eqb Bool.eqb].
    rewrite !py_eq_str_false by assumption. reflexivity.
  - rewrite H1, H2. reflexivity.
  - rewrite H1, H2, (value_at_short children 3 [0; 1]%nat H3). reflexivity.
Qed.

Lemma check_inverter_incomplete_witness :
  check_inverter
    (demo_form (PStr "Repositorio") (PStr "CECInverter") PNone
       (Box [Input (PStr "Repositorio");
             w_dropinvrepo (PStr "CECInverter"); w_dropmanufac PNone])
       (PDict []) (PStr "Manual") PNone demo_mod_manual (PDict [])
       2 (PStr "10, 12") (PStr "3, 4") (PStr "Sin Seguidor")
       demo_fixed_panel)
  = Raise IndexError.
Proof.
  apply check_inverter_incomplete.
  eapply inverter_no_equipment; [reflexivity|reflexivity|].
  cbn [List.length]. lia.
Defined.

Lemma dict_get_raises (d : dict) (k : string) (e : exn) :
  dict_get d k = Raise e -> e = KeyError.
Proof.
  induction d as [|[k' v] d IH]; simpl.
  - now inversion 1.
  - destruct (String.eqb k' k); [discriminate|exact IH].
Qed.

(** A display of look-ups in one record fails with [KeyError] as soon as
    the record lacks one of the keys. *)
Lemma eval_items_lookup_missing (d : dict) (keys : list string) (k : string) :
  In k keys -> dict_get d k = Raise KeyError ->
  eval_items (map (fun x => (x, py_item (PDict d) x)) keys) = Raise KeyError.
Proof.
  intros Hin Hk. induction keys as [|a keys IH]; [contradiction|].
  cbn [map eval_items]. change (py_item (PDict d) a) with (dict_get d a).
  destruct (dict_get d a) as [v|e] eqn:E; cbn [rbind].
  - destruct Hin as [->|Hin]; [congruence|]. now rewrite (IH Hin).
  - now rewrite (dict_get_raises d a e E).
Qed.

(** X9. [check_inverter] fills in nothing that the source leaves out: when
    the record that the repository returns lacks one of the nine Sandia
    coefficients, the check fails with [KeyError]. *)
Theorem check_inverter_missing_coefficient
    (g : gui) (inverter_name : pyval) (record : dict) (k : string) :
  inverter_btn g = PStr "Repositorio" ->
  value_at (inverter_vbox g) [3; 0; 1]%nat = Ok inverter_name ->
  retrieve_sam g (dropdown_invrepo g) inverter_name = Ok record ->
  In k sandia_keys ->
  dict_get record k = Raise KeyError ->
  check_inverter g = Raise KeyError.
Proof.
  intros Hbtn Hname Hrec Hin Hk. unfold check_inverter.
  rewrite Hbtn, Hname. run_body. rewrite Hrec. cbn [rbind]. run_body.
  unfold dict_of.
  change [("Paco", py_item (PDict record) "Paco");
          ("Pdco", py_item (PDict record) "Pdco");
          ("Vdco", py_item (PDict record) "Vdco");
          ("Pso", py_item (PDict record) "Pso");
          ("C0", py_item (PDict record) "C0");
          ("C1", py_item (PDict record) "C1");
          ("C2", py_item (PDict record) "C2");
          ("C3", py_item (PDict record) "C3");
          ("Pnt", py_item (PDict record) "Pnt")]
    with (map (fun x => (x, py_item (PDict record) x)) sandia_keys).
  rewrite (eval_items_lookup_missing record sandia_keys k Hin Hk).
  reflexivity.
Qed.

Lemma check_inverter_missing_coefficient_witness :
  check_inverter
    (demo_form (PStr "Repositorio") (PStr "CECMod") PNone
       (inverter_repo_vbox (PStr "Repositorio") (PStr "CECMod")
          (PStr "Canadian") (PStr "Canadian_Solar_CS5P_220M"))
       (PDict []) (PStr "Manual") PNone demo_mod_manual (PDict [])
       2 (PStr "10, 12") (PStr "3, 4") (PStr "Sin Seguidor")
       demo_fixed_panel)
  = Raise KeyError.
Proof.
  apply (check_inverter_missing_coefficient _
           (PStr "Canadian_Solar_CS5P_220M") cec_record "C0");
    [reflexivity|reflexivity|reflexivity|cbn [sandia_keys]; in_items
    |reflexivity].
Defined.
(** ** [check_module] *)

Lemma bind_ok {A B : Type} (m : py A) (k : A -> py B)
    (st st' : locals) (r : B) :
  bind m k st = Ok (r, st') ->
  exists a st1, m st = Ok (a, st1) /\ k a st1 = Ok (r, st').
Proof.
  unfold bind. destruct (m st) as [[a st1]|e]; [|discriminate].
  intros H. now exists a, st1.
Qed.

Lemma call_ok {A : Type} (m : py A) (r : A) :
  call m = Ok r -> exists st', m [] = Ok (r, st').
Proof.
  unfold call. destruct (m []) as [[a st']|e]; [|discriminate].
  intros H. inversion H; subst. now exists st'.
Qed.

(** One statement of a body, run on a store that is not known. *)
Ltac store_step H :=
  run_body_in H;
  repeat first [ rewrite dict_get_set_same in H
               | rewrite dict_get_set_other in H by discriminate ];
  try discriminate H; next_case H.

(** What [check_module] returns, whatever the source: the record with its
    technology overwritten by the normalized tag, and the bifacial
    parameters as the bifacial drop-down decides. *)
Lemma check_module_result (g : gui) (r : pyval) :
  check_module g = Ok r ->
  exists modules_database modules_name module t is_bifacial,
    value_at (bifacial_vbox g) [0; 0; 1]%nat = Ok is_bifacial /\
    dict_get module "Technology" = Ok t /\
    ((py_eq_False is_bifacial = true /\
      r = PList [modules_database; modules_name;
                 PDict (dict_set module "Technology" (module_tec t));
                 PBool false; PInt 0; PInt 0; PInt 0]) \/
     (py_eq_False is_bifacial = false /\
      exists bifaciality row_height row_width,
        value_at (bifacial_vbox g) [1; 0; 1]%nat = Ok bifaciality /\
        value_at (bifacial_vbox g) [1; 1; 1]%nat = Ok row_height /\
        value_at (bifacial_vbox g) [1; 2; 1]%nat = Ok row_width /\
        r = PList [modules_database; modules_name;
                   PDict (dict_set module "Technology" (module_tec t));
                   PBool true; bifaciality; row_height; row_width])).
Proof.
  unfold check_module. intros H.
  apply call_ok in H. destruct H as [st' H].
  apply bind_ok in H. destruct H as [? [st1 [_ H]]].
  apply bind_ok in H. destruct H as [? [st2 [_ H]]].
  apply bind_ok in H. destruct H as [? [st3 [_ H]]].
  repeat store_step H.
  all: run_body_in H;
       repeat first [ rewrite dict_get_set_same in H
                    | rewrite dict_get_set_other in H by discriminate ].
  all: inversion H; subst; clear H.
  all: match goal with
       | E : set_item ?m _ _ = Ok _ |- _ =>
           destruct m; try discriminate E; cbn [set_item] in E;
           inversion E; subst; clear E
       end.
  all: cbn [py_item] in *.
  all: do 5 eexists;
       (split; [first [eassumption | reflexivity]|]);
       (split; [eassumption|]).
  all: first [ left; split; [assumption|reflexivity]
             | right; split; [assumption|]; do 3 eexists;
               repeat split; first [eassumption | reflexivity] ].
Qed.

(** X10. Whatever the source, and also for a repository database that the
    check has no conversion for, the record that [check_module] returns
    carries a normalized technology: null or one of the seven tags. *)
Theorem check_module_technology (g : gui) (r : pyval) :
  check_module g = Ok r ->
  exists module,
    py_index r 2 = Ok (PDict module) /\
    (dict_get module "Technology" = Ok PNone \/
     exists tag, In tag canonical_tags /\
                 dict_get module "Technology" = Ok (PStr tag)).
Proof.
  intros H. destruct (check_module_result g r H)
    as [db [nm [m [t [b [_ [_ [[_ ->]|[_ [? [? [? [_ [_ [_ ->]]]]]]]]]]]]]]].
  all: eexists; split; [reflexivity|]; rewrite dict_get_set_same.
  all: destruct (module_tec_range t) as [->|[tag [Hin ->]]];
       [now left|right; now exists tag].
Qed.

Lemma check_module_technology_witness :
  exists r,
    check_module demo_sandia = Ok r /\
    exists module,
      py_index r 2 = Ok (PDict module) /\
      (dict_get module "Technology" = Ok PNone \/
       exists tag, In tag canonical_tags /\
                   dict_get module "Technology" = Ok (PStr tag)).
Proof.
  eexists. split; [vm_compute; reflexivity|].
  apply (check_module_technology demo_sandia).
  vm_compute. reflexivity.
Defined.

(** X11. The bifacial parameters follow the bifacial drop-down: when it
    compares equal to [False] the result says [bifacial = False] with
    bifaciality, row height and row width all [0]; otherwise it says
    [bifacial = True] with the three values of the bifacial panel. *)
Theorem check_module_bifacial (g : gui) (r : pyval) :
  check_module g = Ok r ->
  exists modules_database modules_name module is_bifacial,
    value_at (bifacial_vbox g) [0; 0; 1]%nat = Ok is_bifacial /\
    ((py_eq_False is_bifacial = true /\
      r = PList [modules_database; modules_name; module;
                 PBool false; PInt 0; PInt 0; PInt 0]) \/
     (py_eq_False is_bifacial = false /\
      exists bifaciality row_height row_width,
        value_at (bifacial_vbox g) [1; 0; 1]%nat = Ok bifaciality /\
        value_at (bifacial_vbox g) [1; 1; 1]%nat = Ok row_height /\
        value_at (bifacial_vbox g) [1; 2; 1]%nat = Ok row_width /\
        r = PList [modules_database; modules_name; module;
                   PBool true; bifaciality; row_height; row_width])).
Proof.
  intros H. destruct (check_module_result g r H)
    as [db [nm [m [t [b [Hb [_ [[Hf ->]|[Hf [x [y [z [Hx [Hy [Hz ->]]]]]]]]]]]]]]].
  - do 4 eexists. split; [exact Hb|]. left. split; [exact Hf|reflexivity].
  - do 4 eexists. split; [exact Hb|]. right. split; [exact Hf|].
    exists x, y, z. repeat split; assumption.
Qed.

Lemma check_module_bifacial_witness :
  exists r,
    check_module demo_fixed = Ok r /\
    exists modules_database modules_name module is_bifacial,
      value_at (bifacial_vbox demo_fixed) [0; 0; 1]%nat = Ok is_bifacial /\
      ((py_eq_False is_bifacial = true /\
        r = PList [modules_database; modules_name; module;
                   PBool false; PInt 0; PInt 0; PInt 0]) \/
       (py_eq_False is_bifacial = false /\
        exists bifaciality row_height row_width,
          value_at (bifacial_vbox demo_fixed) [1; 0; 1]%nat
            = Ok bifaciality /\
          value_at (bifacial_vbox demo_fixed) [1; 1; 1]%nat
            = Ok row_height /\
          value_at (bifacial_vbox demo_fixed) [1; 2; 1]%nat
            = Ok row_width /\
          r = PList [modules_database; modules_name; module;
                     PBool true; bifaciality; row_height; row_width])).
Proof.
  eexists. split; [vm_compute; reflexivity|].
  apply (check_module_bifacial demo_fixed).
  vm_compute. reflexivity.
Defined.

(** X12. While the module tab is not filled in, [check_module] fails
    before it reads the bifacial panel: with [UnboundLocalError] when no
    source button is selected, with [KeyError] when [PVsyst] is selected
    and no file was loaded, with [IndexError] when [Repositorio] is
    selected with a database other than [PVFree] and the panel has no
    equipment drop-down yet. *)
Theorem check_module_incomplete (g : gui) (e : exn) :
  module_incomplete g e -> check_module g = Raise e.
Proof.
  unfold check_module.
  intros [H1 H2 H3|H1 H2|children H1 H2 H3 H4].
  - rewrite !py_eq_str_false by assumption. reflexivity.
  - rewrite H1, H2. reflexivity.
  - rewrite H1, (py_eq_str_false _ _ H2), H3,
      (value_at_short children 3 [0; 1]%nat H4).
    reflexivity.
Qed.

Lemma check_module_incomplete_witness :
  check_module
    (demo_form (PStr "Manual") PNone (PStr "NREL PVWatts") demo_inv_pvwatts
       (PDict []) (PStr "PVsyst") PNone
       (Box [Input (PStr "PVsyst"); Box []]) (PDict [])
       2 (PStr "10, 12") (PStr "3, 4") (PStr "Sin Seguidor")
       demo_fixed_panel)
  = Raise KeyError.
Proof.
  apply check_module_incomplete.
  apply module_no_file; reflexivity.
Defined.

(** ** The generated configuration *)

Lemma dict_get_absent (d : dict) (k : string) :
  ~ In k (dict_keys d) -> dict_get d k = Raise KeyError.
Proof.
  unfold dict_keys. induction d as [|[k' v] d IH]; simpl; [reflexivity|].
  intros H. destruct (String.eqb_spec k' k) as [->|_].
  - exfalso. apply H. now left.
  - apply IH. intros Hin. apply H. now right.
Qed.

(** X13. A generated configuration has exactly the twenty-seven fields of
    [sys_config], in the order written; its [num_arrays] is the subarray
    count of the form, and that count is at least one.  The racking model
    and the module type, without which [check_mount] returns nothing, are
    not among the fields. *)
Theorem generated_configuration_fields (g : gui) (cfg : pyval) :
  on_genconfig_clicked g = Ok cfg ->
  exists d,
    cfg = PDict d /\
    dict_keys d = config_keys /\
    dict_get d "num_arrays" = Ok (PInt (w_subarrays g)) /\
    1 <= w_subarrays g /\
    dict_get d "racking_model" = Raise KeyError /\
    dict_get d "module_type" = Raise KeyError.
Proof.
  unfold on_genconfig_clicked. intros H.
  destruct (check_inverter g) as [inv|] eqn:Ei; [|discriminate].
  destruct (check_module g) as [md|] eqn:Em; [|discriminate].
  destruct (check_mount g (w_subarrays g)) as [mt|] eqn:Et; [|discriminate].
  destruct (check_econfig g (w_subarrays g)) as [ec|] eqn:Ee; [|discriminate].
  cbn [rbind] in H. unfold sys_config in H.
  apply dict_of_spec in H; [|apply distinct_NoDup; reflexivity].
  destruct H as [d [-> [Hk Hget]]]. exists d.
  split; [reflexivity|]. split; [exact Hk|]. split; [|split; [|split]].
  - destruct (Hget "num_arrays" (ok (PInt (w_subarrays g)))
                ltac:(in_items)) as [v [Hv Hd]].
    unfold ok in Hv. now inversion Hv; subst.
  - exact (check_mount_needs_subarrays g _ mt Et).
  - apply dict_get_absent. rewrite Hk. cbn [config_keys In].
    intros Hin. repeat (destruct Hin as [Hin|Hin]; [discriminate|]).
    exact Hin.
  - apply dict_get_absent. rewrite Hk. cbn [config_keys In].
    intros Hin. repeat (destruct Hin as [Hin|Hin]; [discriminate|]).
    exact Hin.
Qed.

Lemma generated_configuration_fields_witness :
  exists cfg,
    on_genconfig_clicked demo_fixed = Ok cfg /\
    exists d,
      cfg = PDict d /\
      dict_keys d = config_keys /\
      dict_get d "num_arrays" = Ok (PInt (w_subarrays demo_fixed)) /\
      1 <= w_subarrays demo_fixed /\
      dict_get d "racking_model" = Raise KeyError /\
      dict_get d "module_type" = Raise KeyError.
Proof.
  eexists. split; [vm_compute; reflexivity|].
  apply (generated_configuration_fields demo_fixed).
  vm_compute. reflexivity.
Defined.

(** X14. In a generated configuration the [ac_model] tag tells the schema
    of the [inverter] field: with [sandia] the inverter has the nine
    Sandia coefficients, with [pvwatts] it has [Pdco] and [eta_inv_nom],
    and there is no third case. *)
Theorem generated_inverter_schema (g : gui) (cfg : pyval) :
  on_genconfig_clicked g = Ok cfg ->
  exists d inverter,
    cfg = PDict d /\
    dict_get d "inverter" = Ok (PDict inverter) /\
    ((dict_get d "ac_model" = Ok (PStr "sandia") /\
      dict_keys inverter = sandia_keys) \/
     (dict_get d "ac_model" = Ok (PStr "pvwatts") /\
      dict_keys inverter = pvwatts_keys)).
Proof.
  unfold on_genconfig_clicked. intros H.
  destruct (check_inverter g) as [inv|] eqn:Ei; [|discriminate].
  destruct (check_module g) as [md|] eqn:Em; [|discriminate].
  destruct (check_mount g (w_subarrays g)) as [mt|] eqn:Et; [|discriminate].
  destruct (check_econfig g (w_subarrays g)) as [ec|] eqn:Ee; [|discriminate].
  cbn [rbind] in H. unfold sys_config in H.
  apply dict_of_spec in H; [|apply distinct_NoDup; reflexivity].
  destruct H as [d [-> [_ Hget]]].
  destruct (check_inverter_result g inv Ei)
    as [db [nm [inverter [model [-> Hs]]]]].
  destruct (Hget "inverter" _ ltac:(in_items)) as [v1 [Hv1 Hd1]].
  destruct (Hget "ac_model" _ ltac:(in_items)) as [v2 [Hv2 Hd2]].
  cbn in Hv1, Hv2. inversion Hv1; inversion Hv2; subst.
  exists d, inverter. split; [reflexivity|]. split; [exact Hd1|].
  destruct Hs as [[-> Hk]|[-> Hk]]; [left|right]; now split.
Qed.

Lemma generated_inverter_schema_witness :
  exists cfg,
    on_genconfig_clicked demo_tracker = Ok cfg /\
    exists d inverter,
      cfg = PDict d /\
      dict_get d "inverter" = Ok (PDict inverter) /\
      ((dict_get d "ac_model" = Ok (PStr "sandia") /\
        dict_keys inverter = sandia_keys) \/
       (dict_get d "ac_model" = Ok (PStr "pvwatts") /\
        dict_keys inverter = pvwatts_keys)).
Proof.
  eexists. split; [vm_compute; reflexivity|].
  apply (generated_inverter_schema demo_tracker).
  vm_compute. reflexivity.
Defined.
(** ** [get_cen] *)

Lemma Ok_inj {A : Type} (x y : A) : Ok x = Ok y -> x = y.
Proof. intros H. now inversion H. Qed.

(** What [np.percentile] returns, and when. *)
Lemma np_percentile_value (a : list Q) (q v : Q) :
  np_percentile a q = Ok v ->
  a <> [] /\ (0 <= q)%Q /\ (q <= 100)%Q /\
  v = sample_at (np_sort a) (position (List.length a) q).
Proof.
  unfold np_percentile.
  destruct (Qle_bool 0 q) eqn:Hq0; [|discriminate].
  destruct (Qle_bool q 100) eqn:Hq1; [|discriminate].
  cbn [andb negb]. destruct a as [|x a]; [discriminate|].
  intros H. apply Ok_inj in H. subst v.
  apply Qle_bool_iff in Hq0. apply Qle_bool_iff in Hq1.
  split; [discriminate|]. split; [exact Hq0|]. split; [exact Hq1|].
  unfold sample_at, position. now rewrite np_sort_length.
Qed.

Lemma np_percentile_range (a : list Q) (q : Q) :
  a <> [] -> (q < 0)%Q \/ (100 < q)%Q ->
  np_percentile a q = Raise ValueError.
Proof.
  intros Ha Hq. unfold np_percentile.
  destruct (Qle_bool 0 q) eqn:Hq0; [|reflexivity].
  destruct (Qle_bool q 100) eqn:Hq1; [|reflexivity].
  apply Qle_bool_iff in Hq0. apply Qle_bool_iff in Hq1.
  exfalso. destruct Hq; lra.
Qed.







(** The maximum is one of the samples. *)
Lemma fold_Qmax_in (l : list Q) (x : Q) : In (fold_left Qmax l x) (x :: l).
Proof.
  revert x. induction l as [|z l IH]; intros x; simpl.
  - now left.
  - destruct (IH (Qmax x z)) as [H|H].
    + unfold Qmax in H at 1. destruct (Qle_bool x z); [right; now left|now left].
    + right. now right.
Qed.

Lemma np_max_in (a : list Q) (m : Q) : np_max a = Ok m -> In m a.
Proof.
  destruct a as [|x a]; [discriminate|]. simpl. intros H.
  apply Ok_inj in H. subst. apply fold_Qmax_in.
Qed.










(** Sorting does not depend on the order of the samples. *)
Lemma Qle_bool_comp (x x' y y' : Q) :
  (x == x')%Q -> (y == y')%Q -> Qle_bool x y = Qle_bool x' y'.
Proof.
  intros Hx Hy. destruct (Qle_bool x y) eqn:E; symmetry.
  - apply Qle_bool_iff. apply Qle_bool_iff in E. now rewrite <- Hx, <- Hy.
  - destruct (Qle_bool x' y') eqn:E'; [|reflexivity].
    apply Qle_bool_iff in E'. rewrite <- Hx, <- Hy in E'.
    apply Qle_bool_iff in E'. congruence.
Qed.

Lemma Forall2_Qeq_refl (l : list Q) : Forall2 Qeq l l.
Proof. induction l; constructor; [reflexivity|assumption]. Qed.

Lemma Forall2_Qeq_trans (l1 l2 l3 : list Q) :
  Forall2 Qeq l1 l2 -> Forall2 Qeq l2 l3 -> Forall2 Qeq l1 l3.
Proof.
  intros H. revert l3. induction H as [|x y l1 l2 Hxy H IH]; intros l3 H3.
  - exact H3.
  - inversion H3; subst. constructor; [now rewrite Hxy|now apply IH].
Qed.

Lemma insert_sorted_comp (x : Q) (s s' : list Q) :
  Forall2 Qeq s s' -> Forall2 Qeq (insert_sorted x s) (insert_sorted x s').
Proof.
  induction 1 as [|y y' s s' Hy H IH]; simpl.
  - constructor; [reflexivity|constructor].
  - rewrite (Qle_bool_comp x x y y' (Qeq_refl x) Hy).
    destruct (Qle_bool x y').
    + constructor; [reflexivity|]. now constructor.
    + now constructor.
Qed.

Lemma insert_sorted_swap (x y : Q) (s : list Q) :
  Forall2 Qeq (insert_sorted y (insert_sorted x s))
              (insert_sorted x (insert_sorted y s)).
Proof.
  induction s as [|z s IH]; simpl.
  - destruct (Qle_bool y x) eqn:Eyx, (Qle_bool x y) eqn:Exy;
      try apply Forall2_Qeq_refl.
    + apply Qle_bool_iff in Eyx. apply Qle_bool_iff in Exy.
      assert (x == y)%Q by now apply Qle_antisym.
      repeat constructor; [now symmetry|assumption].
    + apply Qle_bool_false in Eyx. apply Qle_bool_false in Exy. lra.
  - destruct (Qle_bool x z) eqn:Exz, (Qle_bool y z) eqn:Eyz; simpl;
      rewrite ?Exz, ?Eyz.
    + destruct (Qle_bool y x) eqn:Eyx, (Qle_bool x y) eqn:Exy;
        try apply Forall2_Qeq_refl.
      * apply Qle_bool_iff in Eyx. apply Qle_bool_iff in Exy.
        assert (x == y)%Q by now apply Qle_antisym.
        constructor; [now symmetry|].
        constructor; [assumption|apply Forall2_Qeq_refl].
      * apply Qle_bool_false in Eyx. apply Qle_bool_false in Exy. lra.
    + destruct (Qle_bool y x) eqn:Eyx.
      * apply Qle_bool_iff in Eyx. apply Qle_bool_iff in Exz.
        apply Qle_bool_false in Eyz. lra.
      * apply Forall2_Qeq_refl.
    + destruct (Qle_bool x y) eqn:Exy.
      * apply Qle_bool_iff in Exy. apply Qle_bool_iff in Eyz.
        apply Qle_bool_false in Exz. lra.
      * apply Forall2_Qeq_refl.
    + constructor; [reflexivity|exact IH].
Qed.

Lemma np_sort_comp (a a' : list Q) :
  Permutation a a' -> Forall2 Qeq (np_sort a) (np_sort a').
Proof.
  induction 1 as [|x a a' H IH|x y a|a1 a2 a3 H1 IH1 H2 IH2]; simpl.
  - constructor.
  - now apply insert_sorted_comp.
  - apply insert_sorted_swap.
  - exact (Forall2_Qeq_trans _ _ _ IH1 IH2).
Qed.

Lemma Forall2_Qeq_nth (s s' : list Q) (i : nat) :
  Forall2 Qeq s s' -> (nth i s 0 == nth i s' 0)%Q.
Proof.
  intros H. revert i. induction H as [|x y s s' Hxy H IH]; intros [|i]; simpl;
    try reflexivity; [exact Hxy|apply IH].
Qed.

Lemma Forall2_Qeq_length (s s' : list Q) :
  Forall2 Qeq s s' -> List.length s = List.length s'.
Proof. induction 1; simpl; congruence. Qed.

Lemma sample_at_samples (s s' : list Q) (h : Q) :
  Forall2 Qeq s s' -> (sample_at s h == sample_at s' h)%Q.
Proof.
  intros H. unfold sample_at. rewrite (Forall2_Qeq_length s s' H).
  rewrite !(Forall2_Qeq_nth s s' _ H). reflexivity.
Qed.

Lemma np_max_comp (a a' : list Q) (m m' : Q) :
  Permutation a a' -> np_max a = Ok m -> np_max a' = Ok m' -> (m == m')%Q.
Proof.
  intros H Hm Hm'. apply Qle_antisym.
  - apply (np_max_ge a' m' Hm'). apply (Permutation_in _ H).
    exact (np_max_in a m Hm).
  - apply (np_max_ge a m Hm). apply (Permutation_in _ (Permutation_sym H)).
    exact (np_max_in a' m' Hm').
Qed.

Lemma get_cen_out_of_range
    (x : Q) (l : list Q) (perc : Q) (decimals : Z) (curve : bool) :
  (perc < 0)%Q \/ (100 < perc)%Q ->
  get_cen (x :: l) perc decimals curve = Raise ValueError.
Proof.
  intros H. unfold get_cen, get_cen_locals.
  destruct (np_max_nonempty x l) as [m Hm]. rewrite Hm. cbn [rbind].
  rewrite (np_percentile_range (x :: l) perc); [reflexivity|discriminate|exact H].
Qed.

(** X18. [get_cen] looks at the sample as a multiset: given the same
    samples in another order it returns the same pair, or fails the same
    way. *)
Theorem get_cen_order_irrelevant
    (ac ac' : list Q) (perc : Q) (decimals : Z) (curve : bool) :
  Permutation ac ac' ->
  get_cen ac perc decimals curve = get_cen ac' perc decimals curve.
Proof.
  intros H.
  destruct ac as [|x l].
  { apply Permutation_nil in H. now subst. }
  destruct ac' as [|y l'].
  { apply Permutation_sym, Permutation_nil in H. discriminate. }
  destruct (Qlt_le_dec perc 0) as [Hlo|Hlo].
  { rewrite !get_cen_out_of_range by now left. reflexivity. }
  destruct (Qlt_le_dec 100 perc) as [Hhi|Hhi].
  { rewrite !get_cen_out_of_range by now right. reflexivity. }
  destruct (get_cen_locals_defined (x :: l) perc decimals)
    as [v [m [Hv [Hm Hl]]]]; [discriminate|exact Hlo|exact Hhi|].
  destruct (get_cen_locals_defined (y :: l') perc decimals)
    as [v' [m' [Hv' [Hm' Hl']]]]; [discriminate|exact Hlo|exact Hhi|].
  unfold get_cen. rewrite Hl, Hl'. cbn [rbind cen_per cen_pmax].
  destruct (np_percentile_value _ _ _ Hv) as [_ [_ [_ ->]]].
  destruct (np_percentile_value _ _ _ Hv') as [_ [_ [_ ->]]].
  do 2 f_equal; apply np_around_comp.
  - rewrite (Permutation_length H).
    now rewrite (sample_at_samples _ _ _ (np_sort_comp _ _ H)).
  - now rewrite (np_max_comp _ _ _ _ H Hm Hm').
Qed.

Lemma get_cen_order_irrelevant_witness :
  get_cen [3000000; 1000000; 2000000]%Q 75 2 false
  = get_cen [1000000; 2000000; 3000000]%Q 75 2 false.
Proof.
  apply get_cen_order_irrelevant.
  apply perm_trans with [1000000; 3000000; 2000000]%Q;
    [apply perm_swap|apply perm_skip, perm_swap].
Defined.

(** X19. The curve that [get_cen] plots: the samples in ascending order,
    each sample of the input once, against as many probabilities as there
    are samples. *)
Theorem get_cen_curve
    (ac : list Q) (perc : Q) (decimals : Z)
    (samples : list Q) (probabilities : list npfloat) :
  get_cen_plot ac perc decimals true = Ok (Some (samples, probabilities)) ->
  Sorted Qle samples /\ Permutation samples ac /\
  List.length probabilities = List.length samples.
Proof.
  unfold get_cen_plot, get_cen_locals.
  destruct (np_max ac) as [mx|]; [|discriminate].
  destruct (np_percentile ac perc) as [v|]; [|discriminate].
  cbn [rbind units_item units String.eqb Ascii.eqb Bool.eqb pac p].
  intros H. apply Ok_inj in H.
  assert (H1 : samples = np_sort ac)
    by exact (eq_sym (f_equal (fun o => match o with
                                        | Some x => fst x
                                        | None => samples
                                        end) H)).
  assert (H2 : probabilities
               = map (fun i => true_divide (1 * inject_Z i)
                                 (Z.of_nat (List.length ac) - 1))
                     (arange (List.length ac)))
    by exact (eq_sym (f_equal (fun o => match o with
                                        | Some x => snd x
                                        | None => probabilities
                                        end) H)).
  subst. split; [apply np_sort_sorted|]. split; [apply np_sort_perm|].
  unfold arange. now rewrite !length_map, length_seq, np_sort_length.
Qed.

Lemma get_cen_curve_witness :
  exists samples probabilities,
    get_cen_plot [3000000; 1000000; 2000000]%Q 75 2 true
      = Ok (Some (samples, probabilities)) /\
    Sorted Qle samples /\
    Permutation samples [3000000; 1000000; 2000000]%Q /\
    List.length probabilities = List.length samples.
Proof.
  do 2 eexists. split; [vm_compute; reflexivity|].
  apply (get_cen_curve [3000000; 1000000; 2000000]%Q 75 2).
  vm_compute. reflexivity.
Defined.
(** ** Strings *)

Lemma prefix_app (p r : string) : String.prefix p (p ++ r) = true.
Proof.
  induction p as [|c p IH]; simpl; [now destruct r|].
  destruct (ascii_dec c c); [exact IH|contradiction].
Qed.


Lemma prefix_split (p s : string) :
  String.prefix p s = true -> exists r, s = (p ++ r)%string.
Proof.
  revert s. induction p as [|c p IH]; intros s H.
  - now exists s.
  - destruct s as [|d s]; [discriminate|]. simpl in *.
    destruct (ascii_dec c d) as [->|]; [|discriminate].
    destruct (IH s H) as [r ->]. now exists r.
Qed.

Lemma str_find_nil (sub : string) :
  str_find EmptyString sub
  = if String.prefix sub EmptyString then Some 0%nat else None.
Proof. reflexivity. Qed.

Lemma str_find_cons (c : ascii) (s sub : string) :
  str_find (String c s) sub
  = if String.prefix sub (String c s) then Some 0%nat
    else option_map S (str_find s sub).
Proof. reflexivity. Qed.

(** [s.index(sub)] cuts [s] at an occurrence of [sub]. *)
Lemma str_find_split (s sub : string) (i : nat) :
  str_find s sub = Some i ->
  exists rest, s = (str_upto s i ++ sub ++ rest)%string.
Proof.
  revert i. induction s as [|c s IH]; intros i H.
  - rewrite str_find_nil in H.
    destruct (String.prefix sub EmptyString) eqn:E; [|discriminate].
    inversion H; subst. destruct (prefix_split _ _ E) as [r Hr].
    exists r. exact Hr.
  - rewrite str_find_cons in H.
    destruct (String.prefix sub (String c s)) eqn:E.
    + inversion H; subst. destruct (prefix_split _ _ E) as [r Hr].
      exists r. exact Hr.
    + destruct (str_find s sub) as [j|] eqn:Ej; [|discriminate].
      inversion H; subst. destruct (IH j eq_refl) as [r Hr].
      exists r. unfold str_upto in *. simpl. now rewrite <- Hr.
Qed.

(** A string that has [sub] somewhere is found to have it. *)
Lemma str_find_app (a sub r : string) :
  exists i, str_find (a ++ sub ++ r) sub = Some i.
Proof.
  induction a as [|c a [i IH]].
  - exists 0%nat. simpl (EmptyString ++ _)%string.
    destruct (sub ++ r)%string eqn:E;
      [rewrite str_find_nil|rewrite str_find_cons];
      rewrite <- E, prefix_app; reflexivity.
  - simpl (String c a ++ _)%string. rewrite str_find_cons.
    destruct (String.prefix sub (String c (a ++ sub ++ r)));
      [now exists 0%nat|].
    rewrite IH. now exists (S i).
Qed.

Lemma str_contains_app (a sub r : string) :
  str_contains sub (a ++ sub ++ r) = true.
Proof.
  unfold str_contains. destruct (str_find_app a sub r) as [i ->]. reflexivity.
Qed.

Lemma str_contains_split (sub s : string) :
  str_contains sub s = true ->
  exists a r, s = (a ++ sub ++ r)%string.
Proof.
  unfold str_contains. destruct (str_find s sub) as [i|] eqn:E; [|discriminate].
  intros _. destruct (str_find_split s sub i E) as [r Hr].
  now exists (str_upto s i), r.
Qed.

(** ** [pd.unique] *)





(** ** The manufacturer and equipment drop-downs *)


Lemma append_manufacturers_fails
    (sep : string) (index acc : list string) (name : string) :
  In name index -> str_contains sep name = false ->
  append_manufacturers sep index acc = Raise ValueError.
Proof.
  unfold str_contains.
  revert acc. induction index as [|x index IH]; intros acc Hin Hc;
    [contradiction|].
  simpl. unfold str_index.
  destruct (str_find x sep) as [i|] eqn:E; [|reflexivity].
  cbn [rbind]. destruct Hin as [->|Hin]; [now rewrite E in Hc|].
  now apply IH.
Qed.





(** X21. The manufacturer of a column is cut off with [str.index], which
    raises when the separator is missing: one column name without [__] in
    the inverter database, or without [_] in a module database, and the
    handler fails with [ValueError]. *)
Theorem manufacturer_separator_required
    (sam_columns : string -> result (list string))
    (new name : string) (index : list string) :
  sam_columns new = Ok index -> In name index ->
  str_contains "_" name = false ->
  handle_dropdown_manuf sam_columns new = Raise ValueError /\
  (new <> "PVFree" ->
   handle_dropdown_modmanuf sam_columns new = Raise ValueError).
Proof.
  intros Hidx Hin Hc.
  assert (Hc2 : str_contains "__" name = false).
  { destruct (str_contains "__" name) eqn:E; [|reflexivity].
    destruct (str_contains_split _ _ E) as [a [r Hr]].
    rewrite <- Hc. subst name.
    change ("__" ++ r)%string with ("_" ++ "_" ++ r)%string.
    symmetry. apply str_contains_app. }
  split.
  - unfold handle_dropdown_manuf, manufacturer_options. rewrite Hidx.
    cbn [rbind].
    now rewrite (append_manufacturers_fails "__" index _ name Hin Hc2).
  - intros Hne. unfold handle_dropdown_modmanuf, manufacturer_options.
    destruct (String.eqb_spec new "PVFree"); [contradiction|].
    rewrite Hidx. cbn [rbind].
    now rewrite (append_manufacturers_fails "_" index _ name Hin Hc).
Qed.

Lemma manufacturer_separator_required_witness :
  handle_dropdown_manuf (fun _ => Ok ["ABB__MICRO_0_25"; "Generic"]) "CECInverter"
    = Raise ValueError /\
  ("CECInverter" <> "PVFree" ->
   handle_dropdown_modmanuf (fun _ => Ok ["ABB__MICRO_0_25"; "Generic"])
     "CECInverter" = Raise ValueError).
Proof.
  apply (manufacturer_separator_required _ "CECInverter" "Generic"
           ["ABB__MICRO_0_25"; "Generic"]);
    [reflexivity|right; now left|reflexivity].
Defined.





(** ** The file loaders *)

Lemma float_of_float (e : result pyval) (v : pyval) :
  float_of e = Ok v -> exists q, v = PFloat q.
Proof.
  unfold float_of. destruct e as [x|]; [|discriminate]. cbn [rbind].
  destruct x; cbn [py_float]; try discriminate;
    try (intros H; apply Ok_inj in H; subst; now eexists).
  destruct (scan_float _); [|discriminate].
  intros H; apply Ok_inj in H; subst; now eexists.
Qed.

Lemma kilo_float (e : result pyval) (v : pyval) :
  kilo e = Ok v -> exists q, v = PFloat q.
Proof.
  unfold kilo, float_of. destruct e as [x|]; [|discriminate]. cbn [rbind].
  destruct (py_float x) as [f|] eqn:E; [|discriminate]. cbn [rbind].
  destruct (float_of_float (Ok x) f) as [q ->];
    [unfold float_of; cbn [rbind]; exact E|].
  cbn [py_mul to_Z to_Q]. intros H. apply Ok_inj in H. subst.
  now eexists.
Qed.

(** X24. An inverter file that loads is accepted.  Whatever
    [on_button_clicked] stores after reading an OND file, [check_inverter]
    with [PVsyst] selected returns it as a PVWatts inverter, made of the
    [Pdco] and the [eta_inv_nom] of the loaded record, both floats. *)
Theorem ond_upload_accepted (g : gui) (ond files : pyval) :
  on_button_clicked ond = Ok files ->
  btn_files g = files ->
  inverter_btn g = PStr "PVsyst" ->
  exists inverter Pdco eta_inv_nom,
    files = PDict [("inv", PDict inverter)] /\
    dict_get inverter "Pdco" = Ok (PFloat Pdco) /\
    dict_get inverter "eta_inv_nom" = Ok (PFloat eta_inv_nom) /\
    check_inverter g =
      Ok (PList [PNone; PNone;
                 PDict [("Pdco", PFloat Pdco);
                        ("eta_inv_nom", PFloat eta_inv_nom)];
                 PStr "pvwatts"]).
Proof.
  intros H Hfiles Hbtn. unfold on_button_clicked in H.
  destruct (dict_of _) as [inv|] eqn:E; [|discriminate].
  cbn [rbind] in H. apply Ok_inj in H. subst files.
  apply dict_of_spec in E; [|apply distinct_NoDup; reflexivity].
  destruct E as [d [-> [_ Hget]]].
  destruct (Hget "Pdco" _ ltac:(in_items)) as [v1 [Hv1 Hd1]].
  destruct (Hget "eta_inv_nom" _ ltac:(in_items)) as [v3 [Hv3 Hd3]].
  destruct (kilo_float _ _ Hv1) as [pdco ->].
  destruct (float_of_float _ _ Hv3) as [eta ->].
  exists d, pdco, eta. split; [reflexivity|]. split; [exact Hd1|].
  split; [exact Hd3|].
  unfold check_inverter. rewrite Hbtn, Hfiles.
  run_body. cbn [py_item dict_get String.eqb Ascii.eqb Bool.eqb]. run_body.
  unfold dict_of. cbn [eval_items py_item]. rewrite Hd1, Hd3.
  reflexivity.
Qed.

Lemma ond_upload_accepted_witness :
  exists files,
    on_button_clicked demo_ond_file = Ok files /\
    exists inverter Pdco eta_inv_nom,
      files = PDict [("inv", PDict inverter)] /\
      dict_get inverter "Pdco" = Ok (PFloat Pdco) /\
      dict_get inverter "eta_inv_nom" = Ok (PFloat eta_inv_nom) /\
      check_inverter
        (demo_form (PStr "PVsyst") PNone PNone
           (Box [Input (PStr "PVsyst"); Box []]) files
           (PStr "Manual") PNone demo_mod_manual (PDict [])
           2 (PStr "10, 12") (PStr "3, 4") (PStr "Sin Seguidor")
           demo_fixed_panel)
      = Ok (PList [PNone; PNone;
                   PDict [("Pdco", PFloat Pdco);
                          ("eta_inv_nom", PFloat eta_inv_nom)];
                   PStr "pvwatts"]).
Proof.
  eexists. split; [vm_compute; reflexivity|].
  apply (ond_upload_accepted _ demo_ond_file);
    [vm_compute; reflexivity|reflexivity|reflexivity].
Defined.

Lemma set_a_ref_shape (m a : pyval) :
  set_a_ref m = Ok a ->
  exists d x, m = PDict d /\ a = PDict (dict_set d "a_ref" x).
Proof.
  unfold set_a_ref.
  destruct (py_item m "Gamma") as [gamma|]; [|discriminate].
  destruct (py_item m "NCelS") as [ncels|]; [|discriminate].
  cbn [rbind].
  destruct (py_mul gamma ncels) as [x|]; [|discriminate]. cbn [rbind].
  destruct (py_mul x _) as [y|]; [|discriminate]. cbn [rbind].
  destruct m; try discriminate. intros H. apply Ok_inj in H. subst a.
  do 2 eexists. split; reflexivity.
Qed.

(** What [on_modbutton_clicked] stores. *)
Lemma on_modbutton_clicked_stores (module files : pyval) :
  on_modbutton_clicked module = Ok files ->
  exists raw loaded tref t_noct,
    module = PDict raw /\ files = PDict [("mod", PDict loaded)] /\
    dict_get raw "TRef" = Ok tref /\
    py_add tref (PInt 20) = Ok t_noct /\
    dict_get loaded "T_NOCT" = Ok t_noct /\
    dict_get loaded "TRef" = Ok tref.
Proof.
  unfold on_modbutton_clicked. intros H.
  destruct module as [| | | | | |d0]; try discriminate H.
  cbn [set_item rbind py_item] in H.
  destruct (dict_get (dict_set d0 "Adjust" (PInt 0)) "Technol")
    as [technol|] eqn:E1; [|discriminate].
  cbn [set_item rbind py_item] in H.
  rewrite !dict_get_set_other in H by discriminate.
  destruct (dict_get d0 "TRef") as [tref|] eqn:E2; [|discriminate].
  cbn [set_item rbind py_item] in H.
  destruct (py_add tref (PInt 20)) as [t|] eqn:E3; [|discriminate].
  cbn [set_item rbind py_item] in H.
  rewrite !dict_get_set_other in H by discriminate.
  destruct (dict_get d0 "IAM") as [iam|] eqn:E4; [|discriminate].
  cbn [set_item rbind py_item] in H.
  destruct (tolist iam) as [l|] eqn:E5; [|discriminate].
  cbn [set_item rbind py_item] in H. apply Ok_inj in H. subst files.
  exists d0. eexists. exists tref, t.
  split; [reflexivity|]. split; [reflexivity|]. split; [exact E2|].
  split; [exact E3|]. split.
  - rewrite dict_get_set_other by discriminate. apply dict_get_set_same.
  - now rewrite !dict_get_set_other by discriminate.
Qed.

(** X25. A module file that loads gets its [T_NOCT] from [TRef].
    [on_modbutton_clicked] stores [T_NOCT = TRef + 20] in the loaded
    record, but [check_module] with [PVsyst] selected does not read that
    field: the [T_NOCT] of the record it returns is the file's [TRef]
    itself, without the 20 degrees. *)
Theorem pan_upload_t_noct (g : gui) (module files r : pyval) :
  on_modbutton_clicked module = Ok files ->
  modbtn_files g = files ->
  module_btn g = PStr "PVsyst" ->
  check_module g = Ok r ->
  exists loaded record tref t_noct,
    files = PDict [("mod", PDict loaded)] /\
    py_item module "TRef" = Ok tref /\
    py_add tref (PInt 20) = Ok t_noct /\
    dict_get loaded "T_NOCT" = Ok t_noct /\
    py_index r 2 = Ok (PDict record) /\
    dict_get record "T_NOCT" = Ok tref.
Proof.
  intros H Hfiles Hbtn Hr.
  destruct (on_modbutton_clicked_stores module files H)
    as [raw [loaded [tref [t [-> [-> [Ht [Hadd [Hl Hlt]]]]]]]]].
  exists loaded. unfold check_module in Hr. rewrite Hbtn, Hfiles in Hr.
  cbn [py_item dict_get String.eqb Ascii.eqb Bool.eqb] in Hr.
  run_cases Hr. all: apply Ok_inj in Hr; subst r.
  all: match goal with
       | E : set_a_ref _ = Ok _ |- _ =>
           apply set_a_ref_shape in E;
           destruct E as [d [x [Hd ->]]]; apply (f_equal (fun v =>
             match v with PDict i => i | _ => [] end)) in Hd;
           cbn in Hd; subst d
       end.
  all: match goal with
       | E : dict_of (pan_fields _) = Ok _ |- _ =>
           apply dict_of_spec in E; [|apply distinct_NoDup; reflexivity];
           destruct E as [rec [-> [_ Hget]]];
           destruct (Hget "T_NOCT" _ ltac:(in_items)) as [v [Hv Hrec]]
       end.
  all: cbn [py_item] in Hv; rewrite dict_get_set_other in Hv by discriminate;
       rewrite Hlt in Hv; apply Ok_inj in Hv; subst v.
  all: match goal with
       | E : set_item (PDict _) _ _ = Ok _ |- _ =>
           cbn [set_item] in E; apply Ok_inj in E; subst
       end.
  all: eexists; exists tref, t; split; [reflexivity|]; split; [exact Ht|];
       split; [exact Hadd|]; split; [exact Hl|]; split; [reflexivity|].
  all: now rewrite dict_get_set_other by discriminate.
Qed.

Lemma pan_upload_t_noct_witness :
  exists files r,
    on_modbutton_clicked demo_pan_file = Ok files /\
    check_module (demo_pan_form files) = Ok r /\
    exists loaded record tref t_noct,
      files = PDict [("mod", PDict loaded)] /\
      py_item demo_pan_file "TRef" = Ok tref /\
      py_add tref (PInt 20) = Ok t_noct /\
      dict_get loaded "T_NOCT" = Ok t_noct /\
      py_index r 2 = Ok (PDict record) /\
      dict_get record "T_NOCT" = Ok tref.
Proof.
  do 2 eexists. split; [vm_compute; reflexivity|].
  split; [vm_compute; reflexivity|].
  eapply (pan_upload_t_noct (demo_pan_form _) demo_pan_file);
    [vm_compute; reflexivity|reflexivity|reflexivity|vm_compute; reflexivity].
Defined.
(** ** The manual module form *)

Lemma manual_technology_tag (label value : string) :
  In (label, value) w_Type_options ->
  exists tag, In tag canonical_tags /\ module_tec (PStr value) = PStr tag.
Proof.
  cbn [w_Type_options In]. intros H.
  repeat (destruct H as [H|H];
          [apply (f_equal snd) in H; cbn [snd] in H; subst value;
           eexists; split; [|vm_compute; reflexivity];
           cbn [canonical_tags]; in_items|]).
  contradiction.
Qed.

(** X26. Every technology that the manual module form offers is one the
    normalization knows: with [Manual] selected and the technology chosen
    from the drop-down that [handle_modtoggle] builds, the record that
    [check_module] returns carries one of the seven tags, never null. *)
Theorem manual_technology_recognized
    (g : gui) (label value : string) (r : pyval) :
  module_btn g = PStr "Manual" ->
  value_at (module_vbox g) [1; 2; 1]%nat = Ok (PStr value) ->
  In (label, value) w_Type_options ->
  check_module g = Ok r ->
  exists module tag,
    py_index r 2 = Ok (PDict module) /\
    In tag canonical_tags /\
    module_tec (PStr value) = PStr tag /\
    dict_get module "Technology" = Ok (PStr tag).
Proof.
  intros Hbtn Hval Hin Hr.
  destruct (manual_technology_tag label value Hin) as [tag [Htag Htec]].
  unfold check_module in Hr. rewrite Hbtn in Hr.
  run_cases Hr. all: apply Ok_inj in Hr; subst r.
  all: match goal with
       | E : dict_of (manual_fields _) = Ok _ |- _ =>
           apply dict_of_spec in E; [|apply distinct_NoDup; reflexivity];
           destruct E as [rec [-> [_ Hget]]];
           destruct (Hget "Technology" _ ltac:(in_items)) as [v [Hv Hrec]]
       end.
  all: rewrite Hval in Hv; apply Ok_inj in Hv; subst v.
  all: match goal with
       | E : py_item (PDict _) "Technology" = Ok _ |- _ =>
           cbn [py_item] in E; rewrite Hrec in E; apply Ok_inj in E; subst
       end.
  all: match goal with
       | E : set_item (PDict _) _ _ = Ok _ |- _ =>
           cbn [set_item] in E; apply Ok_inj in E; subst
       end.
  all: eexists; exists tag; split; [reflexivity|]; split; [exact Htag|];
       split; [exact Htec|]; rewrite dict_get_set_same; now rewrite Htec.
Qed.

Lemma manual_technology_recognized_witness :
  exists r,
    check_module demo_fixed = Ok r /\
    exists module tag,
      py_index r 2 = Ok (PDict module) /\
      In tag canonical_tags /\
      module_tec (PStr "monosi") = PStr tag /\
      dict_get module "Technology" = Ok (PStr tag).
Proof.
  eexists. split; [vm_compute; reflexivity|].
  apply (manual_technology_recognized demo_fixed "Mono-Si" "monosi");
    [reflexivity|reflexivity|now left|vm_compute; reflexivity].
Defined.

(** ** The download button *)

Lemma string_app_inv_tail (a b c : string) :
  (a ++ c = b ++ c)%string -> a = b.
Proof.
  intros H. apply (f_equal list_ascii_of_string) in H.
  rewrite !list_ascii_of_string_app in H. apply app_inv_tail in H.
  apply (f_equal string_of_list_ascii) in H.
  now rewrite !string_of_list_ascii_of_string in H.
Qed.

(** X27. The download button never writes two configurations to the same
    file unless their plant names are the same: the path is one-to-one in
    the name, and a named plant never takes the path of the unnamed
    one. *)
Theorem json_file_injective (n1 n2 : string) :
  json_file n1 = json_file n2 -> n1 = n2.
Proof.
  unfold json_file.
  destruct (String.eqb_spec n1 EmptyString) as [->|H1];
    destruct (String.eqb_spec n2 EmptyString) as [->|H2];
    cbn [negb]; intros H.
  - reflexivity.
  - simpl in H. discriminate H.
  - simpl in H. discriminate H.
  - simpl in H. repeat (injection H as H).
    now apply string_app_inv_tail in H.
Qed.

Lemma json_file_injective_witness : "demo" = "demo".
Proof.
  apply (json_file_injective "demo" "demo"). reflexivity.
Defined.
(** ** Integers only for one subarray *)

Local Open Scope char_scope.

Lemma scan_int_fraction (n : numeral) :
  wf_numeral n = true -> is_integer n = false -> scan_int (render n) = None.
Proof.
  intros Hwf Hint. destruct (wf_numeral_parts n Hwf) as [Hi _].
  destruct (int_ok_cons _ Hi) as [c [r [Hds [Hc [Hr _]]]]].
  assert (Hall : all_digits (num_int n) = true).
  { rewrite Hds. cbn [all_digits forallb]. now rewrite Hc. }
  rewrite render_parts. unfold scan_int.
  set (tail := render_frac (num_frac n) ++ render_exp (num_exp n)).
  assert (Hsign : scan_sign ((if num_neg n then ["-"] else [])
                             ++ num_int n ++ tail)
                  = (num_neg n, num_int n ++ tail)).
  { destruct (num_neg n); cbn [app].
    - reflexivity.
    - rewrite Hds. cbn [app]. now apply scan_sign_digit. }
  rewrite Hsign.
  assert (Htail : non_digit_head tail = true).
  { pose proof (frac_part_non_digit (num_frac n) (num_exp n) [] eq_refl) as H.
    now rewrite app_nil_r in H. }
  rewrite (span_digits_app (num_int n) tail Hall Htail).
  rewrite Hds. unfold is_integer in Hint. unfold tail.
  destruct (num_frac n) as [f|]; [reflexivity|].
  destruct (num_exp n) as [e|]; [reflexivity|discriminate].
Qed.

Local Close Scope char_scope.

(** X28. For exactly one subarray the electrical fields must hold an
    integer literal.  A numeral with a fraction or an exponent, which the
    same fields accept as a float when there are several subarrays, makes
    [check_econfig] fail with [ValueError]. *)
Theorem check_econfig_integer_required (g : gui) (n : numeral) :
  wf_numeral n = true -> is_integer n = false ->
  w_mps g = PStr (string_of_list_ascii (render n)) ->
  check_econfig g 1 = Raise ValueError.
Proof.
  intros Hwf Hint Hm. unfold check_econfig. rewrite Hm.
  cbn [Z.eqb Pos.eqb]. unfold int_list1, ok. cbn [rbind py_int].
  rewrite list_ascii_of_string_of_list_ascii, (strip_numeral n Hwf).
  now rewrite (scan_int_fraction n Hwf Hint).
Qed.

Lemma check_econfig_integer_required_witness :
  check_econfig
    (demo_form (PStr "Manual") PNone (PStr "NREL PVWatts") demo_inv_pvwatts
       (PDict []) (PStr "Manual") PNone demo_mod_manual (PDict [])
       1 (PStr "2.0") (PStr "3") (PStr "Sin Seguidor") demo_fixed_panel) 1
  = Raise ValueError.
Proof.
  apply (check_econfig_integer_required _ (decimal "2" "0"));
    reflexivity.
Defined.
